(** * chogori-platform: K23SI request validation, TSO worker, CPO client, TPC-C client

    A shallow embedding of the parts of the platform that the specification
    makes checkable statements about:

    - [K23SI]: the request validators of [K23SIPartitionModule]
      (src/k2/module/k23si/Module.h);
    - [TPCC]: [getRangeEnds] and the Delivery batch size of the TPC-C client
      (src/k2/cmd/tpcc/tpcc_client.cpp);
    - [TSO]: [TSOWorker::GetTimestampFromTSO] and its helper
      (src/k2/tso/service/TSOWorker.cpp);
    - [CPO]: [CPOClient::GetAssignedPartitionWithRetry] and
      [CPOClient::PartitionRequest] (src/k2/cpo/client/CPOClient.h);
    - [K23SIPush]: [_validatePushRetention] (src/k2/module/k23si/Module.h);
    - [TPCCClient]: the choice of transactions and the counters of
      [Client::_tpcc], and the warehouses of [Client::_data_load]
      (src/k2/cmd/tpcc/tpcc_client.cpp);
    - [CPORuns] and [CPOCreate]: the executions of these two functions, and
      [CPOClient::CreateAndWaitForCollection];
    - [TSOService]: [TSOWorker::handleGetTSOTimestampBatch],
      [TSOWorker::UpdateWorkerControlInfo] and [TSOWorker::AdjustWorker]
      (src/k2/tso/service/TSOWorker.cpp);
    - [TSOControl]: requests and updates of the control information handled
      by one worker, one after the other.

    Machine integers are [Z] with the wrap-around written out; unordered maps
    are [gmap]; code that suspends on a seastar future is a resumption over an
    explicit reactor state. *)

From Stdlib Require Import ZArith Lia Bool List Sorted.
From stdpp Require Import base decidable option list gmap strings.

Local Open Scope Z_scope.

(** ** Fixed-width integers *)

Module Int.
Definition uint16 (z : Z) : Z := z mod 2 ^ 16.
Definition uint32 (z : Z) : Z := z mod 2 ^ 32.
Definition uint64 (z : Z) : Z := z mod 2 ^ 64.
(** Conversion to a signed 16-bit integer (two's complement). *)
Definition int16 (z : Z) : Z := (z + 2 ^ 15) mod 2 ^ 16 - 2 ^ 15.
End Int.

(** ** Data transfer objects shared by the modules *)

Module dto.

(** [dto::Key]: schema name, partition key, range key. *)
Record Key := mkKey {
  schemaName : string;
  partitionKey : string;
  rangeKey : string
}.

(** Modelled from the spec: [dto::Timestamp] is declared in
    k2/dto/Timestamp.h, which is not among the sources; the spec gives it as
    the triple (start, end, tsoId). *)
Record Timestamp := mkTimestamp {
  tStartTSECount : Z;
  tEndTSECount : Z;
  tsoId : Z
}.

(** Modelled from the spec: a three-valued comparator over timestamps
    "using end vs start to model uncertainty windows". Timestamps of one TSO
    compare by their end; timestamps of two TSOs compare when their windows
    do not overlap and otherwise fall back on the TSO id. The result is the
    integer value of the comparison: negative, zero or positive. This
    instance is only used to evaluate the validators on concrete requests;
    the validators themselves take the comparator as a parameter. *)
Definition Timestamp_compareCertain (a b : Timestamp) : Z :=
  if tsoId a =? tsoId b then
    if tEndTSECount a <? tEndTSECount b then -1
    else if tEndTSECount b <? tEndTSECount a then 1 else 0
  else if tEndTSECount b <? tStartTSECount a then 1
  else if tEndTSECount a <? tStartTSECount b then -1
  else if tsoId a <? tsoId b then -1 else 1.

(** Partition version id (k2/dto/Collection.h, not among the sources); the
    code only compares two of them for equality. *)
Record PVID := mkPVID {
  id : Z;
  rangeVersion : Z;
  assignmentVersion : Z
}.

#[global] Instance PVID_eq_dec : EqDecision PVID.
Proof. solve_decision. Defined.

Record K23SI_MTR := mkMTR {
  timestamp : Timestamp;
  priority : Z
}.

Inductive AssignmentState := NotAssigned | PendingAssignment | Assigned | FailedAssignment.

#[global] Instance AssignmentState_eq_dec : EqDecision AssignmentState.
Proof. solve_decision. Defined.

Record Partition := mkPartition {
  pvid : PVID;
  startKey : string;
  endKey : string;
  astate : AssignmentState
}.

Record CollectionMetadata := mkCollectionMetadata {
  name : string;
  retentionPeriod : Z;
  heartbeatDeadline : Z
}.

Record Schema := mkSchema {
  schema_name : string;
  schema_version : Z
}.

End dto.

(** ** The K23SI partition module: request validation (Module.h) *)

Module K23SI.
Import dto.

(** Modelled from the spec: the status taxonomy of section 6. The constants
    of [dto::K23SIStatus] are declared in k2/dto/K23SI.h, which is not among
    the sources; a status is one of these kinds together with its message. *)
Inductive K23SIStatus :=
| OK | Created | NotFound | BadParameter | AbortConflict | AbortRequestTooOld
| RefreshCollection | OperationNotAllowed | ServiceUnavailable | RequestTimeout.

#[global] Instance K23SIStatus_eq_dec : EqDecision K23SIStatus.
Proof. solve_decision. Defined.

Record Status := mkStatus { code : K23SIStatus; message : string }.

Record K23SIReadRequest := mkReadRequest {
  read_pvid : PVID;
  read_collectionName : string;
  read_mtr : K23SI_MTR;
  read_key : Key
}.

Record K23SIQueryRequest := mkQueryRequest {
  query_pvid : PVID;
  query_collectionName : string;
  query_mtr : K23SI_MTR;
  query_key : Key;
  query_endKey : Key;
  query_exclusiveKey : bool;
  query_recordLimit : Z;
  query_includeVersionMismatch : bool;
  query_reverseDirection : bool
}.

Record K23SIWriteRequest := mkWriteRequest {
  write_pvid : PVID;
  write_collectionName : string;
  write_mtr : K23SI_MTR;
  write_trh : Key;
  write_isDelete : bool;
  write_designateTRH : bool;
  write_key : Key
}.

(** The validators are templates over the request type [RequestT]. What a
    template body uses of the request is collected in this interface;
    [isQueryRequest] is [std::is_same<RequestT, dto::K23SIQueryRequest>::value],
    and [reverseDirection] is only read in the branch where it is true. *)
Class RequestT (R : Type) := {
  collectionName : R -> string;
  pvid : R -> PVID;
  key : R -> Key;
  mtr : R -> K23SI_MTR;
  isQueryRequest : bool;
  reverseDirection : R -> bool
}.

#[global] Instance ReadRequestT : RequestT K23SIReadRequest := {|
  collectionName := read_collectionName;
  pvid := read_pvid;
  key := read_key;
  mtr := read_mtr;
  isQueryRequest := false;
  reverseDirection := fun _ => false
|}.

#[global] Instance QueryRequestT : RequestT K23SIQueryRequest := {|
  collectionName := query_collectionName;
  pvid := query_pvid;
  key := query_key;
  mtr := query_mtr;
  isQueryRequest := true;
  reverseDirection := query_reverseDirection
|}.

#[global] Instance WriteRequestT : RequestT K23SIWriteRequest := {|
  collectionName := write_collectionName;
  pvid := write_pvid;
  key := write_key;
  mtr := write_mtr;
  isQueryRequest := false;
  reverseDirection := fun _ => false
|}.

(** [dto::OwnerPartition] wraps the assigned partition. *)
Record OwnerPartition := mkOwnerPartition { partition : Partition }.

(** The members of [K23SIPartitionModule] that the validators read. *)
Record K23SIPartitionModule := mkModule {
  _cmeta : CollectionMetadata;
  _partition : OwnerPartition;
  _schemas : gmap string (gmap Z Schema);
  _retentionTimestamp : Timestamp
}.

Section Validators.
(** [OwnerPartition::owns(key, reverse)] and [Timestamp::compareCertain]
    are declared in headers that are not among the sources: they are
    parameters here. [owns p k false] stands for the one-argument call
    [owns(k)]; [compareCertain a b] is the integer the code compares
    with zero. *)
Variable owns : OwnerPartition -> Key -> bool -> bool.
Variable compareCertain : Timestamp -> Timestamp -> Z.

Context {R : Type} `{RequestT R}.

Definition _validateRequestPartition (m : K23SIPartitionModule) (req : R) : bool :=
  let result :=
    bool_decide (collectionName req = name (_cmeta m))
    && bool_decide (pvid req = dto.pvid (partition (_partition m))) in
  if isQueryRequest (R := R)
  then result && owns (_partition m) (key req) (reverseDirection req)
  else result && owns (_partition m) (key req) false.

Definition _validateRetentionWindow (m : K23SIPartitionModule) (req : R) : bool :=
  0 <=? compareCertain (timestamp (mtr req)) (_retentionTimestamp m).

Definition _validateRequestPartitionKey (req : R) : bool :=
  if isQueryRequest (R := R)
  then true
  else negb (bool_decide (partitionKey (key req) = EmptyString)).

Definition _validateReadRequest (m : K23SIPartitionModule) (request : R) : Status :=
  if negb (_validateRequestPartition m request) then
    mkStatus RefreshCollection "collection refresh needed in read-type request"
  else if negb (_validateRequestPartitionKey request) then
    mkStatus BadParameter "missing partition key in read-type request"
  else if negb (_validateRetentionWindow m request) then
    mkStatus AbortRequestTooOld "request too old in read-type request"
  else if bool_decide (_schemas m !! schemaName (key request) = None) then
    mkStatus OperationNotAllowed "schema does not exist in read-type request"
  else mkStatus OK "".

(** The order of the checks as section 4.4 of the specification lists
    them (ownership, retention, partition key, schema); it is compared
    with [_validateReadRequest] below. *)
Definition validateReadRequest_spec_order (m : K23SIPartitionModule) (request : R) : K23SIStatus :=
  if negb (_validateRequestPartition m request) then RefreshCollection
  else if negb (_validateRetentionWindow m request) then AbortRequestTooOld
  else if negb (_validateRequestPartitionKey request) then BadParameter
  else if bool_decide (_schemas m !! schemaName (key request) = None) then OperationNotAllowed
  else OK.
End Validators.

(** Concrete data used to evaluate the validators. *)
Definition owns_everything : OwnerPartition -> Key -> bool -> bool := fun _ _ _ => true.

Definition pvid0 : PVID := mkPVID 1 1 1.

Definition module0 : K23SIPartitionModule := {|
  _cmeta := mkCollectionMetadata "TPCC" 3600 10;
  _partition := mkOwnerPartition (mkPartition pvid0 "" "" Assigned);
  _schemas := {[ "warehouse" := {[ 1 := mkSchema "warehouse" 1 ]} ]};
  _retentionTimestamp := mkTimestamp 90 100 1
|}.

Definition read0 (ts : Z) (pkey : string) (p : PVID) : K23SIReadRequest := {|
  read_pvid := p;
  read_collectionName := "TPCC";
  read_mtr := mkMTR (mkTimestamp (ts - 10) ts 1) 0;
  read_key := mkKey "warehouse" pkey ""
|}.

(** A read request that the partition owns, with an empty partition key and
    a timestamp below the retention timestamp of [module0]. *)
Definition read_empty_key_too_old : K23SIReadRequest := read0 50 "" pvid0.

(** A read request with a partition key and a timestamp below the
    retention timestamp of [module0], addressed to another partition. *)
Definition read_too_old_wrong_partition : K23SIReadRequest := read0 50 "w1" (mkPVID 2 1 1).

End K23SI.

(** ** The TPC-C client (tpcc_client.cpp) *)

Module TPCC.
Import Int.

Section getRangeEnds.
(** [FieldToKeyString<int16_t>] (k2/dto/FieldTypes.h) is not among the
    sources: the key encoding of a 16-bit integer is a parameter. *)
Variable FieldToKeyString_int16 : Z -> string.

(** The loop [for (uint32_t i = 1; i <= numPartitions; ++i)]. The counter
    is a 32-bit unsigned integer; [fuel] bounds the number of iterations
    and [None] means it did not suffice. The argument of
    [FieldToKeyString<int16_t>] is computed in [uint32_t] and converted
    to [int16_t]. *)
Fixpoint getRangeEnds_loop (fuel : nat) (numPartitions share i : Z)
    (rangeEnds : list string) : option (list string) :=
  match fuel with
  | O => None
  | S fuel' =>
      if i <=? numPartitions then
        let range_end := FieldToKeyString_int16 (int16 (uint32 (uint32 (i * share) + 1))) in
        getRangeEnds_loop fuel' numPartitions share (uint32 (i + 1)) (rangeEnds ++ [range_end])
      else Some rangeEnds
  end.

(** [numPartitions = 0] divides by zero in the source (undefined); the
    statements below are about [numPartitions >= 1]. *)
Definition getRangeEnds (fuel : nat) (numPartitions numWarehouses : Z) : option (list string) :=
  let share := numWarehouses / numPartitions in
  let share := if share =? 0 then 1 else share in
  match getRangeEnds_loop fuel numPartitions share 1 [] with
  | Some rangeEnds => Some (<[Z.to_nat (uint32 (numPartitions - 1)) := EmptyString]> rangeEnds)
  | None => None
  end.
(** The range ends pushed by the loop for the counter values
    [i, i+1, ..., i+n-1]. *)
Definition pushed (share i : Z) (n : nat) : list string :=
  map (fun k : nat => FieldToKeyString_int16 (int16 ((i + Z.of_nat k) * share + 1))) (seq 0 n).

End getRangeEnds.

(** The share of warehouses per partition computed by [getRangeEnds]. *)
Definition share_of (numPartitions numWarehouses : Z) : Z :=
  if numWarehouses / numPartitions =? 0 then 1 else numWarehouses / numPartitions.

(** A key encoding used to run [getRangeEnds]: the decimal digits are left
    out, only the sign and parity of the number are kept. *)
Definition toy_encoding (z : Z) : string :=
  if z <? 0 then "neg" else if Z.even z then "even" else "odd".

(** The Delivery branch of [Client::_tpcc]:
    [uint16_t batch_size = (x <= 10 && x > 0) ? batch_size : 10;]
    with [x = _delivery_txn_batch_size()]. The initializer names the
    variable being declared, whose value is indeterminate at that point; it
    is the parameter [indeterminate]. The result is what is passed to the
    [DeliveryT] constructor. *)
Definition delivery_batch_size (indeterminate : Z) (_delivery_txn_batch_size : Z) : Z :=
  let batch_size := indeterminate in
  if (_delivery_txn_batch_size <=? 10) && (0 <? _delivery_txn_batch_size)
  then batch_size else 10.

(** The clamp to [1,10] that the specification asks for. *)
Definition delivery_batch_size_spec (x : Z) : Z :=
  if (1 <=? x) && (x <=? 10) then x else 10.

End TPCC.

(** ** The TSO worker (TSOWorker.cpp) *)

Module TSO.
Import Int.

(** [TSOWorkerControlInfo] (TSOService.h, not among the sources): the fields
    that the worker reads. *)
Record TSOWorkerControlInfo := mkControlInfo {
  IsReadyToIssueTS : bool;
  TBENanoSecStep : Z;
  TBEAdjustment : Z;
  TsDelta : Z;
  ReservedTimeThreshold : Z;
  BatchTTL : Z;
  IgnoreThreshold : bool
}.

(** [TimestampBatch] (k2/dto/TimestampBatch.h, not among the sources) with the
    six fields that [GetTimestampFromTSO] assigns; a field holds the value
    assigned to it. *)
Module TimestampBatch.
Record t := mk {
  TBEBase : Z;
  TSOId : Z;
  TsDelta : Z;
  TTLNanoSec : Z;
  TSCount : Z;
  TBENanoSecStep : Z
}.
End TimestampBatch.

(** The members of [TSOService::TSOWorker] used when issuing timestamps. *)
Record TSOWorker := mkWorker {
  _tsoId : Z;
  _curControlInfo : TSOWorkerControlInfo;
  _lastRequestTBEMicroSecRounded : Z;
  _lastRequestTimeStampCount : Z
}.

Inductive Exception := TSONotReadyException | K2AssertFailure.

(** A call either returns a batch or raises. *)
Inductive Outcome :=
| Returned (result : TimestampBatch.t)
| Thrown (e : Exception).

(** What a call leaves behind: its outcome, the worker, and the readings of
    the clock that it did not consume. *)
Definition Result : Type := Outcome * TSOWorker * list Z.

Section Worker.
(** [seastar::this_shard_id()]. *)
Variable this_shard_id : Z.
(** [K2ASSERT] (k2/common/Log.h, not among the sources) aborts the process
    in builds that enable it and is empty otherwise; which of the two is a
    parameter. *)
Variable K2ASSERT_enabled : bool.

(** [(now_nsec_count() + _curControlInfo.TBEAdjustment) / 1000 * 1000] in
    64-bit unsigned arithmetic. *)
Definition TBEMicroSecRounded (w : TSOWorker) (now_nsec_count : Z) : Z :=
  uint64 (uint64 (now_nsec_count + TBEAdjustment (_curControlInfo w)) / 1000 * 1000).

(** The busy wait of the helper,
    [while (cur == _lastRequestTBEMicroSecRounded) cur = (now_nsec_count() + ...) / 1000 * 1000;]
    followed by the call [GetTimestampFromTSO(batchSizeRequested)], here
    [retry]. Every evaluation of [now_nsec_count()] takes the next reading of
    [clock]; [None] means that the readings ran out while waiting. *)
Definition busy_wait {A : Type} (w : TSOWorker) (retry : list Z -> option A)
  : Z -> list Z -> option A :=
  fix wait (curTBEMicroSecRounded : Z) (clock : list Z) {struct clock} : option A :=
    if curTBEMicroSecRounded =? _lastRequestTBEMicroSecRounded w then
      match clock with
      | [] => None
      | now_nsec_count :: clock' => wait (TBEMicroSecRounded w now_nsec_count) clock'
      end
    else retry clock.

(** [GetTimeStampFromTSOLessFrequentHelper]; the first argument stands for
    the recursive call of [GetTimestampFromTSO] after the busy wait. *)
Definition GetTimeStampFromTSOLessFrequentHelper
    (GetTimestampFromTSO : list Z -> option Result)
    (clock : list Z) (w : TSOWorker)
    (batchSizeRequested curTBEMicroSecRounded : Z) : option Result :=
  let ci := _curControlInfo w in
  (* step 1/4 *)
  if negb (IsReadyToIssueTS ci) then Some (Thrown TSONotReadyException, w, clock)
  (* step 2/4 *)
  else if (ReservedTimeThreshold ci <? uint64 (curTBEMicroSecRounded + 1000))
          && negb (IgnoreThreshold ci)
  then Some (Thrown TSONotReadyException, w, clock)
  (* step 3/4 *)
  else if curTBEMicroSecRounded <? _lastRequestTBEMicroSecRounded w
  then Some (Thrown TSONotReadyException, w, clock)
  (* step 4/4 *)
  else if K2ASSERT_enabled
          && negb (curTBEMicroSecRounded =? _lastRequestTBEMicroSecRounded w)
  then Some (Thrown K2AssertFailure, w, clock)
  else
    let leftoverTS :=
      uint16 (1000 / TBENanoSecStep ci - _lastRequestTimeStampCount w) in
    if leftoverTS <? batchSizeRequested then
      busy_wait w GetTimestampFromTSO curTBEMicroSecRounded clock
    else
      let result := {|
        TimestampBatch.TBEBase :=
          uint64 (curTBEMicroSecRounded + this_shard_id - 1
                  + _lastRequestTimeStampCount w * TBENanoSecStep ci);
        TimestampBatch.TSOId := _tsoId w;
        TimestampBatch.TsDelta := TsDelta ci;
        TimestampBatch.TTLNanoSec := BatchTTL ci;
        TimestampBatch.TSCount := batchSizeRequested;
        TimestampBatch.TBENanoSecStep := TBENanoSecStep ci
      |} in
      let w' := {|
        _tsoId := _tsoId w;
        _curControlInfo := ci;
        _lastRequestTBEMicroSecRounded := _lastRequestTBEMicroSecRounded w;
        _lastRequestTimeStampCount :=
          uint16 (_lastRequestTimeStampCount w + batchSizeRequested)
      |} in
      Some (Returned result, w', clock).

(** [GetTimestampFromTSO]. [clock] lists the successive readings of
    [now_nsec_count()]. *)
Fixpoint GetTimestampFromTSO (clock : list Z) (w : TSOWorker) (batchSizeRequested : Z)
    {struct clock} : option Result :=
  match clock with
  | [] => None
  | now_nsec_count :: clock =>
      let ci := _curControlInfo w in
      let curTBEMicroSecRounded := TBEMicroSecRounded w now_nsec_count in
      if IsReadyToIssueTS ci
         && (IgnoreThreshold ci
             || (uint64 (curTBEMicroSecRounded + 1000) <? ReservedTimeThreshold ci))
         && (_lastRequestTBEMicroSecRounded w <? curTBEMicroSecRounded)
      then
        if K2ASSERT_enabled
           && (ReservedTimeThreshold ci <? uint64 (curTBEMicroSecRounded + 1000))
           && negb (IgnoreThreshold ci)
        then Some (Thrown K2AssertFailure, w, clock)
        else
          let batchSizeToIssue :=
            Z.min batchSizeRequested (uint16 (1000 / TBENanoSecStep ci)) in
          let result := {|
            TimestampBatch.TBEBase := uint64 (curTBEMicroSecRounded + this_shard_id - 1);
            TimestampBatch.TSOId := _tsoId w;
            TimestampBatch.TsDelta := TsDelta ci;
            TimestampBatch.TTLNanoSec := BatchTTL ci;
            TimestampBatch.TSCount := batchSizeToIssue;
            TimestampBatch.TBENanoSecStep := TBENanoSecStep ci
          |} in
          let w' := {|
            _tsoId := _tsoId w;
            _curControlInfo := ci;
            _lastRequestTBEMicroSecRounded := curTBEMicroSecRounded;
            _lastRequestTimeStampCount := batchSizeToIssue
          |} in
          Some (Returned result, w', clock)
      else
        GetTimeStampFromTSOLessFrequentHelper
          (fun clock' => GetTimestampFromTSO clock' w batchSizeRequested)
          clock w batchSizeRequested curTBEMicroSecRounded
  end.

(** A sequence of calls on one worker, sharing the clock. A raised
    [TSONotReadyException] is caught by the request handler and leaves the
    worker as it was; a failed [K2ASSERT] ends the process, so no later call
    is made. *)
Fixpoint calls (clock : list Z) (w : TSOWorker) (requests : list Z)
    : option (list Outcome) :=
  match requests with
  | [] => Some []
  | batchSizeRequested :: requests' =>
      match GetTimestampFromTSO clock w batchSizeRequested with
      | None => None
      | Some (Thrown K2AssertFailure, _, _) => Some [Thrown K2AssertFailure]
      | Some (out, w', clock') => option_map (cons out) (calls clock' w' requests')
      end
  end.
End Worker.

(** The batches among the outcomes of a sequence of calls, in order. *)
Fixpoint issued (outs : list Outcome) : list TimestampBatch.t :=
  match outs with
  | [] => []
  | Returned b :: outs' => b :: issued outs'
  | Thrown _ :: outs' => issued outs'
  end.

(** Modelled from the spec: the timestamps of a batch. The generator is in
    k2/dto/TimestampBatch.h, which is not among the sources; the batch
    [{TBEBase, count, step}] stands for the [TSCount] timestamps
    [TBEBase + i * TBENanoSecStep], [0 <= i < TSCount]. *)
Definition timestamps (b : TimestampBatch.t) : list Z :=
  map (fun i : nat => TimestampBatch.TBEBase b + Z.of_nat i * TimestampBatch.TBENanoSecStep b)
      (seq 0 (Z.to_nat (TimestampBatch.TSCount b))).

(** All timestamps of a list of batches, in the order of issue. *)
Definition all_timestamps (bs : list TimestampBatch.t) : list Z :=
  concat (map timestamps bs).

(** A worker on shard 1 that is ready, steps by 100ns, and whose reserved
    time threshold is far away. *)
Definition worker1 : TSOWorker := {|
  _tsoId := 7;
  _curControlInfo := mkControlInfo true 100 0 20 1000000 8000 false;
  _lastRequestTBEMicroSecRounded := 0;
  _lastRequestTimeStampCount := 0
|}.


(** Rounding down to the microsecond. *)
Definition us (x : Z) : Z := x / 1000 * 1000.

(** *** Conditions and ghost state used to state the properties of the worker *)

(** The worker is in a state that its own calls produce: a positive step, a
    rounded last request time, and no more timestamps counted for that
    microsecond than it holds. *)
Definition worker_ok (w : TSOWorker) : Prop :=
  0 < TBENanoSecStep (_curControlInfo w)
  /\ 0 <= TBEAdjustment (_curControlInfo w)
  /\ 0 <= _lastRequestTBEMicroSecRounded w
  /\ _lastRequestTBEMicroSecRounded w mod 1000 = 0
  /\ 0 <= _lastRequestTimeStampCount w <= 1000 / TBENanoSecStep (_curControlInfo w).

Section Conditions.
Variable this_shard_id : Z.

(** The clock does not go backwards, and adding the adjustment, the shard
    offset and one microsecond to a reading does not overflow 64 bits. *)
Definition clock_ok (ci : TSOWorkerControlInfo) (clock : list Z) : Prop :=
  StronglySorted Z.le clock
  /\ Forall (fun now => 0 <= now /\ now + TBEAdjustment ci + this_shard_id + 1000 <= 2 ^ 64) clock.

(** The batch [b] holds the slots [k, k+1, ..., k+TSCount-1] of the
    microsecond [cur]: slot [j] is the timestamp
    [cur + shard offset + j * step]. *)
Definition slot (ci : TSOWorkerControlInfo) (b : TimestampBatch.t) (cur k : Z) : Prop :=
  TimestampBatch.TBEBase b = cur + (this_shard_id - 1) + k * TBENanoSecStep ci
  /\ TimestampBatch.TBENanoSecStep b = TBENanoSecStep ci
  /\ cur mod 1000 = 0
  /\ 0 <= k
  /\ 0 <= TimestampBatch.TSCount b
  /\ k + TimestampBatch.TSCount b <= 1000 / TBENanoSecStep ci.

(** Ghost state: [c] is the microsecond of the last batch issued and [e]
    the first slot free in it. Either [c] is not after the last request
    time of the worker, or the reserved threshold is exactly one
    microsecond after [c], it is not ignored, and the clock has not gone
    back before [c]. *)
Definition ghost_ok (w : TSOWorker) (c e : Z) (clock : list Z) : Prop :=
  e <= _lastRequestTimeStampCount w
  /\ (c <= _lastRequestTBEMicroSecRounded w
      \/ (IgnoreThreshold (_curControlInfo w) = false
          /\ c + 1000 = ReservedTimeThreshold (_curControlInfo w)
          /\ Forall (fun now => c <= us (now + TBEAdjustment (_curControlInfo w))) clock)).

(** What one call establishes. *)
Definition call_post (w : TSOWorker) (req c e : Z) (r : Result) : Prop :=
  let '(out, w', clock') := r in
  worker_ok w'
  /\ _curControlInfo w' = _curControlInfo w
  /\ clock_ok (_curControlInfo w) clock'
  /\ match out with
     | Returned b =>
         exists cur k,
           slot (_curControlInfo w) b cur k
           /\ (c < cur \/ (c = cur /\ e <= k))
           /\ ghost_ok w' cur (k + TimestampBatch.TSCount b) clock'
           /\ TimestampBatch.TSCount b <= req
           /\ (_lastRequestTBEMicroSecRounded w < cur
               \/ (cur = _lastRequestTBEMicroSecRounded w
                   /\ k = _lastRequestTimeStampCount w
                   /\ TimestampBatch.TSCount b = req))
     | Thrown _ => w' = w /\ ghost_ok w c e clock'
     end.

(** Consecutive batches occupy increasing slots of increasing microseconds:
    a batch is either in a later microsecond than the one before it, or in
    the same microsecond from the first slot that is still free there. *)
Inductive chain (ci : TSOWorkerControlInfo) : Z -> Z -> list TimestampBatch.t -> Prop :=
| chain_nil (c e : Z) : chain ci c e []
| chain_cons (c e : Z) (b : TimestampBatch.t) (bs : list TimestampBatch.t) (cur k : Z) :
    slot ci b cur k ->
    c < cur \/ (c = cur /\ e <= k) ->
    chain ci cur (k + TimestampBatch.TSCount b) bs ->
    chain ci c e (b :: bs).

(** The number of timestamps of [ts] issued against the microsecond [m]:
    those whose value, less the shard offset, rounds down to [m]. *)
Definition issued_in_microsecond (m : Z) (ts : list Z) : Z :=
  Z.of_nat (length (List.filter (fun t => us (t - (this_shard_id - 1)) =? m) ts)).

End Conditions.

(** A clock, a sequence of requested sizes, and the outcomes of serving them
    with [worker1]. *)
Definition clock1 : list Z := [5000; 5200; 5400; 7000; 7100; 7100].
Definition requests1 : list Z := [3; 4; 5; 2].
Definition outs1 : list Outcome :=
  [Returned (TimestampBatch.mk 5000 7 20 8000 3 100);
   Returned (TimestampBatch.mk 5300 7 20 8000 4 100);
   Returned (TimestampBatch.mk 7000 7 20 8000 5 100);
   Returned (TimestampBatch.mk 7500 7 20 8000 2 100)].

End TSO.

(** ** The CPO client (CPOClient.h) *)

Module CPO.
Import dto.

Definition Duration : Type := Z.
Definition Verb : Type := Z.

(** Modelled from the spec: [k2::Status] and [k2::Statuses]
    (k2/transport/Status.h, not among the sources). A status is an HTTP-like
    code with a message; two statuses are equal when their codes are; the
    classes [2xx] and [5xx] are the codes 200-299 and 500-599. *)
Record Status := mkStatus { code : Z; message : string }.

Definition is2xxOK (s : Status) : bool := (200 <=? code s) && (code s <=? 299).
Definition is5xxRetryable (s : Status) : bool := (500 <=? code s) && (code s <=? 599).
Definition Status_eqb (a b : Status) : bool := code a =? code b.

Module Statuses.
Definition S200_OK (msg : string) : Status := mkStatus 200 msg.
Definition S403_Forbidden (msg : string) : Status := mkStatus 403 msg.
Definition S408_Request_Timeout (msg : string) : Status := mkStatus 408 msg.
Definition S410_Gone (msg : string) : Status := mkStatus 410 msg.
Definition S503_Service_Unavailable (msg : string) : Status := mkStatus 503 msg.
End Statuses.
Import Statuses.

(** [TXEndpoint] (TXEndpoint.h): the public fields. *)
Record TXEndpoint := mkTXEndpoint {
  url : string;
  protocol : string;
  ip : string;
  port : Z
}.

(** Collections and their partition maps (k2/dto/Collection.h and
    k2/dto/ControlPlaneOracle.h, not among the sources). *)
Record Collection := mkCollection {
  metadata : CollectionMetadata;
  partitionMap : list Partition
}.

Record CollectionGetRequest := mkCollectionGetRequest { name : string }.
Record CollectionGetResponse := mkCollectionGetResponse { collection : Collection }.

Record PartitionGetter := mkPartitionGetter { getter_collection : Collection }.

(** [PartitionGetter::PartitionWithEndpoint]; [partition] is a pointer that
    may be null. *)
Record PartitionWithEndpoint := mkPartitionWithEndpoint {
  partition : option Partition;
  preferredEndpoint : TXEndpoint
}.

(** A default-constructed [PartitionGetter], as [operator[]] of
    [collections] inserts for a missing name. *)
Definition PartitionGetter_default : PartitionGetter :=
  mkPartitionGetter (mkCollection (mkCollectionMetadata EmptyString 0 0) []).

(** [!partition || partition->astate != dto::AssignmentState::Assigned] *)
Definition not_assigned (p : option Partition) : bool :=
  match p with
  | None => true
  | Some p => negb (bool_decide (astate p = Assigned))
  end.

(** A [seastar::promise<Status>] object, by identity. *)
Definition promise : Type := nat.

(** The members of [CPOClient]. *)
Record CPOClient := mkCPOClient {
  cpo : TXEndpoint;
  collections : gmap string PartitionGetter;
  partition_request_timeout : Duration;
  cpo_request_timeout : Duration;
  cpo_request_backoff : Duration;
  requestWaiters : gmap string (list promise)
}.

(** The state that the code of one shard runs over between two suspensions:
    the client, the clock, the promises that have been given a value, and
    the identity of the next promise to be created. *)
Record Reactor := mkReactor {
  client : CPOClient;
  now : Z;
  fulfilled : gmap promise Status;
  next_promise : promise
}.

Definition set_collections (f : gmap string PartitionGetter -> gmap string PartitionGetter)
    (r : Reactor) : Reactor :=
  let c := client r in
  mkReactor
    (mkCPOClient (cpo c) (f (collections c)) (partition_request_timeout c)
       (cpo_request_timeout c) (cpo_request_backoff c) (requestWaiters c))
    (now r) (fulfilled r) (next_promise r).

Definition set_requestWaiters (f : gmap string (list promise) -> gmap string (list promise))
    (r : Reactor) : Reactor :=
  let c := client r in
  mkReactor
    (mkCPOClient (cpo c) (collections c) (partition_request_timeout c)
       (cpo_request_timeout c) (cpo_request_backoff c) (f (requestWaiters c)))
    (now r) (fulfilled r) (next_promise r).

(** [promise.set_value(status)] *)
Definition set_value (p : promise) (status : Status) (r : Reactor) : Reactor :=
  mkReactor (client r) (now r) (<[p := status]> (fulfilled r)) (next_promise r).

(** [it->second.emplace_back(seastar::promise<Status>())]: a new promise at
    the back of the waiters of [name]. *)
Definition emplace_back_promise (name : string) (waiters : list promise) (r : Reactor)
    : promise * Reactor :=
  let p := next_promise r in
  let r := set_requestWaiters (<[name := waiters ++ [p]]>) r in
  (p, mkReactor (client r) (now r) (fulfilled r) (S p)).

(** [collections[name]]: the getter stored for [name]; a default-constructed
    one is inserted when there is none. *)
Definition collections_at (name : string) (r : Reactor) : PartitionGetter * Reactor :=
  match collections (client r) !! name with
  | Some getter => (getter, r)
  | None => (PartitionGetter_default, set_collections (<[name := PartitionGetter_default]>) r)
  end.

(** Modelled from the spec: [CPOClient::FulfillWaiters] is defined in
    CPOClient.cpp, which is not among the sources. The spec has later callers
    "attach as waiters" of the one request in flight; fulfilling gives every
    waiting promise of [name] the status and removes the registration of
    [name], so that the next caller issues a request again. *)
Definition FulfillWaiters (name : string) (status : Status) (r : Reactor) : Reactor :=
  let waiters := default [] (requestWaiters (client r) !! name) in
  let r := foldl (fun r p => set_value p status r) r waiters in
  set_requestWaiters (delete name) r.

(** Modelled from the spec: [Deadline<ClockT>] (k2/common/Chrono.h, not among
    the sources): a point in time, over when the clock has reached it. *)
Record Deadline := mkDeadline { deadline_time : Z }.

Definition isOver (deadline : Deadline) (r : Reactor) : bool :=
  deadline_time deadline <=? now r.

Definition getRemaining (deadline : Deadline) (r : Reactor) : Duration :=
  if deadline_time deadline <=? now r then 0 else deadline_time deadline - now r.

Section Client.
(** The template parameters of [PartitionRequest]: the request carries a
    [pvid], a [collectionName] and a [key] next to its own payload. *)
Context {PayloadT ResponseT : Type}.
Variable verb : Verb.
(** [ResponseT()] *)
Variable ResponseT_default : ResponseT.
(** [PartitionGetter::getPartitionForKey(key, reverse, exclusiveKey)]
    (k2/dto/Collection.h, not among the sources). *)
Variable getPartitionForKey : PartitionGetter -> Key -> bool -> bool -> PartitionWithEndpoint.

Record RequestT := mkRequest {
  request_pvid : PVID;
  collectionName : string;
  key : Key;
  payload : PayloadT
}.

Definition set_pvid (p : PVID) (request : RequestT) : RequestT :=
  mkRequest p (collectionName request) (key request) (payload request).

(** The operations on which a future of this code waits: the two RPCs, a
    sleep, and the future of a promise. *)
Inductive Suspend : Type -> Type :=
| callRPC_CPO_COLLECTION_GET (request : CollectionGetRequest) (endpoint : TXEndpoint)
    (timeout : Duration) : Suspend (Status * CollectionGetResponse)
| callRPC (v : Verb) (request : RequestT) (endpoint : TXEndpoint)
    (timeout : Duration) : Suspend (Status * ResponseT)
| sleep (s : Duration) : Suspend unit
| get_future (p : promise) : Suspend Status.

(** A [seastar::future<A>]: ready with a value, or waiting on an operation
    with the continuation that receives its result. The continuation runs in
    the state of the reactor at the time it is resumed, which other
    continuations of the shard may have changed in between. *)
Inductive future (A : Type) : Type :=
| Ready (r : Reactor) (a : A)
| Pending {X : Type} (r : Reactor) (e : Suspend X) (k : X -> Reactor -> future A).
Arguments Ready {A} r a.
Arguments Pending {A X} r e k.

(** [f.then(k)] *)
Fixpoint then_ {A B : Type} (f : future A) (k : A -> Reactor -> future B) : future B :=
  match f with
  | Ready r a => k a r
  | Pending r e k' => Pending r e (fun x r' => then_ (k' x r') k)
  end.

Fixpoint GetAssignedPartitionWithRetry (retries : nat) (deadline : Deadline)
    (name : string) (key : Key) (reverse excludedKey : bool) (r : Reactor)
    {struct retries} : future Status :=
  match requestWaiters (client r) !! name with
  | Some waiters =>
      (* a request is already issued: add to its waiters and return *)
      let '(p, r) := emplace_back_promise name waiters r in
      Pending r (get_future p) (fun status r =>
        let '(assigned, r) :=
          if is2xxOK status then
            let '(getter, r) := collections_at name r in
            let partition := partition (getPartitionForKey getter key reverse excludedKey) in
            (negb (not_assigned partition), r)
          else (false, r) in
        if assigned then Ready r status
        else
          match retries with
          | O => Ready r (S408_Request_Timeout "get assigned partition retries exceeded")
          | S retries_minus_1 =>
              GetAssignedPartitionWithRetry retries_minus_1 deadline name key
                reverse excludedKey r
          end)
  | None =>
      (* register the ongoing request *)
      let r := set_requestWaiters (<[name := []]>) r in
      let timeout := Z.min (getRemaining deadline r) (cpo_request_timeout (client r)) in
      let request := mkCollectionGetRequest name in
      Pending r (callRPC_CPO_COLLECTION_GET request (cpo (client r)) timeout)
        (fun response r =>
          let '(status, coll_response) := response in
          if negb (is2xxOK status) && negb (is5xxRetryable status) then
            let r := FulfillWaiters name status r in
            Ready r status
          else
            let '(retry, r) :=
              if is2xxOK status then
                let r := set_collections
                           (<[name := mkPartitionGetter (collection coll_response)]>) r in
                let '(getter, r) := collections_at name r in
                let partition :=
                  partition (getPartitionForKey getter key reverse excludedKey) in
                let r := FulfillWaiters name status r in
                (not_assigned partition, r)
              else (true, r) in
            if negb retry then Ready r status
            else if is2xxOK status && retry && Nat.eqb retries O then
              let status := S503_Service_Unavailable "not all partitions assigned in cpo" in
              let r := FulfillWaiters name status r in
              Ready r status
            else if isOver deadline r then
              let status := S408_Request_Timeout "cpo deadline exceeded" in
              let r := FulfillWaiters name status r in
              Ready r status
            else
              match retries with
              | O =>
                  let r := FulfillWaiters name status r in
                  Ready r (S408_Request_Timeout "cpo retries exceeded")
              | S retries_minus_1 =>
                  let s := Z.min (getRemaining deadline r) (cpo_request_backoff (client r)) in
                  Pending r (sleep s) (fun _ r =>
                    GetAssignedPartitionWithRetry retries_minus_1 deadline name key
                      reverse excludedKey r)
              end)
  end.

(** The first part of [PartitionRequest]: the future [f], which is ready with
    "default cached response" when the collection is cached and the
    partition of the key is assigned, and gets the collection otherwise. *)
Definition PartitionRequest_f (deadline : Deadline) (request : RequestT)
    (reverse exclusiveKey : bool) (r : Reactor) : future Status :=
  match collections (client r) !! collectionName request with
  | None =>
      GetAssignedPartitionWithRetry 1 deadline (collectionName request) (key request)
        reverse exclusiveKey r
  | Some _ =>
      let '(getter, r) := collections_at (collectionName request) r in
      let partition :=
        partition (getPartitionForKey getter (key request) reverse exclusiveKey) in
      if not_assigned partition then
        GetAssignedPartitionWithRetry 1 deadline (collectionName request) (key request)
          reverse exclusiveKey r
      else Ready r (S200_OK "default cached response")
  end.

Fixpoint PartitionRequest (retries : nat) (deadline : Deadline) (request : RequestT)
    (reverse exclusiveKey : bool) (r : Reactor) {struct retries}
    : future (Status * ResponseT) :=
  then_ (PartitionRequest_f deadline request reverse exclusiveKey r) (fun status r =>
    match collections (client r) !! collectionName request with
    | None =>
        (* failed to get the collection *)
        Ready r (status, ResponseT_default)
    | Some _ =>
        let '(getter, r) := collections_at (collectionName request) r in
        let partition := getPartitionForKey getter (key request) reverse exclusiveKey in
        match CPO.partition partition with
        | Some p =>
            if negb (bool_decide (astate p = Assigned)) then
              Ready r (S503_Service_Unavailable "partition not assigned", ResponseT_default)
            else
              let timeout :=
                Z.min (getRemaining deadline r) (partition_request_timeout (client r)) in
              let request := set_pvid (pvid p) request in
              (* attempt the request RPC *)
              Pending r (callRPC verb request (preferredEndpoint partition) timeout)
                (fun result r =>
                  let '(status, k2response) := result in
                  if negb (Status_eqb status (S410_Gone ""))
                     && negb (is5xxRetryable status)
                  then Ready r (status, k2response)
                  else if isOver deadline r then
                    Ready r (S408_Request_Timeout "partition deadline exceeded",
                             ResponseT_default)
                  else
                    match retries with
                    | O =>
                        Ready r (S408_Request_Timeout "partition retries exceeded",
                                 ResponseT_default)
                    | S retries_minus_1 =>
                        then_ (GetAssignedPartitionWithRetry 1 deadline
                                 (collectionName request) (key request)
                                 reverse exclusiveKey r)
                          (fun _ r =>
                             PartitionRequest retries_minus_1 deadline request
                               reverse exclusiveKey r)
                    end)
        | None =>
            Ready r (S503_Service_Unavailable "partition not assigned", ResponseT_default)
        end
    end).

(** *** Executions, and the shard as a system of suspended calls *)

(** One resumption of a future: the operation it waited on, the result it
    was given, and the state of the reactor when it was resumed. *)
Inductive Resumption : Type :=
| Resume {X : Type} (e : Suspend X) (x : X) (r : Reactor).

(** [run f trace r a]: resumed as [trace] says, [f] becomes ready with [a],
    leaving the reactor in [r]. *)
Inductive run {A : Type} : future A -> list Resumption -> Reactor -> A -> Prop :=
| run_Ready (r : Reactor) (a : A) : run (Ready r a) [] r a
| run_Pending {X : Type} (r : Reactor) (e : Suspend X) (k : X -> Reactor -> future A)
    (x : X) (r' : Reactor) (trace : list Resumption) (r'' : Reactor) (a : A) :
    run (k x r') trace r'' a ->
    run (Pending r e k) (Resume e x r' :: trace) r'' a.

(** [Q] holds of every operation that [f] may come to wait on, together
    with its continuation, however [f] is resumed. *)
Fixpoint every_suspension {A : Type}
    (Q : forall X : Type, Suspend X -> (X -> Reactor -> future A) -> Prop)
    (f : future A) : Prop :=
  match f with
  | Ready _ _ => True
  | Pending r e k => Q _ e k /\ forall x r', every_suspension Q (k x r')
  end.

Definition is_callRPC {X : Type} (e : Suspend X) : bool :=
  match e with
  | callRPC _ _ _ _ => true
  | _ => false
  end.

(** [status == S410_Gone || status.is5xxRetryable()] *)
Definition retryable (status : Status) : bool :=
  Status_eqb status (S410_Gone "") || is5xxRetryable status.

(** The continuation [k] of a partition RPC sent with [request] by a call
    that has [retries] left. *)
Definition partition_response_handled (retries : nat) (deadline : Deadline)
    (reverse exclusiveKey : bool) (request : RequestT)
    (k : Status * ResponseT -> Reactor -> future (Status * ResponseT)) : Prop :=
  forall (status : Status) (k2response : ResponseT) (r : Reactor),
    (retryable status = false -> k (status, k2response) r = Ready r (status, k2response))
    /\ (retryable status = true -> isOver deadline r = false ->
        forall n, retries = S n ->
          k (status, k2response) r
          = then_ (GetAssignedPartitionWithRetry 1 deadline (collectionName request)
                     (key request) reverse exclusiveKey r)
              (fun _ r => PartitionRequest n deadline request reverse exclusiveKey r)).

Definition partition_rpcs_handled (retries : nat) (deadline : Deadline)
    (reverse exclusiveKey : bool)
    : forall X : Type, Suspend X -> (X -> Reactor -> future (Status * ResponseT)) -> Prop :=
  fun X e =>
    match e in Suspend X return (X -> Reactor -> future (Status * ResponseT)) -> Prop with
    | callRPC _ request _ _ =>
        fun k => exists m, (m <= retries)%nat
                           /\ partition_response_handled m deadline reverse exclusiveKey request k
    | _ => fun _ => True
    end.

(** *** The shard as a system of suspended calls *)

(** The collection whose get RPC the operation is, if it is one. *)
Definition is_collection_get {X : Type}
    (e : Suspend X) : option string :=
  match e with
  | callRPC_CPO_COLLECTION_GET request _ _ => Some (name request)
  | _ => None
  end.

(** The results that can resume an operation: the future of a promise
    resumes with the value the promise was given; an RPC may answer
    anything, a sleep ends. *)
Definition answers (r : Reactor) {X : Type}
    (e : Suspend X) : X -> Prop :=
  match e in Suspend X return X -> Prop with
  | get_future p => fun status => fulfilled r !! p = Some status
  | _ => fun _ => True
  end.

(** The clock moves between two continuations. *)
Definition tick (t : Z) (r : Reactor) : Reactor :=
  mkReactor (client r) t (fulfilled r) (next_promise r).

(** A suspended call: the operation it waits on and its continuation. *)
Inductive Fiber : Type :=
| Parked {A X : Type} (e : Suspend X)
    (k : X -> Reactor -> future A).

Record System := mkSystem { reactor : Reactor; fibers : list Fiber }.

(** A call that has run up to its next suspension joins the suspended calls,
    unless it is ready. *)
Definition park {A : Type} (f : future A) (others : list Fiber) : System :=
  match f with
  | Ready r _ => mkSystem r others
  | Pending r e k => mkSystem r (Parked e k :: others)
  end.

(** The shard runs one continuation at a time: a new call of one of the two
    functions runs up to its first suspension, or a suspended call is
    resumed with a result and runs up to its next one. *)
Inductive step : System -> System -> Prop :=
| step_GetAssignedPartitionWithRetry (s : System) (t : Z) (retries : nat)
    (deadline : Deadline) (name : string) (key : Key) (reverse excludedKey : bool) :
    step s (park (GetAssignedPartitionWithRetry retries deadline name key reverse
                    excludedKey (tick t (reactor s)))
              (fibers s))
| step_PartitionRequest (s : System) (t : Z) (retries : nat) (deadline : Deadline)
    (request : RequestT) (reverse exclusiveKey : bool) :
    step s (park (PartitionRequest retries deadline request reverse exclusiveKey
                    (tick t (reactor s)))
              (fibers s))
| step_resume (s : System) (t : Z) (before after : list Fiber) {A X : Type}
    (e : Suspend X) (k : X -> Reactor -> future A) (x : X) :
    fibers s = before ++ Parked e k :: after ->
    answers (reactor s) e x ->
    step s (park (k x (tick t (reactor s))) (before ++ after)).

(** The states of a shard that starts with no request registered and no
    call suspended. *)
Inductive reachable : System -> Prop :=
| reachable_start (r : Reactor) :
    requestWaiters (client r) = ∅ -> reachable (mkSystem r [])
| reachable_step (s s' : System) : reachable s -> step s s' -> reachable s'.

Definition waits_for_collection (name : string) (f : Fiber) : bool :=
  match f with
  | Parked e _ => bool_decide (is_collection_get e = Some name)
  end.

(** The number of collection-get RPCs for [name] that are in flight. *)
Definition outstanding (name : string) (s : System) : nat :=
  length (List.filter (waits_for_collection name) (fibers s)).

(** *** Ownership of a registration *)

Definition registered (name : string) (r : Reactor) : Prop :=
  is_Some (requestWaiters (client r) !! name).

(** What a call that works for the collection [name] does to the
    registrations between two suspensions, when it goes from owning the
    registration of [name] ([owns]) to [owns']: other names are left as they
    were; an owner has its name registered; the registration is only taken
    when the name was free, and one that is not owned is not removed. *)
Definition moves (name : string) (owns : bool) (r : Reactor) (owns' : bool) (r' : Reactor)
    : Prop :=
  (forall n, n <> name -> (registered n r' <-> registered n r))
  /\ (owns' = true -> registered name r')
  /\ (owns = false -> owns' = true -> ~ registered name r)
  /\ (owns = false -> owns' = false -> registered name r -> registered name r').

(** A future keeps to this discipline, and only waits on the collection-get
    RPC of [name] while it owns the registration. *)
Fixpoint good {A : Type} (name : string) (owns : bool) (r : Reactor) (f : future A) : Prop :=
  match f with
  | Ready r' _ => exists owns', moves name owns r owns' r'
  | Pending r' e k =>
      exists owns',
        moves name owns r owns' r'
        /\ (forall n, is_collection_get e = Some n -> n = name /\ owns' = true)
        /\ forall x r'', (owns' = true -> registered name r'') ->
                         good name owns' r'' (k x r'')
  end.

(** [others name r r']: the registrations of the names other than [name] are
    the same in [r'] as in [r]. *)
Definition others (name : string) (r r' : Reactor) : Prop :=
  forall n, n <> name -> (registered n r' <-> registered n r).

(** *** The invariant of the shard *)

(** A suspended call with the collection it works for and whether it owns
    the registration of that collection. *)
Record Tagged := mkTagged { tag_name : string; tag_owns : bool; tag_fiber : Fiber }.

Definition fiber_ok (t : Tagged) : Prop :=
  match tag_fiber t with
  | Parked e k =>
      (forall n, is_collection_get e = Some n -> n = tag_name t /\ tag_owns t = true)
      /\ forall x r, (tag_owns t = true -> registered (tag_name t) r) ->
                     good (tag_name t) (tag_owns t) r (k x r)
  end.

Fixpoint owners (ts : list Tagged) : list string :=
  match ts with
  | [] => []
  | t :: ts => if tag_owns t then tag_name t :: owners ts else owners ts
  end.

Definition Inv (s : System) : Prop :=
  exists ts : list Tagged,
    tag_fiber <$> ts = fibers s
    /\ Forall fiber_ok ts
    /\ NoDup (owners ts)
    /\ forall n, n ∈ owners ts -> registered n (reactor s).

End Client.

Arguments Ready {PayloadT ResponseT A} r a.
Arguments Pending {PayloadT ResponseT A X} r e k.

(** *** Resuming a future by hand, and data to run the client on *)

Section Resume.
Context {PayloadT ResponseT A : Type}.

(** The value of a future that is ready. *)
Definition result (f : future (PayloadT := PayloadT) (ResponseT := ResponseT) A) : option A :=
  match f with
  | Ready _ a => Some a
  | Pending _ _ _ => None
  end.

(** The state in which a future left the reactor when it last ran. *)
Definition left_reactor (f : future (PayloadT := PayloadT) (ResponseT := ResponseT) A)
    : Reactor :=
  match f with
  | Ready r _ => r
  | Pending r _ _ => r
  end.

(** A future that waits on the collection-get RPC, resumed with its
    response in the state [r]. *)
Definition resume_collection_get
    (f : future (PayloadT := PayloadT) (ResponseT := ResponseT) A)
    (response : Status * CollectionGetResponse) (r : Reactor)
    : option (future (PayloadT := PayloadT) (ResponseT := ResponseT) A) :=
  match f with
  | Pending _ e k =>
      match e in Suspend X return (X -> Reactor -> future A) -> option (future A) with
      | callRPC_CPO_COLLECTION_GET _ _ _ => fun k => Some (k response r)
      | _ => fun _ => None
      end k
  | Ready _ _ => None
  end.

(** A future that waits on a partition RPC, resumed with its response. *)
Definition resume_partition_rpc
    (f : future (PayloadT := PayloadT) (ResponseT := ResponseT) A)
    (response : Status * ResponseT) (r : Reactor)
    : option (future (PayloadT := PayloadT) (ResponseT := ResponseT) A) :=
  match f with
  | Pending _ e k =>
      match e in Suspend X return (X -> Reactor -> future A) -> option (future A) with
      | callRPC _ _ _ _ => fun k => Some (k response r)
      | _ => fun _ => None
      end k
  | Ready _ _ => None
  end.

(** A future that waits on the future of a promise, resumed with the value
    that the promise has in [r]. *)
Definition resume_promise
    (f : future (PayloadT := PayloadT) (ResponseT := ResponseT) A) (r : Reactor)
    : option (future (PayloadT := PayloadT) (ResponseT := ResponseT) A) :=
  match f with
  | Pending _ e k =>
      match e in Suspend X return (X -> Reactor -> future A) -> option (future A) with
      | get_future p =>
          fun k => match fulfilled r !! p with
                   | Some status => Some (k status r)
                   | None => None
                   end
      | _ => fun _ => None
      end k
  | Ready _ _ => None
  end.

(** A future that waits on a sleep, resumed when it is over. *)
Definition resume_sleep
    (f : future (PayloadT := PayloadT) (ResponseT := ResponseT) A) (r : Reactor)
    : option (future (PayloadT := PayloadT) (ResponseT := ResponseT) A) :=
  match f with
  | Pending _ e k =>
      match e in Suspend X return (X -> Reactor -> future A) -> option (future A) with
      | sleep _ => fun k => Some (k tt r)
      | _ => fun _ => None
      end k
  | Ready _ _ => None
  end.

(** The promise whose future a future waits on. *)
Definition awaited_promise (f : future (PayloadT := PayloadT) (ResponseT := ResponseT) A)
    : option promise :=
  match f with
  | Pending _ e _ =>
      match e with
      | get_future p => Some p
      | _ => None
      end
  | Ready _ _ => None
  end.

(** The duration of the sleep that a future waits on. *)
Definition sleeping (f : future (PayloadT := PayloadT) (ResponseT := ResponseT) A)
    : option Duration :=
  match f with
  | Pending _ e _ =>
      match e with
      | sleep s => Some s
      | _ => None
      end
  | Ready _ _ => None
  end.

(** The request of the partition RPC that a future waits on. *)
Definition sent_request (f : future (PayloadT := PayloadT) (ResponseT := ResponseT) A)
    : option (RequestT (PayloadT := PayloadT)) :=
  match f with
  | Pending _ e _ =>
      match e with
      | callRPC _ request _ _ => Some request
      | _ => None
      end
  | Ready _ _ => None
  end.
End Resume.

Definition endpoint0 : TXEndpoint :=
  mkTXEndpoint "tcp+k2rpc://10.0.0.1:12345" "tcp+k2rpc" "10.0.0.1" 12345.

(** A partition getter that answers with the first partition of the
    collection, whatever the key. *)
Definition first_partition : PartitionGetter -> Key -> bool -> bool -> PartitionWithEndpoint :=
  fun getter _ _ _ =>
    mkPartitionWithEndpoint (head (partitionMap (getter_collection getter))) endpoint0.

Definition client0 : CPOClient := mkCPOClient endpoint0 ∅ 100 100 500 ∅.
Definition reactor0 : Reactor := mkReactor client0 0 ∅ 0%nat.
Definition deadline0 : Deadline := mkDeadline 1000.
Definition key0 : Key := mkKey "warehouse" "w1" "".

Definition collection_of (state : AssignmentState) : Collection :=
  mkCollection (mkCollectionMetadata "TPCC" 3600 10)
    [mkPartition (mkPVID 1 1 1) "" "" state].

(** A reactor whose client has the collection cached with its partition
    assigned. *)
Definition reactor_cached : Reactor :=
  set_collections (<["TPCC" := mkPartitionGetter (collection_of Assigned)]>) reactor0.

Definition request0 : RequestT (PayloadT := unit) := mkRequest (mkPVID 0 0 0) "TPCC" key0 tt.

(** The two functions of the client at these parameters. *)
Definition Get0 (retries : nat) (r : Reactor) : future (PayloadT := unit) (ResponseT := unit) Status :=
  GetAssignedPartitionWithRetry first_partition retries deadline0 "TPCC" key0 false false r.

Definition Request0 (retries : nat) (r : Reactor)
    : future (PayloadT := unit) (ResponseT := unit) (Status * unit) :=
  PartitionRequest 3 tt first_partition retries deadline0 request0 false false r.

(** A shard on which one call has issued the collection-get RPC and a second
    call has attached itself to it. *)
Definition shard0 : System (PayloadT := unit) (ResponseT := unit) := mkSystem reactor0 [].

Definition shard1 : System (PayloadT := unit) (ResponseT := unit) :=
  park (Get0 1 (tick 0 (reactor shard0))) (fibers shard0).

Definition shard2 : System (PayloadT := unit) (ResponseT := unit) :=
  park (Get0 1 (tick 5 (reactor shard1))) (fibers shard1).

End CPO.

(** ** The TSO service: request handler and control path (TSOWorker.cpp) *)

Module TSOService.
Import Int TSO.

(** *** The request handler and the control path *)


Record GetTimeStampBatchRequest := mkGetTimeStampBatchRequest { batchSizeRequested : Z }.
Record GetTimeStampBatchResponse := mkGetTimeStampBatchResponse {
  timeStampBatch : TimestampBatch.t
}.

(** What the handler leaves behind: an RPC response, or nothing when a
    [K2ASSERT] has ended the process. *)
Inductive Handled :=
| RPCResponse (status : CPO.Status) (response : GetTimeStampBatchResponse)
| ProcessAborted.

(** The outcome of an update of the control information. *)
Inductive Updated :=
| Done (w : TSOWorker)
| AssertFailed.

Definition set_curControlInfo (controlInfo : TSOWorkerControlInfo) (w : TSOWorker) : TSOWorker :=
  mkWorker (_tsoId w) controlInfo (_lastRequestTBEMicroSecRounded w)
    (_lastRequestTimeStampCount w).

Section Service.
Variable this_shard_id : Z.
Variable K2ASSERT_enabled : bool.
(** [TSONotReadyException::what()] and a default-constructed
    [TimestampBatch] (TSOService.h and TimestampBatch.h, not among the
    sources). *)
Variable TSONotReadyException_what : string.
Variable TimestampBatch_default : TimestampBatch.t.

(** [handleGetTSOTimestampBatch]. [GetTimestampFromTSO] raises nothing but
    [TSONotReadyException], so the handler of [std::exception] that answers
    500 has no case here. *)
Definition handleGetTSOTimestampBatch (clock : list Z) (w : TSOWorker)
    (request : GetTimeStampBatchRequest) : option (Handled * TSOWorker * list Z) :=
  if K2ASSERT_enabled && negb (0 <? batchSizeRequested request)
  then Some (ProcessAborted, w, clock)
  else
    match GetTimestampFromTSO this_shard_id K2ASSERT_enabled clock w
            (batchSizeRequested request) with
    | None => None
    | Some (Returned timestampBatchGot, w', clock') =>
        Some (RPCResponse (CPO.Statuses.S200_OK "OK") (mkGetTimeStampBatchResponse timestampBatchGot),
              w', clock')
    | Some (Thrown TSONotReadyException, w', clock') =>
        Some (RPCResponse (CPO.Statuses.S503_Service_Unavailable TSONotReadyException_what)
                (mkGetTimeStampBatchResponse TimestampBatch_default),
              w', clock')
    | Some (Thrown K2AssertFailure, w', clock') => Some (ProcessAborted, w', clock')
    end.

(** Step 2/3 of [AdjustWorker]: the time to pause, in 64-bit unsigned
    arithmetic, rounded up to a whole microsecond. *)
Definition timeToPauseWorkerNanoSec (_curControlInfo controlInfo : TSOWorkerControlInfo) : Z :=
  let timeToPauseWorkerNanoSec := 0 in
  let timeToPauseWorkerNanoSec :=
    if TBEAdjustment controlInfo <? TBEAdjustment _curControlInfo
    then uint64 (timeToPauseWorkerNanoSec
                 + (TBEAdjustment _curControlInfo - TBEAdjustment controlInfo))
    else timeToPauseWorkerNanoSec in
  let timeToPauseWorkerNanoSec :=
    if BatchTTL controlInfo <? BatchTTL _curControlInfo
    then uint64 (timeToPauseWorkerNanoSec + (BatchTTL _curControlInfo - BatchTTL controlInfo))
    else timeToPauseWorkerNanoSec in
  let timeToPauseWorkerNanoSec :=
    if negb (TBENanoSecStep controlInfo =? TBENanoSecStep _curControlInfo)
       && (timeToPauseWorkerNanoSec <? 1000)
    then 1000 else timeToPauseWorkerNanoSec in
  let floorTimeToPauseWorkerNanoSec := timeToPauseWorkerNanoSec / 1000 * 1000 in
  if (0 <? timeToPauseWorkerNanoSec)
     && negb (timeToPauseWorkerNanoSec =? floorTimeToPauseWorkerNanoSec)
  then uint64 (floorTimeToPauseWorkerNanoSec + 1000)
  else timeToPauseWorkerNanoSec.

(** The busy sleep of [AdjustWorker],
    [while ((cur - timeToPause) < _lastRequestTBEMicroSecRounded) cur = (now_nsec_count() + ...) / 1000 * 1000;]
    with the subtraction in 64-bit unsigned arithmetic. The result is the
    readings of the clock that are left; [None] means that they ran out. *)
Fixpoint busy_sleep (w : TSOWorker) (timeToPauseWorkerNanoSec curTBEMicroSecRounded : Z)
    (clock : list Z) {struct clock} : option (list Z) :=
  if uint64 (curTBEMicroSecRounded - timeToPauseWorkerNanoSec)
     <? _lastRequestTBEMicroSecRounded w
  then
    match clock with
    | [] => None
    | now_nsec_count :: clock' =>
        busy_sleep w timeToPauseWorkerNanoSec (TBEMicroSecRounded w now_nsec_count) clock'
    end
  else Some clock.

(** [AdjustWorker] *)
Definition AdjustWorker (clock : list Z) (w : TSOWorker) (controlInfo : TSOWorkerControlInfo)
    : option (Updated * list Z) :=
  (* step 1/3 *)
  if K2ASSERT_enabled
     && negb (IsReadyToIssueTS controlInfo && IsReadyToIssueTS (_curControlInfo w))
  then Some (AssertFailed, clock)
  else
    (* step 2/3 *)
    let timeToPauseWorkerNanoSec := timeToPauseWorkerNanoSec (_curControlInfo w) controlInfo in
    if 0 <? timeToPauseWorkerNanoSec then
      match clock with
      | [] => None
      | now_nsec_count :: clock =>
          let curTBEMicroSecRounded := TBEMicroSecRounded w now_nsec_count in
          match busy_sleep w timeToPauseWorkerNanoSec curTBEMicroSecRounded clock with
          | None => None
          | Some clock =>
              (* step 3/3 *)
              Some (Done (set_curControlInfo controlInfo w), clock)
          end
      end
    else Some (Done (set_curControlInfo controlInfo w), clock).

(** [UpdateWorkerControlInfo] *)
Definition UpdateWorkerControlInfo (clock : list Z) (w : TSOWorker)
    (controlInfo : TSOWorkerControlInfo) : option (Updated * list Z) :=
  if IsReadyToIssueTS (_curControlInfo w) && IsReadyToIssueTS controlInfo then
    AdjustWorker clock w controlInfo
  else if negb (IsReadyToIssueTS (_curControlInfo w)) && IsReadyToIssueTS controlInfo then
    (* StartWorker *)
    Some (Done (set_curControlInfo controlInfo w), clock)
  else if IsReadyToIssueTS (_curControlInfo w) && negb (IsReadyToIssueTS controlInfo) then
    (* StopWorker *)
    Some (Done (set_curControlInfo controlInfo w), clock)
  else
    (* K2ASSERT(false): a noop update *)
    if K2ASSERT_enabled then Some (AssertFailed, clock) else Some (Done w, clock).
End Service.


(** *** Conditions used to state the properties of the service *)

Section Conditions.
Variable this_shard_id : Z.
Variable K2ASSERT_enabled : bool.

(** The readings of the clock stay in range: adding the adjustment, the
    shard offset and one microsecond does not overflow 64 bits. *)
Definition clock_in_range (ci : TSOWorkerControlInfo) (clock : list Z) : Prop :=
  Forall (fun now => 0 <= now /\ now + TBEAdjustment ci + this_shard_id + 1000 <= 2 ^ 64) clock.

(** What a call has established when it returns, whatever the clock did. *)
Definition call_facts (w : TSOWorker) (req : Z) (clock : list Z) (r : Result) : Prop :=
  let '(out, w', clock') := r in
  let ci := _curControlInfo w in
  (exists now used, clock = used ++ now :: clock')
  /\ _curControlInfo w' = ci /\ _tsoId w' = _tsoId w
  /\ match out with
     | Returned b =>
         IsReadyToIssueTS ci = true
         /\ TimestampBatch.TSOId b = _tsoId w
         /\ TimestampBatch.TsDelta b = TsDelta ci
         /\ TimestampBatch.TTLNanoSec b = BatchTTL ci
         /\ TimestampBatch.TBENanoSecStep b = TBENanoSecStep ci
         /\ 0 <= TimestampBatch.TSCount b <= req
         /\ Z.min req (1000 / TBENanoSecStep ci) <= TimestampBatch.TSCount b
         /\ exists now k,
              now ∈ clock
              /\ TimestampBatch.TBEBase b
                 = us (now + TBEAdjustment ci) + (this_shard_id - 1) + k * TBENanoSecStep ci
              /\ 0 <= k /\ k + TimestampBatch.TSCount b <= 1000 / TBENanoSecStep ci
              /\ _lastRequestTBEMicroSecRounded w <= us (now + TBEAdjustment ci)
              /\ (IgnoreThreshold ci = false ->
                  us (now + TBEAdjustment ci) + 1000 <= ReservedTimeThreshold ci)
     | Thrown TSONotReadyException =>
         w' = w
         /\ (IsReadyToIssueTS ci = false
             \/ exists now, now ∈ clock
                  /\ ((IgnoreThreshold ci = false
                       /\ ReservedTimeThreshold ci <= us (now + TBEAdjustment ci) + 1000)
                      \/ us (now + TBEAdjustment ci) < _lastRequestTBEMicroSecRounded w))
     | Thrown K2AssertFailure =>
         w' = w /\ K2ASSERT_enabled = true
         /\ exists now, now ∈ clock
              /\ IgnoreThreshold ci = false
              /\ us (now + TBEAdjustment ci) + 1000 = ReservedTimeThreshold ci
     end.

(** The conditions on the clock under which [AdjustWorker] is considered:
    it does not go backwards, stays in range under both adjustments, is not
    behind the last request, and reads more than the batch TTL plus two
    microseconds. *)
Definition adjust_clock_ok (w : TSOWorker) (new : TSOWorkerControlInfo) (clock : list Z) : Prop :=
  StronglySorted Z.le clock
  /\ clock_in_range (_curControlInfo w) clock
  /\ clock_in_range new clock
  /\ Forall (fun now =>
       _lastRequestTBEMicroSecRounded w <= us (now + TBEAdjustment (_curControlInfo w))
       /\ BatchTTL (_curControlInfo w) + 2000 <= now) clock.

(** The clock moves on: some reading is in a microsecond after the one of
    the last request, and it is not the last reading. *)
Definition advances (w : TSOWorker) (clock : list Z) : Prop :=
  exists pre a b rest,
    clock = pre ++ a :: b :: rest
    /\ _lastRequestTBEMicroSecRounded w < us (a + TBEAdjustment (_curControlInfo w)).

(** Nothing stands in the way of issuing at the readings of the clock: it
    is not behind the last request and the reserved threshold is ignored or
    more than a microsecond away. *)
Definition may_issue (w : TSOWorker) (clock : list Z) : Prop :=
  Forall (fun now =>
    _lastRequestTBEMicroSecRounded w <= us (now + TBEAdjustment (_curControlInfo w))
    /\ (IgnoreThreshold (_curControlInfo w) = true
        \/ us (now + TBEAdjustment (_curControlInfo w)) + 1000
           < ReservedTimeThreshold (_curControlInfo w))) clock.

End Conditions.

(** The control information fits the arithmetic of [AdjustWorker]. *)
Definition control_ok (ci : TSOWorkerControlInfo) : Prop :=
  0 < TBENanoSecStep ci /\ 0 <= TBEAdjustment ci /\ 0 <= BatchTTL ci
  /\ TBEAdjustment ci + BatchTTL ci + 2000 <= 2 ^ 64.

(** The shrink of the adjustment plus the shrink of the batch TTL from
    [old] to [new]. *)
Definition shrink (old new : TSOWorkerControlInfo) : Z :=
  Z.max 0 (TBEAdjustment old - TBEAdjustment new) + Z.max 0 (BatchTTL old - BatchTTL new).

(** Data to run the control path on: a worker that has issued three
    timestamps in the microsecond 20000 under an adjustment of 3000ns, new
    control information that shrinks the adjustment by 1500ns, a clock, the
    control information that stops a worker, and a worker whose reserved
    threshold is 6000. *)
Definition worker2 : TSOWorker := {|
  _tsoId := 7;
  _curControlInfo := mkControlInfo true 100 3000 20 1000000000 8000 false;
  _lastRequestTBEMicroSecRounded := 20000;
  _lastRequestTimeStampCount := 3
|}.

Definition controlInfo2 : TSOWorkerControlInfo :=
  mkControlInfo true 100 1500 20 1000000000 8000 false.

Definition clock2 : list Z := [17500; 18000; 19200; 19800; 20100].

Definition stopped : TSOWorkerControlInfo := mkControlInfo false 100 0 20 1000000 8000 false.

Definition worker3 : TSOWorker := {|
  _tsoId := 7;
  _curControlInfo := mkControlInfo true 100 0 20 6000 8000 false;
  _lastRequestTBEMicroSecRounded := 0;
  _lastRequestTimeStampCount := 0
|}.

End TSOService.

(** ** Executions of the CPO client: what a call sends and returns *)

Module CPORuns.
Import dto CPO CPO.Statuses.

Section Client.
Context {PayloadT ResponseT : Type}.
Variable getPartitionForKey : PartitionGetter -> Key -> bool -> bool -> PartitionWithEndpoint.

Local Abbreviation RequestT := (@CPO.RequestT PayloadT).
Local Abbreviation Suspend := (@CPO.Suspend PayloadT ResponseT).
Local Abbreviation future := (@CPO.future PayloadT ResponseT).
Local Abbreviation Resumption := (@CPO.Resumption PayloadT ResponseT).

(** The client has the collection [name] cached with the partition of [key]
    assigned. *)
Definition assigned_in (r : Reactor) (name : string) (key : Key) (reverse excludedKey : bool)
    : Prop :=
  exists getter,
    collections (client r) !! name = Some getter
    /\ not_assigned (partition (getPartitionForKey getter key reverse excludedKey)) = false.

(** The operation is the collection-get RPC. *)
Definition is_CPO_COLLECTION_GET {X : Type} (e : Suspend X) : bool :=
  match e with
  | callRPC_CPO_COLLECTION_GET _ _ _ => true
  | _ => false
  end.

(** [sends P f trace n]: resumed as [trace] says, as far as [trace] goes,
    [f] has started [n] operations of the kind [P], the one it may be
    waiting on at the end included. *)
Inductive sends {A : Type} (P : forall X : Type, Suspend X -> bool)
    : future A -> list Resumption -> nat -> Prop :=
| sends_Ready (r : Reactor) (a : A) : sends P (Ready r a) [] 0
| sends_waiting {X : Type} (r : Reactor) (e : Suspend X) (k : X -> Reactor -> future A) :
    sends P (Pending r e k) [] (if P X e then 1 else 0)
| sends_resumed {X : Type} (r : Reactor) (e : Suspend X) (k : X -> Reactor -> future A)
    (x : X) (r' : Reactor) (trace : list Resumption) (n : nat) :
    sends P (k x r') trace n ->
    sends P (Pending r e k) (Resume e x r' :: trace) ((if P X e then 1 else 0) + n).

(** [Q] holds of every operation that [f] may come to wait on, together
    with the state in which [f] left the reactor when it started it. *)
Fixpoint every_pending {A : Type} (Q : forall X : Type, Reactor -> Suspend X -> Prop)
    (f : future A) : Prop :=
  match f with
  | Ready _ _ => True
  | Pending r e k => Q _ r e /\ forall x r', every_pending Q (k x r')
  end.

Variable verb : Verb.

(** A partition RPC of [PartitionRequest] for [request]: sent with the verb
    of the call to the preferred endpoint of the partition that the cache
    holds for the key of the request, which is assigned, with the [pvid] of
    that partition in the request and the remaining time, capped by
    [partition_request_timeout], as its timeout. *)
Definition sent_to_assigned_partition (deadline : Deadline) (request : RequestT)
    (reverse exclusiveKey : bool) : forall X : Type, Reactor -> Suspend X -> Prop :=
  fun X r e =>
    match e with
    | callRPC v sent endpoint timeout =>
        exists getter p,
          collections (client r) !! collectionName request = Some getter
          /\ partition (getPartitionForKey getter (key request) reverse exclusiveKey) = Some p
          /\ astate p = Assigned
          /\ v = verb
          /\ sent = set_pvid (pvid p) request
          /\ endpoint
             = preferredEndpoint (getPartitionForKey getter (key request) reverse exclusiveKey)
          /\ timeout = Z.min (getRemaining deadline r) (partition_request_timeout (client r))
    | _ => True
    end.

End Client.

(** A run of [GetAssignedPartitionWithRetry] with one retry: the CPO answers
    200 with the partition not yet assigned, the call sleeps for the backoff,
    asks again and is answered 200 with the partition assigned. *)
Definition get_retry_1 : future (PayloadT := unit) (ResponseT := unit) Status :=
  Get0 1 reactor0.

Definition get_retry_2 : future (PayloadT := unit) (ResponseT := unit) Status :=
  default get_retry_1
    (resume_collection_get get_retry_1
       (S200_OK "", mkCollectionGetResponse (collection_of PendingAssignment))
       (tick 10 (left_reactor get_retry_1))).

Definition get_retry_3 : future (PayloadT := unit) (ResponseT := unit) Status :=
  default get_retry_2 (resume_sleep get_retry_2 (tick 510 (left_reactor get_retry_2))).

Definition trace_get_retry : list (Resumption (PayloadT := unit) (ResponseT := unit)) :=
  [Resume (callRPC_CPO_COLLECTION_GET (mkCollectionGetRequest "TPCC") endpoint0 100)
     (S200_OK "", mkCollectionGetResponse (collection_of PendingAssignment))
     (tick 10 (left_reactor get_retry_1));
   Resume (sleep 500) tt (tick 510 (left_reactor get_retry_2));
   Resume (callRPC_CPO_COLLECTION_GET (mkCollectionGetRequest "TPCC") endpoint0 100)
     (S200_OK "", mkCollectionGetResponse (collection_of Assigned))
     (tick 520 (left_reactor get_retry_3))].

(** A run of [PartitionRequest] with one retry: the partition answers 410
    Gone, the call gets the collection again and sends the request a second
    time, which is answered 200. *)
Definition request_retry_1 : future (PayloadT := unit) (ResponseT := unit) (Status * unit) :=
  Request0 1 reactor_cached.

Definition request_retry_2 : future (PayloadT := unit) (ResponseT := unit) (Status * unit) :=
  default request_retry_1
    (resume_partition_rpc request_retry_1 (S410_Gone "moved", tt)
       (tick 10 (left_reactor request_retry_1))).

Definition request_retry_3 : future (PayloadT := unit) (ResponseT := unit) (Status * unit) :=
  default request_retry_2
    (resume_collection_get request_retry_2
       (S200_OK "", mkCollectionGetResponse (collection_of Assigned))
       (tick 20 (left_reactor request_retry_2))).

Definition trace_request_retry : list (Resumption (PayloadT := unit) (ResponseT := unit)) :=
  [Resume (callRPC 3 (set_pvid (mkPVID 1 1 1) request0) endpoint0 100)
     (S410_Gone "moved", tt) (tick 10 (left_reactor request_retry_1));
   Resume (callRPC_CPO_COLLECTION_GET (mkCollectionGetRequest "TPCC") endpoint0 100)
     (S200_OK "", mkCollectionGetResponse (collection_of Assigned))
     (tick 20 (left_reactor request_retry_2));
   Resume (callRPC 3 (set_pvid (mkPVID 1 1 1) request0) endpoint0 100)
     (S200_OK "", tt) (tick 30 (left_reactor request_retry_3))].
End CPORuns.

(** ** Creating a collection (CPOClient.h) *)

Module CPOCreate.
Import dto CPO CPO.Statuses.

(** [dto::CollectionCreateRequest] and its response, which has no fields
    (k2/dto/ControlPlaneOracle.h, not among the sources). *)
Record CollectionCreateRequest := mkCollectionCreateRequest {
  metadata : CollectionMetadata;
  clusterEndpoints : list string;
  rangeEnds : list string
}.

Definition CollectionCreateResponse : Type := unit.

Section Client.
Context {PayloadT ResponseT : Type}.
Variable getPartitionForKey : PartitionGetter -> Key -> bool -> bool -> PartitionWithEndpoint.

Local Abbreviation Suspend := (@CPO.Suspend PayloadT ResponseT).
Local Abbreviation future := (@CPO.future PayloadT ResponseT).
Local Abbreviation Resumption := (@CPO.Resumption PayloadT ResponseT).

(** The operations on which [CreateAndWaitForCollection] waits: the
    collection-create RPC, and those of [GetAssignedPartitionWithRetry]. *)
Inductive Operation : Type -> Type :=
| callRPC_CPO_COLLECTION_CREATE (request : CollectionCreateRequest) (endpoint : TXEndpoint)
    (timeout : Duration) : Operation (Status * CollectionCreateResponse)
| client_operation {X : Type} (e : Suspend X) : Operation X.

(** Futures over these operations. *)
Inductive create_future (A : Type) : Type :=
| CreateReady (r : Reactor) (a : A)
| CreatePending {X : Type} (r : Reactor) (e : Operation X)
    (k : X -> Reactor -> create_future A).
Arguments CreateReady {A} r a.
Arguments CreatePending {A X} r e k.

(** A future of the client as one of these. *)
Fixpoint lift {A : Type} (f : future A) : create_future A :=
  match f with
  | Ready r a => CreateReady r a
  | Pending r e k => CreatePending r (client_operation e) (fun x r' => lift (k x r'))
  end.

(** [CreateAndWaitForCollection]. [status == Statuses::S403_Forbidden]
    compares the codes. *)
Definition CreateAndWaitForCollection (deadline : Deadline) (metadata : CollectionMetadata)
    (clusterEndpoints rangeEnds : list string) (r : Reactor) : create_future Status :=
  let request := mkCollectionCreateRequest metadata clusterEndpoints rangeEnds in
  let timeout := Z.min (getRemaining deadline r) (cpo_request_timeout (client r)) in
  CreatePending r (callRPC_CPO_COLLECTION_CREATE request (cpo (client r)) timeout)
    (fun response r =>
       let '(status, k2response) := response in
       let name := dto.name (CPOCreate.metadata request) in
       if Status_eqb status (S403_Forbidden "") || is2xxOK status then
         let s := Z.min (getRemaining deadline r) (cpo_request_backoff (client r)) in
         CreatePending r (client_operation (sleep s)) (fun _ r =>
           lift (GetAssignedPartitionWithRetry getPartitionForKey 1 deadline name
                   (mkKey "" "" "") false false r))
       else CreateReady r status).

(** One resumption, and a run to completion, as for the futures of the
    client. *)
Inductive CreateResumption : Type :=
| CreateResume {X : Type} (e : Operation X) (x : X) (r : Reactor).

Inductive create_run {A : Type}
    : create_future A -> list CreateResumption -> Reactor -> A -> Prop :=
| create_run_Ready (r : Reactor) (a : A) : create_run (CreateReady r a) [] r a
| create_run_Pending {X : Type} (r : Reactor) (e : Operation X)
    (k : X -> Reactor -> create_future A) (x : X) (r' : Reactor)
    (trace : list CreateResumption) (r'' : Reactor) (a : A) :
    create_run (k x r') trace r'' a ->
    create_run (CreatePending r e k) (CreateResume e x r' :: trace) r'' a.

Definition lift_resumption (x : Resumption) : CreateResumption :=
  match x with
  | Resume e x r => CreateResume (client_operation e) x r
  end.

End Client.

Arguments CreateReady {PayloadT ResponseT A} r a.
Arguments CreatePending {PayloadT ResponseT A X} r e k.

End CPOCreate.

(** ** The K23SI partition module: validation of push requests (Module.h) *)

Module K23SIPush.
Import dto K23SI.

(** [dto::K23SITxnPushRequest] (k2/dto/K23SI.h, not among the sources): the
    fields that the partition module reads when it validates a push. *)
Record K23SITxnPushRequest := mkTxnPushRequest {
  push_pvid : PVID;
  push_collectionName : string;
  push_key : Key;
  incumbentMTR : K23SI_MTR;
  challengerMTR : K23SI_MTR
}.

Section Validators.
Variable compareCertain : Timestamp -> Timestamp -> Z.

(** [_validatePushRetention] *)
Definition _validatePushRetention (m : K23SIPartitionModule) (req : K23SITxnPushRequest)
    : bool :=
  0 <=? compareCertain (timestamp (challengerMTR req)) (_retentionTimestamp m).
End Validators.

End K23SIPush.

(** ** The TPC-C client: transactions, counters and data load (tpcc_client.cpp) *)

Module TPCCClient.
Import Int TPCC.

(** The transactions that [Client::_tpcc] constructs, with the arguments
    that it passes to their constructors besides the random context and the
    client. *)
Inductive TPCCTxn :=
| PaymentT (w_id max_warehouses : Z)
| OrderStatusT (w_id : Z)
| DeliveryT (w_id batch_size : Z)
| NewOrderT (w_id max_warehouses : Z).

(** The counters of [Client], 64-bit unsigned. *)
Record Counters := mkCounters {
  _completedTxns : Z;
  _newOrderTxns : Z;
  _paymentTxns : Z;
  _orderStatusTxns : Z;
  _deliveryTxns : Z
}.

Section Client.
(** [seastar::this_shard_id()], and the configuration values
    [_max_warehouses()] and [_delivery_txn_batch_size()]. *)
Variable this_shard_id : Z.
Variable _max_warehouses : Z.
Variable _delivery_txn_batch_size : Z.

(** [uint32_t w_id = (seastar::this_shard_id() % _max_warehouses()) + 1;]
    The shard id is unsigned, so [_max_warehouses()], an [int], is converted
    to unsigned. For [_max_warehouses() = 0] the source divides by zero. *)
Definition w_id : Z := uint32 (this_shard_id mod uint32 _max_warehouses + 1).

(** The transaction chosen in the body of the loop of [_tpcc] for the value
    [txn_type] of [_random.UniformRandom(1, 100)]; [indeterminate] is the
    value that the variable [batch_size] has when its own initializer reads
    it. *)
Definition curTxn (indeterminate : Z) (txn_type : Z) : TPCCTxn :=
  if txn_type <=? 43 then PaymentT w_id _max_warehouses
  else if txn_type <=? 47 then OrderStatusT w_id
  else if txn_type <=? 51 then
    DeliveryT w_id (delivery_batch_size indeterminate _delivery_txn_batch_size)
  else NewOrderT w_id _max_warehouses.
End Client.

(** The continuation of [curTxn->run()] in [_tpcc]: what the end of a
    transaction does to the counters. The latency histograms
    (k2::ExponentialHistogram, not among the sources) are left out. *)
Definition completed (txn_type : Z) (success : bool) (c : Counters) : Counters :=
  if negb success then c
  else
    let c := mkCounters (uint64 (_completedTxns c + 1)) (_newOrderTxns c) (_paymentTxns c)
               (_orderStatusTxns c) (_deliveryTxns c) in
    if txn_type <=? 43 then
      mkCounters (_completedTxns c) (_newOrderTxns c) (uint64 (_paymentTxns c + 1))
        (_orderStatusTxns c) (_deliveryTxns c)
    else if txn_type <=? 47 then
      mkCounters (_completedTxns c) (_newOrderTxns c) (_paymentTxns c)
        (uint64 (_orderStatusTxns c + 1)) (_deliveryTxns c)
    else if txn_type <=? 51 then
      mkCounters (_completedTxns c) (_newOrderTxns c) (_paymentTxns c)
        (_orderStatusTxns c) (uint64 (_deliveryTxns c + 1))
    else
      mkCounters (_completedTxns c) (uint64 (_newOrderTxns c + 1)) (_paymentTxns c)
        (_orderStatusTxns c) (_deliveryTxns c).

(** The counters of a new [Client]. *)
Definition Counters_initial : Counters := mkCounters 0 0 0 0 0.

(** A run of the benchmark on one shard, as far as the counters go: the
    transactions that ended, each with its type and whether it succeeded. *)
Definition benchmark (ended : list (Z * bool)) : Counters :=
  foldl (fun c '(txn_type, success) => completed txn_type success c) Counters_initial ended.

(** The warehouse that a transaction is constructed for. *)
Definition warehouse (txn : TPCCTxn) : Z :=
  match txn with
  | PaymentT w _ | OrderStatusT w | DeliveryT w _ | NewOrderT w _ => w
  end.

(** The kind of a transaction, by its constructor. *)
Inductive Kind := Payment | OrderStatus | Delivery | NewOrder.

#[global] Instance Kind_eq_dec : EqDecision Kind.
Proof. solve_decision. Defined.

Definition kind (txn : TPCCTxn) : Kind :=
  match txn with
  | PaymentT _ _ => Payment
  | OrderStatusT _ => OrderStatus
  | DeliveryT _ _ => Delivery
  | NewOrderT _ _ => NewOrder
  end.

(** The counter of a kind. *)
Definition counter (k : Kind) (c : Counters) : Z :=
  match k with
  | Payment => _paymentTxns c
  | OrderStatus => _orderStatusTxns c
  | Delivery => _deliveryTxns c
  | NewOrder => _newOrderTxns c
  end.

(** The kinds of the transactions chosen for the draws 1, 2, ..., 100. *)
Definition kinds_of_draws (this_shard_id _max_warehouses _delivery_txn_batch_size junk : Z)
    : list Kind :=
  map (fun txn_type =>
         kind (curTxn this_shard_id _max_warehouses _delivery_txn_batch_size junk txn_type))
      (map Z.of_nat (seq 1 100)).

(** How many of [ended] succeeded, and how many of them were of the kind
    [k], which only depends on the draw. *)
Definition succeeded (ended : list (Z * bool)) : Z :=
  Z.of_nat (length (List.filter snd ended)).

Definition succeeded_of (this_shard_id _max_warehouses _delivery_txn_batch_size junk : Z)
    (k : Kind) (ended : list (Z * bool)) : Z :=
  Z.of_nat (length (List.filter
                      (fun e => snd e
                                && bool_decide
                                     (kind (curTxn this_shard_id _max_warehouses
                                              _delivery_txn_batch_size junk (fst e)) = k))
                      ended)).

(** [Client::_data_load]: the arguments [(1 + id*share, 1 + id*share + share)]
    with which the shard [id] of [cpus] calls [generateWarehouseData], and
    nothing when the shards do not divide the warehouses evenly. The
    arithmetic is that of [int]; [/] and [%] truncate. *)
Definition data_load_warehouses (cpus id _max_warehouses : Z) : option (Z * Z) :=
  let share := Z.quot _max_warehouses cpus in
  if negb (Z.rem _max_warehouses cpus =? 0) then None
  else Some (1 + id * share, 1 + id * share + share).

End TPCCClient.

Module TSOControl.
Import Int TSO TSOService.

(** *** Requests and control updates on one worker *)

(** What reaches a worker: a request for a batch of timestamps, or new
    control information from the controller. *)
Inductive WorkerCall :=
| GetTimeStampBatch (request : GetTimeStampBatchRequest)
| ControlInfoUpdate (controlInfo : TSOWorkerControlInfo).

Section Worker.
Variable this_shard_id : Z.
Variable K2ASSERT_enabled : bool.
Variable TSONotReadyException_what : string.
Variable TimestampBatch_default : TimestampBatch.t.

(** The worker runs on one shard, so what reaches it is handled one after
    the other: a request by [handleGetTSOTimestampBatch], an update by
    [UpdateWorkerControlInfo], on the same worker and clock. The result
    lists the answers to the requests; a failed [K2ASSERT] ends the process,
    so nothing after it is handled. *)
Fixpoint serve (clock : list Z) (w : TSOWorker) (ops : list WorkerCall)
    : option (list Handled) :=
  match ops with
  | [] => Some []
  | GetTimeStampBatch request :: ops' =>
      match handleGetTSOTimestampBatch this_shard_id K2ASSERT_enabled
              TSONotReadyException_what TimestampBatch_default clock w request with
      | None => None
      | Some (ProcessAborted, _, _) => Some [ProcessAborted]
      | Some (response, w', clock') => option_map (cons response) (serve clock' w' ops')
      end
  | ControlInfoUpdate controlInfo :: ops' =>
      match UpdateWorkerControlInfo K2ASSERT_enabled clock w controlInfo with
      | None => None
      | Some (AssertFailed, _) => Some [ProcessAborted]
      | Some (Done w', clock') => serve clock' w' ops'
      end
  end.
End Worker.

(** The batches that the answers deliver: those of the responses with a
    2xx status, in order. *)
Fixpoint delivered (answers : list Handled) : list TimestampBatch.t :=
  match answers with
  | [] => []
  | RPCResponse status response :: answers' =>
      if CPO.is2xxOK status then timeStampBatch response :: delivered answers'
      else delivered answers'
  | ProcessAborted :: answers' => delivered answers'
  end.

(** An update keeps the step [step], has an adjustment that is not negative,
    and the readings of the clock stay in range under it. *)
Definition update_ok (this_shard_id step : Z) (clock : list Z) (op : WorkerCall) : Prop :=
  match op with
  | GetTimeStampBatch _ => True
  | ControlInfoUpdate controlInfo =>
      TBENanoSecStep controlInfo = step
      /\ 0 <= TBEAdjustment controlInfo
      /\ clock_in_range this_shard_id controlInfo clock
  end.

(** Data to run the two paths together: requests around an update of
    [worker2] that takes the adjustment from 3000ns to 1500ns, on a clock
    that goes back once. *)
Definition operations2 : list WorkerCall :=
  [GetTimeStampBatch (mkGetTimeStampBatchRequest 4);
   ControlInfoUpdate controlInfo2;
   GetTimeStampBatch (mkGetTimeStampBatchRequest 2);
   GetTimeStampBatch (mkGetTimeStampBatchRequest 5)].

Definition clock3 : list Z := [17500; 19000; 18000; 19800; 20100; 20100; 21400].

Definition TimestampBatch_zero : TimestampBatch.t := TimestampBatch.mk 0 0 0 0 0 0.

Definition answers2 : list Handled :=
  [RPCResponse (CPO.Statuses.S200_OK "OK")
     (mkGetTimeStampBatchResponse (TimestampBatch.mk 20300 7 20 8000 4 100));
   RPCResponse (CPO.Statuses.S503_Service_Unavailable "TSO not ready")
     (mkGetTimeStampBatchResponse TimestampBatch_zero);
   RPCResponse (CPO.Statuses.S200_OK "OK")
     (mkGetTimeStampBatchResponse (TimestampBatch.mk 21000 7 20 8000 5 100))].

(** Data for a change of the step: control information that halves the
    step of [worker2] and takes 2000ns off its adjustment, and a clock that
    does not go back. *)
Definition controlInfo4 : TSOWorkerControlInfo :=
  mkControlInfo true 50 1000 20 1000000000 8000 false.

Definition operations4 : list WorkerCall :=
  [GetTimeStampBatch (mkGetTimeStampBatchRequest 4);
   ControlInfoUpdate controlInfo4;
   GetTimeStampBatch (mkGetTimeStampBatchRequest 2)].

Definition clock4 : list Z := [17500; 19000; 19500].

Definition answers4 : list Handled :=
  [RPCResponse (CPO.Statuses.S200_OK "OK")
     (mkGetTimeStampBatchResponse (TimestampBatch.mk 20300 7 20 8000 4 100));
   RPCResponse (CPO.Statuses.S200_OK "OK")
     (mkGetTimeStampBatchResponse (TimestampBatch.mk 20350 7 20 8000 2 50))].

(** The control information of [worker3] with the reserved threshold moved
    on from 6000 to 1000000, as the controller refreshes it. *)
Definition controlInfo5 : TSOWorkerControlInfo :=
  mkControlInfo true 100 0 20 1000000 8000 false.

End TSOControl.

(** * Properties *)

Module K23SI_Properties.
Import dto K23SI.

Section Validators.
Variable owns : OwnerPartition -> Key -> bool -> bool.
Variable compareCertain : Timestamp -> Timestamp -> Z.
Context {R : Type} `{RequestT R}.

Lemma retention_false_iff (m : K23SIPartitionModule) (req : R) :
  _validateRetentionWindow compareCertain m req = false
  <-> compareCertain (timestamp (mtr req)) (_retentionTimestamp m) < 0.
Proof. unfold _validateRetentionWindow. rewrite Z.leb_gt. reflexivity. Qed.

Lemma retention_true_iff (m : K23SIPartitionModule) (req : R) :
  _validateRetentionWindow compareCertain m req = true
  <-> 0 <= compareCertain (timestamp (mtr req)) (_retentionTimestamp m).
Proof. unfold _validateRetentionWindow. rewrite Z.leb_le. reflexivity. Qed.

(** The status of a read-type request is decided by the first failing
    check in the order partition, partition key, retention, schema. *)
Lemma validateReadRequest_cases (m : K23SIPartitionModule) (req : R) :
  (_validateRequestPartition owns m req = false
     /\ code (_validateReadRequest owns compareCertain m req) = RefreshCollection)
  \/ (_validateRequestPartition owns m req = true
     /\ _validateRequestPartitionKey req = false
     /\ code (_validateReadRequest owns compareCertain m req) = BadParameter)
  \/ (_validateRequestPartition owns m req = true
     /\ _validateRequestPartitionKey req = true
     /\ _validateRetentionWindow compareCertain m req = false
     /\ code (_validateReadRequest owns compareCertain m req) = AbortRequestTooOld)
  \/ (_validateRequestPartition owns m req = true
     /\ _validateRequestPartitionKey req = true
     /\ _validateRetentionWindow compareCertain m req = true
     /\ _schemas m !! schemaName (key req) = None
     /\ code (_validateReadRequest owns compareCertain m req) = OperationNotAllowed)
  \/ (_validateRequestPartition owns m req = true
     /\ _validateRequestPartitionKey req = true
     /\ _validateRetentionWindow compareCertain m req = true
     /\ _schemas m !! schemaName (key req) <> None
     /\ code (_validateReadRequest owns compareCertain m req) = OK).
Proof.
  unfold _validateReadRequest.
  destruct (_validateRequestPartition owns m req); simpl; [|tauto].
  destruct (_validateRequestPartitionKey req); simpl; [|tauto].
  destruct (_validateRetentionWindow compareCertain m req); simpl; [|tauto].
  case_bool_decide; simpl; tauto.
Qed.

(** C1 (amended). The retention-window check rejects a request exactly
    when its MTR timestamp compares strictly below the retention timestamp
    ([compareCertain < 0]); a timestamp that compares equal or greater
    passes. A read-type request that fails the check is never accepted. The
    status it receives is that of the first check it fails: the partition
    and partition-key checks are made before the retention check, so it
    receives RefreshCollection when the partition check fails, BadParameter
    when the partition check passes and the partition key is empty, and
    AbortRequestTooOld when both pass; conversely AbortRequestTooOld is only
    returned to a request below the retention timestamp that passed both. *)
Theorem retention_window_check (m : K23SIPartitionModule) (req : R) :
  (_validateRetentionWindow compareCertain m req = false
     <-> compareCertain (timestamp (mtr req)) (_retentionTimestamp m) < 0)
  /\ (_validateRetentionWindow compareCertain m req = true
     <-> (compareCertain (timestamp (mtr req)) (_retentionTimestamp m) = 0
          \/ 0 < compareCertain (timestamp (mtr req)) (_retentionTimestamp m)))
  /\ (_validateRetentionWindow compareCertain m req = false
     -> code (_validateReadRequest owns compareCertain m req) <> OK
        /\ _validateReadRequest owns compareCertain m req
           = if negb (_validateRequestPartition owns m req)
             then mkStatus RefreshCollection "collection refresh needed in read-type request"
             else if negb (_validateRequestPartitionKey req)
             then mkStatus BadParameter "missing partition key in read-type request"
             else mkStatus AbortRequestTooOld "request too old in read-type request")
  /\ (_validateRequestPartition owns m req = true
     -> _validateRequestPartitionKey req = true
     -> _validateRetentionWindow compareCertain m req = false
     -> _validateReadRequest owns compareCertain m req
        = mkStatus AbortRequestTooOld "request too old in read-type request")
  /\ (code (_validateReadRequest owns compareCertain m req) = AbortRequestTooOld
     -> compareCertain (timestamp (mtr req)) (_retentionTimestamp m) < 0
        /\ _validateRequestPartition owns m req = true
        /\ _validateRequestPartitionKey req = true).
Proof.
  split; [apply retention_false_iff|].
  split; [rewrite retention_true_iff; lia|].
  rewrite <- retention_false_iff.
  unfold _validateReadRequest.
  destruct (_validateRequestPartition owns m req),
           (_validateRequestPartitionKey req),
           (_validateRetentionWindow compareCertain m req),
           (bool_decide (_schemas m !! schemaName (key req) = None));
    simpl; repeat split; intros; congruence.
Qed.

(** C2 (amended). The checks of a read-type request are applied in the
    order partition ownership, partition key non-empty, retention window,
    schema known, and the status is that of the first failing check:
    RefreshCollection, BadParameter, AbortRequestTooOld,
    OperationNotAllowed, and OK when all pass. An empty partition key is
    reported as BadParameter whether or not the timestamp is inside the
    retention window. *)
Theorem validateReadRequest_first_failing_check (m : K23SIPartitionModule) (req : R) :
  (_validateRequestPartition owns m req = false
     -> _validateReadRequest owns compareCertain m req
        = mkStatus RefreshCollection "collection refresh needed in read-type request")
  /\ (_validateRequestPartition owns m req = true
     -> _validateRequestPartitionKey req = false
     -> _validateReadRequest owns compareCertain m req
        = mkStatus BadParameter "missing partition key in read-type request")
  /\ (_validateRequestPartition owns m req = true
     -> _validateRequestPartitionKey req = true
     -> _validateRetentionWindow compareCertain m req = false
     -> _validateReadRequest owns compareCertain m req
        = mkStatus AbortRequestTooOld "request too old in read-type request")
  /\ (_validateRequestPartition owns m req = true
     -> _validateRequestPartitionKey req = true
     -> _validateRetentionWindow compareCertain m req = true
     -> _schemas m !! schemaName (key req) = None
     -> _validateReadRequest owns compareCertain m req
        = mkStatus OperationNotAllowed "schema does not exist in read-type request")
  /\ (_validateRequestPartition owns m req = true
     -> _validateRequestPartitionKey req = true
     -> _validateRetentionWindow compareCertain m req = true
     -> _schemas m !! schemaName (key req) <> None
     -> _validateReadRequest owns compareCertain m req = mkStatus OK "").
Proof.
  unfold _validateReadRequest.
  repeat split; intros;
    repeat match goal with Hb : _ = _ :> bool |- _ => rewrite Hb; clear Hb end;
    simpl; try reflexivity; case_bool_decide; simpl; congruence.
Qed.
End Validators.

(** C2 (as stated, refuted). For a request with an empty partition key and
    a timestamp below retention the code answers BadParameter, not
    AbortRequestTooOld: the partition key is checked before the retention
    window. The order of the specification would answer
    AbortRequestTooOld. *)
Lemma validateReadRequest_key_checked_before_retention :
  _validateRequestPartition owns_everything module0 read_empty_key_too_old = true
  /\ partitionKey (key read_empty_key_too_old) = EmptyString
  /\ Timestamp_compareCertain (timestamp (mtr read_empty_key_too_old))
                               (_retentionTimestamp module0) < 0
  /\ _validateReadRequest owns_everything Timestamp_compareCertain module0
        read_empty_key_too_old
      = mkStatus BadParameter "missing partition key in read-type request"
  /\ code (_validateReadRequest owns_everything Timestamp_compareCertain module0
             read_empty_key_too_old) <> AbortRequestTooOld
  /\ validateReadRequest_spec_order owns_everything Timestamp_compareCertain module0
        read_empty_key_too_old = AbortRequestTooOld.
Proof. vm_compute. repeat split; congruence. Qed.

(** C1 (as stated, refuted). A Read request with a timestamp below the
    retention timestamp, sent to a partition that does not own it, fails the
    retention-window check and does not receive AbortRequestTooOld: the
    partition check comes first and answers RefreshCollection. *)
Lemma read_below_retention_not_always_too_old :
  _validateRetentionWindow Timestamp_compareCertain module0 read_too_old_wrong_partition
  = false
  /\ Timestamp_compareCertain (timestamp (mtr read_too_old_wrong_partition))
                               (_retentionTimestamp module0) < 0
  /\ _validateRequestPartition owns_everything module0 read_too_old_wrong_partition = false
  /\ _validateReadRequest owns_everything Timestamp_compareCertain module0
        read_too_old_wrong_partition
      = mkStatus RefreshCollection "collection refresh needed in read-type request"
  /\ code (_validateReadRequest owns_everything Timestamp_compareCertain module0
             read_too_old_wrong_partition) <> AbortRequestTooOld.
Proof. vm_compute. repeat split; congruence. Qed.

(** C9. The partition-key check depends on the request type: a Query
    request always passes, also with an empty partition key; a request of
    any other type (Read and Write among them) passes exactly when its
    partition key is not empty. *)
Theorem validateRequestPartitionKey_by_request_type :
  (forall q : K23SIQueryRequest, _validateRequestPartitionKey q = true)
  /\ (forall (R : Type) (T : RequestT R) (req : R),
        isQueryRequest (R := R) = false ->
        (_validateRequestPartitionKey req = true <-> partitionKey (key req) <> EmptyString))
  /\ (forall r : K23SIReadRequest,
        _validateRequestPartitionKey r = true <-> partitionKey (read_key r) <> EmptyString)
  /\ (forall w : K23SIWriteRequest,
        _validateRequestPartitionKey w = true <-> partitionKey (write_key w) <> EmptyString).
Proof.
  assert (Hgen : forall (R : Type) (T : RequestT R) (req : R),
             isQueryRequest (R := R) = false ->
             (_validateRequestPartitionKey req = true <-> partitionKey (key req) <> EmptyString)).
  { intros R T req Hq. unfold _validateRequestPartitionKey. rewrite Hq.
    rewrite negb_true_iff, bool_decide_eq_false. reflexivity. }
  split; [reflexivity|]. split; [exact Hgen|].
  split; intros r; [apply (Hgen _ ReadRequestT r) | apply (Hgen _ WriteRequestT r)]; reflexivity.
Qed.

Example read_in_window_ok :
  _validateReadRequest owns_everything Timestamp_compareCertain module0
    (read0 150 "w1" pvid0) = mkStatus OK "".
Proof. reflexivity. Qed.

Example read_at_retention_ok :
  _validateReadRequest owns_everything Timestamp_compareCertain module0
    (read0 100 "w1" pvid0) = mkStatus OK "".
Proof. reflexivity. Qed.

Example read_below_retention_rejected :
  code (_validateReadRequest owns_everything Timestamp_compareCertain module0
          (read0 99 "w1" pvid0)) = AbortRequestTooOld.
Proof. reflexivity. Qed.

Example read_wrong_partition_refreshes :
  code (_validateReadRequest owns_everything Timestamp_compareCertain module0
          (read0 99 "" (mkPVID 2 1 1))) = RefreshCollection.
Proof. reflexivity. Qed.

End K23SI_Properties.

Module TPCC_Properties.
Import Int TPCC.

Lemma int16_uint32 (z : Z) : int16 (uint32 z) = int16 z.
Proof.
  unfold int16, uint32. f_equal.
  rewrite <- (Z.mod_mod_divide (z mod 2 ^ 32 + 2 ^ 15) (2 ^ 32) (2 ^ 16))
    by (exists (2 ^ 16); reflexivity).
  rewrite Zplus_mod_idemp_l.
  apply Z.mod_mod_divide. exists (2 ^ 16); reflexivity.
Qed.

Lemma int16_range_end (i share : Z) :
  int16 (uint32 (uint32 (i * share) + 1)) = int16 (i * share + 1).
Proof.
  rewrite int16_uint32. unfold uint32.
  rewrite <- (int16_uint32 (_ + 1)). unfold uint32.
  rewrite Zplus_mod_idemp_l. apply (int16_uint32 (i * share + 1)).
Qed.

(** C7. The Delivery batch size is not the clamp of the configured value:
    for a configured value in [1,10] the code takes the indeterminate
    value of the variable it is declaring, whatever it is, instead of the
    configured value; outside [1,10] it takes 10. At the configured value 5
    with the indeterminate value 0 the transaction is built with batch size
    0, where the clamp gives 5. *)
Theorem delivery_batch_size_reads_itself :
  (forall junk x, 1 <= x <= 10 -> delivery_batch_size junk x = junk)
  /\ (forall junk x, ~ 1 <= x <= 10 -> delivery_batch_size junk x = 10)
  /\ delivery_batch_size 0 5 = 0
  /\ delivery_batch_size_spec 5 = 5.
Proof.
  unfold delivery_batch_size. repeat split; intros.
  - replace (x <=? 10) with true by (symmetry; apply Z.leb_le; lia).
    replace (0 <? x) with true by (symmetry; apply Z.ltb_lt; lia). reflexivity.
  - destruct (Z.leb_spec x 10), (Z.ltb_spec 0 x); simpl; try reflexivity; lia.
Qed.

Section getRangeEnds.
Variable FieldToKeyString_int16 : Z -> string.

Local Abbreviation pushed := (TPCC.pushed FieldToKeyString_int16).

Lemma pushed_S (share i : Z) (n : nat) :
  pushed share i (S n)
  = FieldToKeyString_int16 (int16 (i * share + 1)) :: pushed share (i + 1) n.
Proof.
  unfold TPCC.pushed. simpl. rewrite Z.add_0_r. f_equal.
  rewrite <- seq_shift, map_map. apply map_ext. intros k.
  do 3 f_equal. lia.
Qed.

Lemma getRangeEnds_loop_spec (n : nat) :
  forall (fuel : nat) (numPartitions share i : Z) (acc : list string),
    1 <= i -> i + Z.of_nat n = numPartitions + 1 -> numPartitions < 2 ^ 32 - 1 ->
    (n < fuel)%nat ->
    getRangeEnds_loop FieldToKeyString_int16 fuel numPartitions share i acc
    = Some (acc ++ pushed share i n).
Proof.
  induction n as [|n IH]; intros fuel numPartitions share i acc Hi Hn Hmax Hfuel;
    destruct fuel as [|fuel]; try lia; simpl.
  - replace (i <=? numPartitions) with false by (symmetry; apply Z.leb_gt; lia).
    unfold TPCC.pushed. simpl. rewrite app_nil_r. reflexivity.
  - replace (i <=? numPartitions) with true by (symmetry; apply Z.leb_le; lia).
    assert (Hwrap : uint32 (i + 1) = i + 1) by (apply Z.mod_small; lia).
    rewrite Hwrap, int16_range_end, IH by lia.
    rewrite pushed_S, <- app_assoc. reflexivity.
Qed.

Lemma pushed_length (share i : Z) (n : nat) : length (pushed share i n) = n.
Proof. unfold TPCC.pushed. rewrite length_map. apply length_seq. Qed.

Lemma pushed_lookup (share i : Z) (n k : nat) :
  (k < n)%nat ->
  pushed share i n !! k
  = Some (FieldToKeyString_int16 (int16 ((i + Z.of_nat k) * share + 1))).
Proof.
  intros Hk. unfold TPCC.pushed. rewrite list_lookup_fmap.
  rewrite lookup_seq_lt by exact Hk. reflexivity.
Qed.

(** C8. For [1 <= numPartitions] (below the largest 32-bit value, where
    the loop counter can no longer pass the bound) and every
    [numWarehouses], [getRangeEnds] returns, given enough fuel for its
    loop, exactly [numPartitions] range ends; the last one is the empty
    string, and the one at 0-based position [i < numPartitions - 1] is
    the int16 key encoding of [(i+1)*share + 1], where [share] is
    [numWarehouses / numPartitions] if that is not zero and 1
    otherwise. *)
Theorem getRangeEnds_spec (numPartitions numWarehouses : Z) (fuel : nat) :
  1 <= numPartitions < 2 ^ 32 - 1 ->
  (Z.to_nat numPartitions < fuel)%nat ->
  exists rangeEnds : list string,
    getRangeEnds FieldToKeyString_int16 fuel numPartitions numWarehouses = Some rangeEnds
    /\ Z.of_nat (length rangeEnds) = numPartitions
    /\ last rangeEnds = Some EmptyString
    /\ forall i : Z, 0 <= i < numPartitions - 1 ->
         rangeEnds !! Z.to_nat i
         = Some (FieldToKeyString_int16
                   (int16 ((i + 1) * share_of numPartitions numWarehouses + 1))).
Proof.
  intros Hn Hfuel. unfold getRangeEnds. fold (share_of numPartitions numWarehouses).
  set (share := share_of numPartitions numWarehouses).
  rewrite (getRangeEnds_loop_spec (Z.to_nat numPartitions)) by lia.
  simpl. eexists. split; [reflexivity|].
  assert (Hidx : Z.to_nat (uint32 (numPartitions - 1)) = pred (Z.to_nat numPartitions)).
  { unfold uint32. rewrite Z.mod_small by lia. lia. }
  rewrite Hidx.
  split; [rewrite length_insert, pushed_length; lia|].
  split.
  - rewrite last_lookup, length_insert, pushed_length.
    apply list_lookup_insert_eq. rewrite pushed_length. lia.
  - intros i Hi. rewrite list_lookup_insert_ne by lia.
    rewrite pushed_lookup by lia.
    replace (1 + Z.of_nat (Z.to_nat i)) with (i + 1) by lia. reflexivity.
Qed.

(** At the largest 32-bit value the counter never exceeds the bound: no
    amount of fuel lets the loop finish. *)
Lemma getRangeEnds_loop_uint32_max (fuel : nat) :
  forall (share i : Z) (acc : list string),
    0 <= i < 2 ^ 32 ->
    getRangeEnds_loop FieldToKeyString_int16 fuel (2 ^ 32 - 1) share i acc = None.
Proof.
  induction fuel as [|fuel IH]; intros share i acc Hi; simpl; [reflexivity|].
  replace (i <=? 2 ^ 32 - 1) with true by (symmetry; apply Z.leb_le; lia).
  apply IH. unfold uint32. apply Z.mod_pos_bound. lia.
Qed.
End getRangeEnds.

Example getRangeEnds_3_10 :
  getRangeEnds toy_encoding 4 3 10 = Some ["even"; "odd"; ""].
Proof. reflexivity. Qed.

Example getRangeEnds_4_2 :
  getRangeEnds toy_encoding 5 4 2 = Some ["even"; "odd"; "even"; ""].
Proof. reflexivity. Qed.

Lemma getRangeEnds_spec_witness :
  exists rangeEnds : list string,
    getRangeEnds toy_encoding 4 3 10 = Some rangeEnds
    /\ Z.of_nat (length rangeEnds) = 3
    /\ last rangeEnds = Some EmptyString
    /\ forall i : Z, 0 <= i < 3 - 1 ->
         rangeEnds !! Z.to_nat i
         = Some (toy_encoding (int16 ((i + 1) * share_of 3 10 + 1))).
Proof. apply (getRangeEnds_spec toy_encoding 3 10 4); [split; [lia | reflexivity] | simpl; lia]. Defined.

End TPCC_Properties.

Module TSO_Properties.
Import Int TSO.

Ltac dlia := Z.div_mod_to_equations; lia.

Lemma uint64_small (z : Z) : 0 <= z < 2 ^ 64 -> uint64 z = z.
Proof. apply Z.mod_small. Qed.

Lemma uint16_small (z : Z) : 0 <= z < 2 ^ 16 -> uint16 z = z.
Proof. apply Z.mod_small. Qed.

Lemma slots_fit (step k : Z) : 0 < step -> 0 <= k <= 1000 / step -> 0 <= k * step <= 1000.
Proof. intros Hs Hk. pose proof (Z.mul_div_le 1000 step Hs). nia. Qed.

Lemma per_us_bounds (step : Z) : 0 < step -> 0 <= 1000 / step <= 1000.
Proof.
  intros Hs. split; [apply Z.div_pos; lia|].
  apply Z.div_le_upper_bound; lia.
Qed.

Section Worker.
Variable this_shard_id : Z.
Variable K2ASSERT_enabled : bool.
Hypothesis shard_pos : 1 <= this_shard_id.

Local Abbreviation clock_ok := (TSO.clock_ok this_shard_id).
Local Abbreviation slot := (TSO.slot this_shard_id).
Local Abbreviation call_post := (TSO.call_post this_shard_id).
Local Abbreviation chain := (TSO.chain this_shard_id).
Local Abbreviation issued_in_microsecond := (TSO.issued_in_microsecond this_shard_id).

Lemma busy_wait_retry {A : Type} (w : TSOWorker) (retry : list Z -> option A) (clock : list Z) :
  forall (cur : Z) (r : A),
    busy_wait w retry cur clock = Some r ->
    exists clock', clock' `suffix_of` clock /\ retry clock' = Some r.
Proof.
  induction clock as [|now clock IH]; intros cur r; simpl;
    destruct (cur =? _lastRequestTBEMicroSecRounded w); try discriminate.
  - intros Hr. exists []. split; [reflexivity | exact Hr].
  - intros Hr. destruct (IH _ _ Hr) as (clock' & Hs & Hr').
    exists clock'. split; [apply suffix_cons_r, Hs | exact Hr'].
  - intros Hr. exists (now :: clock). split; [reflexivity | exact Hr].
Qed.

Lemma clock_ok_suffix (ci : TSOWorkerControlInfo) (clock clock' : list Z) :
  clock' `suffix_of` clock -> clock_ok ci clock -> clock_ok ci clock'.
Proof.
  intros [pre ->] [Hs Hf]. split.
  - clear Hf. induction pre as [|x pre IH]; [exact Hs|].
    apply IH. inversion Hs; assumption.
  - apply Forall_app in Hf. apply Hf.
Qed.

Lemma ghost_ok_suffix (w : TSOWorker) (c e : Z) (clock clock' : list Z) :
  clock' `suffix_of` clock -> ghost_ok w c e clock -> ghost_ok w c e clock'.
Proof.
  intros [pre ->] [He Hc]. split; [exact He|].
  destruct Hc as [Hc | (Hi & Ht & Hf)]; [left; exact Hc|].
  right. repeat split; try assumption. apply Forall_app in Hf. apply Hf.
Qed.

Lemma TBEMicroSecRounded_us (w : TSOWorker) (now : Z) :
  0 <= TBEAdjustment (_curControlInfo w) -> 0 <= now ->
  now + TBEAdjustment (_curControlInfo w) + this_shard_id + 1000 <= 2 ^ 64 ->
  TBEMicroSecRounded w now = us (now + TBEAdjustment (_curControlInfo w)).
Proof.
  intros Ha Hn Hb. unfold TBEMicroSecRounded, us, uint64.
  change (2 ^ 64) with 18446744073709551616 in *.
  rewrite (Z.mod_small (now + _)) by lia.
  apply Z.mod_small. dlia.
Qed.

Lemma thrown_post (w : TSOWorker) (req c e : Z) (x : Exception) (clock : list Z) :
  worker_ok w -> clock_ok (_curControlInfo w) clock -> ghost_ok w c e clock ->
  call_post w req c e (Thrown x, w, clock).
Proof. intros Hw Hc Hg. unfold TSO.call_post. auto. Qed.

Lemma call_inv (n : nat) :
  forall (clock : list Z), (length clock <= n)%nat ->
  forall (w : TSOWorker) (req c e : Z) (r : Result),
    worker_ok w -> clock_ok (_curControlInfo w) clock -> 0 <= req ->
    ghost_ok w c e clock ->
    GetTimestampFromTSO this_shard_id K2ASSERT_enabled clock w req = Some r ->
    call_post w req c e r.
Proof.
  induction n as [|n IH]; intros [|now clock] Hlen w req c e r Hw Hclock Hreq Hg;
    simpl in Hlen; try lia; try discriminate.
  cbn [GetTimestampFromTSO]. unfold GetTimeStampFromTSOLessFrequentHelper.
  assert (Hg' : ghost_ok w c e clock)
    by (eapply ghost_ok_suffix; [apply suffix_cons_r; reflexivity | exact Hg]).
  assert (Hclock' : clock_ok (_curControlInfo w) clock)
    by (eapply clock_ok_suffix; [apply suffix_cons_r; reflexivity | exact Hclock]).
  pose proof (fun x => thrown_post w req c e x clock Hw Hclock' Hg') as Hthrown.
  assert (Hretry : forall clock' r',
             clock' `suffix_of` clock ->
             GetTimestampFromTSO this_shard_id K2ASSERT_enabled clock' w req = Some r' ->
             call_post w req c e r').
  { intros clock' r' Hsuf. apply IH; try assumption.
    - apply suffix_length in Hsuf. lia.
    - eapply clock_ok_suffix; eassumption.
    - eapply ghost_ok_suffix; eassumption. }
  clear IH.
  destruct Hw as (Hstep & Hadj & Hlast0 & Hlastm & Hcnt).
  destruct Hclock as [Hsorted Hbounds].
  apply Forall_cons in Hbounds. destruct Hbounds as [[Hnow Hnowb] _].
  apply StronglySorted_inv in Hsorted. destruct Hsorted as [_ Hle].
  rewrite (TBEMicroSecRounded_us w now) by assumption.
  destruct Hg as [He Hc].
  set (ci := _curControlInfo w) in *.
  set (cur := us (now + TBEAdjustment ci)) in *.
  set (step := TBENanoSecStep ci) in *.
  set (last := _lastRequestTBEMicroSecRounded w) in *.
  set (cnt := _lastRequestTimeStampCount w) in *.
  set (thr := ReservedTimeThreshold ci) in *.
  assert (Hcur : 0 <= cur <= now + TBEAdjustment ci /\ cur mod 1000 = 0)
    by (unfold cur, us; dlia).
  pose proof (per_us_bounds step Hstep) as HN.
  pose proof (slots_fit step cnt Hstep Hcnt) as Hfit.
  assert (Hlater : Forall (fun now' => cur <= us (now' + TBEAdjustment ci)) clock).
  { eapply Forall_impl; [exact Hle|]. intros now' Hnn. simpl in Hnn. unfold cur, us. dlia. }
  assert (Hweird : c <= last \/ (IgnoreThreshold ci = false /\ c + 1000 = thr /\ c <= cur)).
  { destruct Hc as [Hc | (Hi & Ht & Hf)]; [left; exact Hc|].
    right. repeat split; try assumption. apply Forall_cons in Hf. apply Hf. }
  clear Hc.
  change (2 ^ 64) with 18446744073709551616 in Hnowb.
  rewrite (uint64_small (cur + 1000)) by (change (2 ^ 64) with 18446744073709551616; lia).
  rewrite (uint16_small (1000 / step)) by (change (2 ^ 16) with 65536; lia).
  rewrite (uint16_small (1000 / step - cnt)) by (change (2 ^ 16) with 65536; lia).
  destruct (IsReadyToIssueTS ci) eqn:Hready; simpl;
    [|intros [= <-]; apply Hthrown].
  destruct (IgnoreThreshold ci || (cur + 1000 <? thr)) eqn:Hfast;
    destruct (Z.ltb_spec last cur) as [Hnew | Hold]; simpl.
  1:{ (* the fast path *)
    destruct (K2ASSERT_enabled && (thr <? cur + 1000) && negb (IgnoreThreshold ci));
      intros [= <-]; [apply Hthrown|].
    unfold TSO.call_post, worker_ok, TSO.slot, ghost_ok; simpl.
    fold ci step. 
    rewrite uint64_small by (change (2 ^ 64) with 18446744073709551616; lia).
    split; [repeat split; try lia|].
    split; [reflexivity|]. split; [exact Hclock'|].
    exists cur, 0. split; [repeat split; lia|].
    split.
    + left. destruct Hweird as [Hc | (Hi & Ht & Hcc)]; [lia|].
      rewrite Hi in Hfast. simpl in Hfast. apply Z.ltb_lt in Hfast. lia.
    + split; [split; [lia | left; lia]|]. split; [lia | left; lia]. }
  (* the less frequent cases, through the helper *)
  all: destruct ((thr <? cur + 1000) && negb (IgnoreThreshold ci)) eqn:Hstep2;
    [intros [= <-]; apply Hthrown|].
  all: destruct (Z.ltb_spec cur last) as [Hback | Hnotback];
    [intros [= <-]; apply Hthrown|].
  all: destruct (K2ASSERT_enabled && negb (cur =? last)) eqn:Hassert;
    [intros [= <-]; apply Hthrown|].
  all: destruct (Z.ltb_spec (1000 / step - cnt) req) as [Hshort | Henough];
    [intros Hb; apply busy_wait_retry in Hb as (clock' & Hsuf & Hr);
     exact (Hretry _ _ Hsuf Hr)|].
  all: intros [= <-].
  all: unfold TSO.call_post, worker_ok, TSO.slot, ghost_ok; simpl; fold ci step last cnt thr.
  all: rewrite uint64_small by (change (2 ^ 64) with 18446744073709551616; lia).
  all: rewrite uint16_small by (change (2 ^ 16) with 65536; lia).
  all: split; [repeat split; lia|].
  all: split; [reflexivity|]. 
  all: split; [exact Hclock'|].
  all: exists cur, cnt.
  all: split; [repeat split; lia|].
  all: assert (Hthr : IgnoreThreshold ci = false -> cur + 1000 <= thr)
    by (intros Hi; rewrite Hi, andb_true_r in Hstep2; apply Z.ltb_ge in Hstep2; exact Hstep2).
  all: split; [destruct Hweird as [Hc | (Hi & Ht & Hcc)]; [lia | specialize (Hthr Hi); lia]|].
  all: split; [|split; lia].
  all: split; [lia|].
  - left. lia.
  - right. apply orb_false_iff in Hfast as [Hi Hlt]. apply Z.ltb_ge in Hlt.
    specialize (Hthr Hi). repeat split; [exact Hi | lia | exact Hlater].
  - left. lia.
Qed.

Lemma calls_chain (requests : list Z) :
  forall (clock : list Z) (w : TSOWorker) (c e : Z) (outs : list Outcome),
    worker_ok w -> clock_ok (_curControlInfo w) clock -> Forall (Z.le 0) requests ->
    ghost_ok w c e clock ->
    calls this_shard_id K2ASSERT_enabled clock w requests = Some outs ->
    chain (_curControlInfo w) c e (issued outs).
Proof.
  induction requests as [|req requests IH]; intros clock w c e outs Hw Hclock Hreqs Hg; simpl.
  - intros [= <-]. constructor.
  - apply Forall_cons in Hreqs. destruct Hreqs as [Hreq Hreqs].
    destruct (GetTimestampFromTSO this_shard_id K2ASSERT_enabled clock w req)
      as [[[out w'] clock']|] eqn:Hcall; [|discriminate].
    pose proof (call_inv (length clock) clock (le_n _) w req c e _ Hw Hclock Hreq Hg Hcall)
      as (Hw' & Hci & Hclock' & Hout).
    destruct out as [b | [|]].
    + destruct Hout as (cur & k & Hslot & Hnext & Hg' & _).
      destruct (calls this_shard_id K2ASSERT_enabled clock' w' requests) as [outs'|] eqn:Hrest;
        [|discriminate].
      intros [= <-]. simpl. econstructor; [exact Hslot | exact Hnext |].
      rewrite <- Hci. apply (IH clock'); try assumption. rewrite Hci. exact Hclock'.
    + destruct Hout as [-> Hg'].
      destruct (calls this_shard_id K2ASSERT_enabled clock' w requests) as [outs'|] eqn:Hrest;
        [|discriminate].
      intros [= <-]. simpl. apply (IH clock'); assumption.
    + intros [= <-]. simpl. constructor.
Qed.

Lemma in_timestamps (b : TimestampBatch.t) (t : Z) :
  t ∈ timestamps b <->
  exists i : Z, 0 <= i < TimestampBatch.TSCount b
                /\ t = TimestampBatch.TBEBase b + i * TimestampBatch.TBENanoSecStep b.
Proof.
  unfold timestamps. rewrite list_elem_of_fmap. split.
  - intros (i & -> & Hi). apply elem_of_seq in Hi. exists (Z.of_nat i). split; [lia | reflexivity].
  - intros (i & Hi & ->). exists (Z.to_nat i). split; [rewrite Z2Nat.id by lia; reflexivity|].
    apply elem_of_seq. lia.
Qed.

Lemma slot_timestamps (ci : TSOWorkerControlInfo) (b : TimestampBatch.t) (cur k t : Z) :
  0 < TBENanoSecStep ci -> slot ci b cur k -> t ∈ timestamps b ->
  cur + (this_shard_id - 1) + k * TBENanoSecStep ci <= t
  /\ t + TBENanoSecStep ci
     <= cur + (this_shard_id - 1) + (k + TimestampBatch.TSCount b) * TBENanoSecStep ci
  /\ us (t - (this_shard_id - 1)) = cur.
Proof.
  intros Hstep (Hbase & Hst & Hcur & Hk & Hn & Hfit) Ht.
  apply in_timestamps in Ht. destruct Ht as (i & Hi & ->).
  rewrite Hbase, Hst. set (step := TBENanoSecStep ci) in *.
  assert (H1 : 0 <= (k + i) * step) by nia.
  assert (H2 : (k + i) * step + step <= (k + TimestampBatch.TSCount b) * step) by nia.
  assert (H3 : (k + TimestampBatch.TSCount b) * step <= 1000).
  { pose proof (Z.mul_div_le 1000 step Hstep). nia. }
  assert (H4 : 0 <= k * step <= (k + i) * step) by nia.
  replace (cur + (this_shard_id - 1) + k * step + i * step)
    with (cur + (this_shard_id - 1) + (k + i) * step) by ring.
  split; [lia|]. split; [lia|].
  unfold us.
  replace (cur + (this_shard_id - 1) + (k + i) * step - (this_shard_id - 1))
    with (cur + (k + i) * step) by ring.
  generalize dependent ((k + i) * step). intros x. intros. dlia.
Qed.

Lemma chain_lower_bound (ci : TSOWorkerControlInfo) (c e : Z) (bs : list TimestampBatch.t) :
  0 < TBENanoSecStep ci ->
  chain ci c e bs -> c mod 1000 = 0 -> e <= 1000 / TBENanoSecStep ci ->
  forall b t, b ∈ bs -> t ∈ timestamps b ->
    c + (this_shard_id - 1) + e * TBENanoSecStep ci <= t.
Proof.
  intros Hstep Hchain. induction Hchain as [|c e b bs cur k Hslot Hnext Hchain IH];
    intros Hc He b' t Hb Ht.
  - apply elem_of_nil in Hb. destruct Hb.
  - pose proof Hslot as (_ & _ & Hcur & Hk & Hn & Hfit).
    set (step := TBENanoSecStep ci) in *.
    assert (Hstart : c + (this_shard_id - 1) + e * step <= cur + (this_shard_id - 1) + k * step).
    { destruct Hnext as [Hlt | [-> Hek]]; [|nia].
      assert (c + 1000 <= cur) by dlia.
      pose proof (Z.mul_div_le 1000 step Hstep). nia. }
    apply elem_of_cons in Hb. destruct Hb as [-> | Hb].
    + pose proof (slot_timestamps ci b cur k t Hstep Hslot Ht). lia.
    + specialize (IH Hcur Hfit b' t Hb Ht). fold step in IH. nia.
Qed.

Lemma chain_cross (ci : TSOWorkerControlInfo) (c e : Z) (bs : list TimestampBatch.t) :
  0 < TBENanoSecStep ci ->
  chain ci c e bs ->
  forall (i j : nat) b1 b2 t1 t2,
    (i < j)%nat -> bs !! i = Some b1 -> bs !! j = Some b2 ->
    t1 ∈ timestamps b1 -> t2 ∈ timestamps b2 -> t1 < t2.
Proof.
  intros Hstep Hchain. induction Hchain as [|c e b bs cur k Hslot Hnext Hchain IH];
    intros i j b1 b2 t1 t2 Hij H1 H2 Ht1 Ht2.
  - discriminate.
  - destruct j as [|j]; [lia|]. simpl in H2. destruct i as [|i]; simpl in H1.
    + injection H1 as <-.
      pose proof Hslot as (_ & _ & Hcur & _ & _ & Hfit).
      pose proof (slot_timestamps ci b cur k t1 Hstep Hslot Ht1).
      pose proof (chain_lower_bound ci _ _ bs Hstep Hchain Hcur Hfit b2 t2
                    (list_elem_of_lookup_2 _ _ _ H2) Ht2).
      lia.
    + apply (IH i j b1 b2); try assumption. lia.
Qed.

Lemma timestamps_sorted (b : TimestampBatch.t) :
  0 < TimestampBatch.TBENanoSecStep b -> StronglySorted Z.lt (timestamps b).
Proof.
  intros Hstep. unfold timestamps.
  generalize (Z.to_nat (TimestampBatch.TSCount b)) as n. generalize 0%nat as s.
  intros s n. revert s. induction n as [|n IH]; intros s; simpl; constructor.
  - apply IH.
  - apply Forall_forall. intros t Ht. apply list_elem_of_fmap in Ht.
    destruct Ht as (i & -> & Hi). apply elem_of_seq in Hi. nia.
Qed.

Lemma StronglySorted_app_lt (l1 l2 : list Z) :
  StronglySorted Z.lt l1 -> StronglySorted Z.lt l2 ->
  (forall x y, x ∈ l1 -> y ∈ l2 -> x < y) ->
  StronglySorted Z.lt (l1 ++ l2).
Proof.
  intros H1 H2 H12. induction H1 as [|x l1 Hs IH Hx]; simpl; [exact H2|].
  constructor.
  - apply IH. intros a b Ha Hb. apply H12; [right; exact Ha | exact Hb].
  - apply Forall_app. split; [exact Hx|].
    apply Forall_forall. intros y Hy. apply H12; [left | exact Hy].
Qed.

Lemma in_all_timestamps (bs : list TimestampBatch.t) (t : Z) :
  t ∈ all_timestamps bs -> exists b, b ∈ bs /\ t ∈ timestamps b.
Proof.
  induction bs as [|b bs IH]; unfold all_timestamps; simpl; intros Ht.
  - apply elem_of_nil in Ht. destruct Ht.
  - apply elem_of_app in Ht. destruct Ht as [Ht | Ht].
    + exists b. split; [left | exact Ht].
    + destruct (IH Ht) as (b' & Hb' & Ht'). exists b'. split; [right; exact Hb' | exact Ht'].
Qed.

Lemma chain_sorted (ci : TSOWorkerControlInfo) (c e : Z) (bs : list TimestampBatch.t) :
  0 < TBENanoSecStep ci ->
  chain ci c e bs -> StronglySorted Z.lt (all_timestamps bs).
Proof.
  intros Hstep Hchain. induction Hchain as [|c e b bs cur k Hslot Hnext Hchain IH].
  - constructor.
  - unfold all_timestamps. simpl. apply StronglySorted_app_lt.
    + apply timestamps_sorted. destruct Hslot as (_ & -> & _). exact Hstep.
    + exact IH.
    + intros x y Hx Hy.
      apply in_all_timestamps in Hy. destruct Hy as (b2 & Hb2 & Hy).
      pose proof Hslot as (_ & _ & Hcur & _ & _ & Hfit).
      pose proof (slot_timestamps ci b cur k x Hstep Hslot Hx).
      pose proof (chain_lower_bound ci _ _ bs Hstep Hchain Hcur Hfit b2 y Hb2 Hy).
      lia.
Qed.


Lemma issued_in_microsecond_app (m : Z) (l1 l2 : list Z) :
  issued_in_microsecond m (l1 ++ l2)
  = issued_in_microsecond m l1 + issued_in_microsecond m l2.
Proof. unfold TSO.issued_in_microsecond. rewrite List.filter_app, length_app. lia. Qed.

Lemma filter_all {A : Type} (f : A -> bool) (l : list A) :
  (forall x, x ∈ l -> f x = true) -> List.filter f l = l.
Proof.
  induction l as [|x l IH]; intros Hf; simpl; [reflexivity|].
  rewrite (Hf x) by left. f_equal. apply IH. intros y Hy. apply Hf. right. exact Hy.
Qed.

Lemma filter_none {A : Type} (f : A -> bool) (l : list A) :
  (forall x, x ∈ l -> f x = false) -> List.filter f l = [].
Proof.
  induction l as [|x l IH]; intros Hf; simpl; [reflexivity|].
  rewrite (Hf x) by left. apply IH. intros y Hy. apply Hf. right. exact Hy.
Qed.

Lemma issued_in_microsecond_slot (ci : TSOWorkerControlInfo) (b : TimestampBatch.t)
    (cur k m : Z) :
  0 < TBENanoSecStep ci -> slot ci b cur k ->
  issued_in_microsecond m (timestamps b)
  = if m =? cur then TimestampBatch.TSCount b else 0.
Proof.
  intros Hstep Hslot. unfold TSO.issued_in_microsecond.
  destruct (Z.eqb_spec m cur) as [-> | Hne].
  - rewrite filter_all.
    + unfold timestamps. rewrite length_map, length_seq.
      destruct Hslot as (_ & _ & _ & _ & Hn & _). lia.
    + intros t Ht. apply Z.eqb_eq. eapply slot_timestamps; eassumption.
  - rewrite filter_none; [reflexivity|].
    intros t Ht. apply Z.eqb_neq.
    pose proof (slot_timestamps ci b cur k t Hstep Hslot Ht). lia.
Qed.

Lemma chain_count (ci : TSOWorkerControlInfo) (c e : Z) (bs : list TimestampBatch.t) :
  0 < TBENanoSecStep ci ->
  chain ci c e bs -> e <= 1000 / TBENanoSecStep ci ->
  forall m : Z,
    issued_in_microsecond m (all_timestamps bs)
    <= if m <? c then 0 else if m =? c then 1000 / TBENanoSecStep ci - e
       else 1000 / TBENanoSecStep ci.
Proof.
  intros Hstep Hchain.
  pose proof (per_us_bounds _ Hstep) as HN.
  induction Hchain as [c e|c e b bs cur k Hslot Hnext Hchain IH]; intros He m.
  - unfold TSO.issued_in_microsecond, all_timestamps. simpl.
    destruct (m <? c); [lia|]. destruct (m =? c); lia.
  - unfold all_timestamps. simpl. fold (all_timestamps bs).
    rewrite issued_in_microsecond_app, (issued_in_microsecond_slot ci b cur k m Hstep Hslot).
    pose proof Hslot as (_ & _ & _ & Hk & Hn & Hfit).
    specialize (IH Hfit m).
    destruct (Z.ltb_spec m c), (Z.eqb_spec m c), (Z.ltb_spec m cur), (Z.eqb_spec m cur); lia.
Qed.

(** X25. Over any sequence of calls on one worker whose control information
    stays the same, with a positive [TBENanoSecStep], a clock that does not
    go backwards and no 64-bit overflow: the timestamps of each returned
    batch are strictly increasing, [TBENanoSecStep > 0] apart, and every
    timestamp of a later batch is greater than every timestamp of an
    earlier one; all timestamps issued, in order of issue, form a strictly
    increasing sequence. *)
Theorem timestamps_strictly_increasing
    (clock : list Z) (w : TSOWorker) (requests : list Z) (outs : list Outcome) :
  worker_ok w -> clock_ok (_curControlInfo w) clock -> Forall (Z.le 0) requests ->
  calls this_shard_id K2ASSERT_enabled clock w requests = Some outs ->
  (forall b, b ∈ issued outs ->
     0 < TimestampBatch.TBENanoSecStep b /\ StronglySorted Z.lt (timestamps b))
  /\ (forall (i j : nat) b1 b2 t1 t2,
        (i < j)%nat -> issued outs !! i = Some b1 -> issued outs !! j = Some b2 ->
        t1 ∈ timestamps b1 -> t2 ∈ timestamps b2 -> t1 < t2)
  /\ StronglySorted Z.lt (all_timestamps (issued outs)).
Proof.
  intros Hw Hclock Hreqs Hcalls.
  assert (Hchain : chain (_curControlInfo w) (_lastRequestTBEMicroSecRounded w)
                     (_lastRequestTimeStampCount w) (issued outs)).
  { eapply calls_chain; try eassumption. split; [lia | left; lia]. }
  destruct Hw as (Hstep & _).
  split; [|split].
  - intros b Hb.
    assert (Hs : TimestampBatch.TBENanoSecStep b = TBENanoSecStep (_curControlInfo w)).
    { clear -Hchain Hb. induction Hchain as [|c e b' bs cur k Hslot _ _ IH].
      - apply elem_of_nil in Hb. destruct Hb.
      - apply elem_of_cons in Hb. destruct Hb as [-> | Hb]; [apply Hslot | exact (IH Hb)]. }
    split; [lia|]. apply timestamps_sorted. lia.
  - eapply chain_cross; eassumption.
  - eapply chain_sorted; eassumption.
Qed.

(** X26. Under the conditions of X25, the timestamps that a worker issues
    against one microsecond are never more than [1000 / TBENanoSecStep]. A
    single call that returns a batch places it in a microsecond after the one
    of the last request, with at most [min(batchSizeRequested, 1000 / step)]
    timestamps, or in the microsecond of the last request, and then with the
    full requested size, which the leftover count of that microsecond
    covers. *)
Theorem at_most_1000_per_step_in_a_microsecond
    (clock : list Z) (w : TSOWorker) (requests : list Z) (outs : list Outcome) :
  worker_ok w -> clock_ok (_curControlInfo w) clock -> Forall (Z.le 0) requests ->
  calls this_shard_id K2ASSERT_enabled clock w requests = Some outs ->
  (forall m : Z,
     issued_in_microsecond m (all_timestamps (issued outs))
     <= 1000 / TBENanoSecStep (_curControlInfo w))
  /\ (forall (clock1 clock2 : list Z) (batchSizeRequested : Z)
             (b : TimestampBatch.t) (w' : TSOWorker),
        clock_ok (_curControlInfo w) clock1 -> 0 <= batchSizeRequested ->
        GetTimestampFromTSO this_shard_id K2ASSERT_enabled clock1 w batchSizeRequested
        = Some (Returned b, w', clock2) ->
        exists cur k : Z,
          slot (_curControlInfo w) b cur k
          /\ ((_lastRequestTBEMicroSecRounded w < cur
               /\ TimestampBatch.TSCount b
                  <= Z.min batchSizeRequested (1000 / TBENanoSecStep (_curControlInfo w)))
              \/ (cur = _lastRequestTBEMicroSecRounded w
                  /\ k = _lastRequestTimeStampCount w
                  /\ TimestampBatch.TSCount b = batchSizeRequested
                  /\ batchSizeRequested
                     <= 1000 / TBENanoSecStep (_curControlInfo w)
                        - _lastRequestTimeStampCount w))).
Proof.
  intros Hw Hclock Hreqs Hcalls.
  assert (Hg : forall cl, ghost_ok w (_lastRequestTBEMicroSecRounded w)
                            (_lastRequestTimeStampCount w) cl)
    by (intros cl; split; [lia | left; lia]).
  split.
  - intros m.
    assert (Hchain : chain (_curControlInfo w) (_lastRequestTBEMicroSecRounded w)
                       (_lastRequestTimeStampCount w) (issued outs))
      by (eapply calls_chain; try eassumption; apply Hg).
    destruct Hw as (Hstep & _ & _ & _ & Hcnt).
    pose proof (chain_count _ _ _ _ Hstep Hchain (proj2 Hcnt) m) as Hm.
    pose proof (per_us_bounds _ Hstep).
    destruct (m <? _); [lia|]. destruct (m =? _); lia.
  - intros clock1 clock2 req b w' Hclock1 Hreq Hcall.
    pose proof (call_inv (length clock1) clock1 (le_n _) w req _ _ _ Hw Hclock1 Hreq
                  (Hg clock1) Hcall) as (_ & _ & _ & cur & k & Hslot & _ & _ & Hle & Hwhere).
    exists cur, k. split; [exact Hslot|].
    destruct Hslot as (_ & _ & _ & Hk & Hn & Hfit).
    destruct Hwhere as [Hlt | (-> & -> & Heq)]; [left | right]; repeat split; lia.
Qed.

End Worker.

Example calls_worker1 : calls 1 false clock1 worker1 requests1 = Some outs1.
Proof. vm_compute. reflexivity. Qed.

Lemma timestamps_strictly_increasing_witness :
  (forall b, b ∈ issued outs1 ->
     0 < TimestampBatch.TBENanoSecStep b /\ StronglySorted Z.lt (timestamps b))
  /\ (forall (i j : nat) b1 b2 t1 t2,
        (i < j)%nat -> issued outs1 !! i = Some b1 -> issued outs1 !! j = Some b2 ->
        t1 ∈ timestamps b1 -> t2 ∈ timestamps b2 -> t1 < t2)
  /\ StronglySorted Z.lt (all_timestamps (issued outs1)).
Proof.
  apply (timestamps_strictly_increasing 1 false ltac:(lia) clock1 worker1 requests1 outs1).
  - unfold worker_ok, worker1; simpl.
    repeat split; first [reflexivity | vm_compute; discriminate].
  - split; [repeat constructor; lia|].
    change (2 ^ 64) with 18446744073709551616. repeat constructor; simpl; lia.
  - repeat constructor; lia.
  - vm_compute. reflexivity.
Defined.

Lemma at_most_1000_per_step_in_a_microsecond_witness :
  (forall m : Z,
     issued_in_microsecond 1 m (all_timestamps (issued outs1))
     <= 1000 / TBENanoSecStep (_curControlInfo worker1))
  /\ (forall (clock1 clock2 : list Z) (batchSizeRequested : Z)
             (b : TimestampBatch.t) (w' : TSOWorker),
        clock_ok 1 (_curControlInfo worker1) clock1 -> 0 <= batchSizeRequested ->
        GetTimestampFromTSO 1 false clock1 worker1 batchSizeRequested
        = Some (Returned b, w', clock2) ->
        exists cur k : Z,
          slot 1 (_curControlInfo worker1) b cur k
          /\ ((_lastRequestTBEMicroSecRounded worker1 < cur
               /\ TimestampBatch.TSCount b
                  <= Z.min batchSizeRequested
                           (1000 / TBENanoSecStep (_curControlInfo worker1)))
              \/ (cur = _lastRequestTBEMicroSecRounded worker1
                  /\ k = _lastRequestTimeStampCount worker1
                  /\ TimestampBatch.TSCount b = batchSizeRequested
                  /\ batchSizeRequested
                     <= 1000 / TBENanoSecStep (_curControlInfo worker1)
                        - _lastRequestTimeStampCount worker1))).
Proof.
  apply (at_most_1000_per_step_in_a_microsecond 1 false ltac:(lia)
           clock1 worker1 requests1 outs1).
  - unfold worker_ok, worker1; simpl.
    repeat split; first [reflexivity | vm_compute; discriminate].
  - split; [repeat constructor; lia|].
    change (2 ^ 64) with 18446744073709551616. repeat constructor; simpl; lia.
  - repeat constructor; lia.
  - vm_compute. reflexivity.
Defined.

Example issued_in_5000 : issued_in_microsecond 1 5000 (all_timestamps (issued outs1)) = 7.
Proof. reflexivity. Qed.

Example all_timestamps_outs1 :
  all_timestamps (issued outs1)
  = [5000; 5100; 5200; 5300; 5400; 5500; 5600;
     7000; 7100; 7200; 7300; 7400; 7500; 7600].
Proof. reflexivity. Qed.

End TSO_Properties.

Module CPO_Properties.
Import dto CPO CPO.Statuses.

(** What [FulfillWaiters] and the other updates leave alone. *)
Lemma foldl_set_value_client (status : Status) (ps : list promise) (r : Reactor) :
  client (foldl (fun r p => set_value p status r) r ps) = client r
  /\ now (foldl (fun r p => set_value p status r) r ps) = now r
  /\ next_promise (foldl (fun r p => set_value p status r) r ps) = next_promise r.
Proof. revert r. induction ps as [|p ps IH]; intros r; simpl; [auto|]. apply (IH (set_value p status r)). Qed.

Lemma FulfillWaiters_now (name : string) (status : Status) (r : Reactor) :
  now (FulfillWaiters name status r) = now r.
Proof. unfold FulfillWaiters. simpl. apply foldl_set_value_client. Qed.

Lemma FulfillWaiters_requestWaiters (name : string) (status : Status) (r : Reactor) :
  requestWaiters (client (FulfillWaiters name status r)) = delete name (requestWaiters (client r)).
Proof.
  unfold FulfillWaiters. simpl.
  destruct (foldl_set_value_client status (default [] (requestWaiters (client r) !! name)) r)
    as (-> & _). reflexivity.
Qed.

Lemma FulfillWaiters_collections (name : string) (status : Status) (r : Reactor) :
  collections (client (FulfillWaiters name status r)) = collections (client r).
Proof.
  unfold FulfillWaiters. simpl.
  destruct (foldl_set_value_client status (default [] (requestWaiters (client r) !! name)) r)
    as (-> & _). reflexivity.
Qed.

Lemma FulfillWaiters_config (name : string) (status : Status) (r : Reactor) :
  cpo_request_backoff (client (FulfillWaiters name status r)) = cpo_request_backoff (client r).
Proof.
  unfold FulfillWaiters. simpl.
  destruct (foldl_set_value_client status (default [] (requestWaiters (client r) !! name)) r)
    as (-> & _). reflexivity.
Qed.

Lemma isOver_now (deadline : Deadline) (r r' : Reactor) :
  now r' = now r -> isOver deadline r' = isOver deadline r.
Proof. unfold isOver. intros ->. reflexivity. Qed.

Lemma getRemaining_now (deadline : Deadline) (r r' : Reactor) :
  now r' = now r -> getRemaining deadline r' = getRemaining deadline r.
Proof. unfold getRemaining. intros ->. reflexivity. Qed.

Lemma collections_at_insert (name : string) (g : PartitionGetter) (r : Reactor) :
  collections_at name (set_collections (<[name := g]>) r)
  = (g, set_collections (<[name := g]>) r).
Proof. unfold collections_at. simpl. rewrite lookup_insert_eq. reflexivity. Qed.

Lemma collections_at_Some (name : string) (g : PartitionGetter) (r : Reactor) :
  collections (client r) !! name = Some g -> collections_at name r = (g, r).
Proof. unfold collections_at. intros ->. reflexivity. Qed.

#[local] Arguments FulfillWaiters : simpl never.

Section Client.
Context {PayloadT ResponseT : Type}.
Variable verb : Verb.
Variable ResponseT_default : ResponseT.
Variable getPartitionForKey : PartitionGetter -> Key -> bool -> bool -> PartitionWithEndpoint.

Local Abbreviation future := (@CPO.future PayloadT ResponseT).
Local Abbreviation GetAssignedPartitionWithRetry :=
  (@CPO.GetAssignedPartitionWithRetry PayloadT ResponseT getPartitionForKey).
Local Abbreviation PartitionRequest_f :=
  (@CPO.PartitionRequest_f PayloadT ResponseT getPartitionForKey).
Local Abbreviation PartitionRequest :=
  (@CPO.PartitionRequest PayloadT ResponseT verb ResponseT_default getPartitionForKey).

Local Abbreviation Suspend := (@CPO.Suspend PayloadT ResponseT).
Local Abbreviation Resumption := (@CPO.Resumption PayloadT ResponseT).
Local Abbreviation Fiber := (@CPO.Fiber PayloadT ResponseT).
Local Abbreviation System := (@CPO.System PayloadT ResponseT).
Local Abbreviation Tagged := (@CPO.Tagged PayloadT ResponseT).
Local Abbreviation Ready := (CPO.Ready (PayloadT := PayloadT) (ResponseT := ResponseT)).
Local Abbreviation Pending := (CPO.Pending (PayloadT := PayloadT) (ResponseT := ResponseT)).
Local Abbreviation good := (CPO.good (PayloadT := PayloadT) (ResponseT := ResponseT)).
Local Abbreviation run := (CPO.run (PayloadT := PayloadT) (ResponseT := ResponseT)).
Local Abbreviation every_suspension :=
  (CPO.every_suspension (PayloadT := PayloadT) (ResponseT := ResponseT)).
Local Abbreviation park := (CPO.park (PayloadT := PayloadT) (ResponseT := ResponseT)).
Local Abbreviation answers := (CPO.answers (PayloadT := PayloadT) (ResponseT := ResponseT)).
Local Abbreviation get_future := (CPO.get_future (PayloadT := PayloadT) (ResponseT := ResponseT)).
Local Abbreviation partition_response_handled :=
  (@CPO.partition_response_handled PayloadT ResponseT verb ResponseT_default getPartitionForKey).
Local Abbreviation partition_rpcs_handled :=
  (@CPO.partition_rpcs_handled PayloadT ResponseT verb ResponseT_default getPartitionForKey).
Local Abbreviation step :=
  (@CPO.step PayloadT ResponseT verb ResponseT_default getPartitionForKey).
Local Abbreviation reachable :=
  (@CPO.reachable PayloadT ResponseT verb ResponseT_default getPartitionForKey).

Lemma Get_registers (retries : nat) (deadline : Deadline) (name : string) (key : Key)
    (reverse excludedKey : bool) (r : Reactor) :
  requestWaiters (client r) !! name = None ->
  exists k,
    GetAssignedPartitionWithRetry retries deadline name key reverse excludedKey r
    = Pending (set_requestWaiters (<[name := []]>) r)
        (callRPC_CPO_COLLECTION_GET (mkCollectionGetRequest name) (cpo (client r))
           (Z.min (getRemaining deadline r) (cpo_request_timeout (client r)))) k
    /\ forall (status : Status) (coll_response : CollectionGetResponse) (r2 : Reactor),
        is2xxOK status = true ->
        not_assigned (partition (getPartitionForKey
                                   (mkPartitionGetter (collection coll_response))
                                   key reverse excludedKey)) = true ->
        (retries = O ->
         exists r3, k (status, coll_response) r2
                    = Ready r3 (S503_Service_Unavailable "not all partitions assigned in cpo"))
        /\ (forall n, retries = S n -> isOver deadline r2 = false ->
            exists r3, k (status, coll_response) r2
                       = Pending r3
                           (sleep (Z.min (getRemaining deadline r2)
                                         (cpo_request_backoff (client r2))))
                           (fun _ r4 => GetAssignedPartitionWithRetry n deadline name key
                                          reverse excludedKey r4)).
Proof.
  intros Hnone. destruct retries as [|n]; simpl; rewrite Hnone; eexists; (split; [reflexivity|]).
  - intros status coll r2 H2 Hna. cbv beta iota. rewrite H2. simpl.
    rewrite collections_at_insert, Hna. simpl.
    split; [intros _; eexists; reflexivity | intros n' [=]].
  - intros status coll r2 H2 Hna. cbv beta iota. rewrite H2. simpl.
    rewrite collections_at_insert, Hna. simpl.
    split; [intros [=]|]. intros n' [= <-] Hover.
    rewrite (isOver_now deadline r2) by (rewrite FulfillWaiters_now; reflexivity).
    rewrite Hover. eexists.
    rewrite (getRemaining_now deadline r2) by (rewrite FulfillWaiters_now; reflexivity).
    rewrite (proj1 (foldl_set_value_client _ _ _)). simpl. reflexivity.
Qed.

Lemma run_then {A B : Type} (f : future A) (g : A -> Reactor -> future B)
    (trace1 trace2 : list Resumption) (r1 r2 : Reactor) (a : A) (b : B) :
  run f trace1 r1 a -> run (g a r1) trace2 r2 b ->
  run (then_ f g) (trace1 ++ trace2) r2 b.
Proof.
  intros Hf Hg. induction Hf as [r a|X r e k x r' trace r'' a Hf IH]; simpl.
  - exact Hg.
  - constructor. apply IH. exact Hg.
Qed.

Lemma every_suspension_impl {A : Type}
    (Q Q' : forall X : Type, Suspend X -> (X -> Reactor -> future A) -> Prop) (f : future A) :
  (forall X e k, Q X e k -> Q' X e k) -> every_suspension Q f -> every_suspension Q' f.
Proof.
  intros HQ. induction f as [r a|X r e k IH]; simpl; [auto|].
  intros [Hq Hk]. split; [apply HQ, Hq|]. intros x r'. apply IH, Hk.
Qed.

Lemma every_suspension_then {A B : Type}
    (Q : forall X : Type, Suspend X -> (X -> Reactor -> future B) -> Prop)
    (f : future A) (g : A -> Reactor -> future B) :
  every_suspension (fun X e _ => is_callRPC e = false) f ->
  (forall X e k, is_callRPC e = false -> Q X e k) ->
  (forall a r, every_suspension Q (g a r)) ->
  every_suspension Q (then_ f g).
Proof.
  intros Hf HQ Hg. induction f as [r a|X r e k IH]; simpl.
  - apply Hg.
  - destruct Hf as [He Hk]. split; [apply HQ, He|]. intros x r'. apply IH, Hk.
Qed.

Lemma Get_no_partition_rpc (retries : nat) :
  forall (deadline : Deadline) (name : string) (key : Key) (reverse excludedKey : bool)
         (r : Reactor),
    every_suspension (fun X e _ => is_callRPC e = false)
      (GetAssignedPartitionWithRetry retries deadline name key reverse excludedKey r).
Proof.
  induction retries as [|n IH]; intros deadline name key reverse excludedKey r; simpl;
    destruct (requestWaiters (client r) !! name); simpl.
  all: split; [reflexivity|].
  all: intros x r'; cbv beta iota.
  all: repeat match goal with
         | |- context [let '(_, _) := ?p in _] => destruct p
         | |- context [if ?b then _ else _] => destruct b
         end; simpl; auto.
Qed.

Lemma PartitionRequest_unfold (retries : nat) (deadline : Deadline) (request : RequestT)
    (reverse exclusiveKey : bool) (r : Reactor) :
  exists g,
    PartitionRequest retries deadline request reverse exclusiveKey r
    = then_ (PartitionRequest_f deadline request reverse exclusiveKey r) g
    /\ (forall status r1,
          collections (client r1) !! collectionName request = None ->
          g status r1 = Ready r1 (status, ResponseT_default))
    /\ (forall status r1 getter,
          collections (client r1) !! collectionName request = Some getter ->
          not_assigned (partition (getPartitionForKey getter (key request)
                                     reverse exclusiveKey)) = true ->
          g status r1
          = Ready r1 (S503_Service_Unavailable "partition not assigned", ResponseT_default))
    /\ (forall status r1 getter p,
          collections (client r1) !! collectionName request = Some getter ->
          partition (getPartitionForKey getter (key request) reverse exclusiveKey) = Some p ->
          astate p = Assigned ->
          exists k,
            g status r1
            = Pending r1
                (callRPC verb (set_pvid (pvid p) request)
                   (preferredEndpoint (getPartitionForKey getter (key request)
                                         reverse exclusiveKey))
                   (Z.min (getRemaining deadline r1) (partition_request_timeout (client r1))))
                k
            /\ partition_response_handled retries deadline reverse exclusiveKey
                 (set_pvid (pvid p) request) k).
Proof.
  destruct retries as [|n]; simpl; eexists; (split; [reflexivity|]); cbv beta.
  all: split; [intros status r1 Hc; rewrite Hc; reflexivity|].
  all: split.
  all: try (intros status r1 getter Hc Hna; rewrite Hc, (collections_at_Some _ _ _ Hc);
            destruct (partition _) as [p|]; [|reflexivity];
            simpl in Hna; rewrite Hna; reflexivity).
  all: intros status r1 getter p Hc Hp Ha; rewrite Hc, (collections_at_Some _ _ _ Hc), Hp.
  all: rewrite bool_decide_eq_true_2 by exact Ha; simpl.
  all: eexists; split; [reflexivity|].
  all: intros st resp r2; unfold retryable; cbv beta iota.
  all: destruct (Status_eqb st (S410_Gone "")), (is5xxRetryable st); simpl.
  all: split; try discriminate; try reflexivity.
  all: intros _ Ho m Hm; try discriminate; rewrite Ho; injection Hm as <-; reflexivity.
Qed.


Lemma moves_refl (name : string) (owns : bool) (r r' : Reactor) :
  requestWaiters (client r') = requestWaiters (client r) ->
  (owns = true -> registered name r) -> moves name owns r owns r'.
Proof.
  intros Hrw Ho. unfold moves, registered. rewrite Hrw.
  repeat split; auto. intros -> [=].
Qed.

Lemma moves_trans (name : string) (o o1 o2 : bool) (r r1 r2 : Reactor) :
  moves name o r o1 r1 -> moves name o1 r1 o2 r2 -> moves name o r o2 r2.
Proof.
  intros (Ha1 & Ha2 & Ha3 & Ha4) (Hb1 & Hb2 & Hb3 & Hb4).
  split; [intros n Hn; rewrite (Hb1 n Hn); apply Ha1, Hn|].
  split; [exact Hb2|]. split.
  - intros -> -> Hr. destruct o1.
    + exact (Ha3 eq_refl eq_refl Hr).
    + exact (Hb3 eq_refl eq_refl (Ha4 eq_refl eq_refl Hr)).
  - intros -> -> Hr. destruct o1.
    + destruct (Ha3 eq_refl eq_refl Hr).
    + exact (Hb4 eq_refl eq_refl (Ha4 eq_refl eq_refl Hr)).
Qed.

Lemma good_pre {A : Type} (name : string) (o o1 : bool) (r r1 : Reactor) (f : future A) :
  moves name o r o1 r1 -> good name o1 r1 f -> good name o r f.
Proof.
  intros Hm. destruct f as [r' a|X r' e k]; simpl.
  - intros (o' & Hm'). exists o'. eapply moves_trans; eassumption.
  - intros (o' & Hm' & He & Hk). exists o'. split; [eapply moves_trans; eassumption|].
    split; assumption.
Qed.

Lemma good_then {A B : Type} (name : string) (f : future A) (g : A -> Reactor -> future B) :
  forall (o : bool) (r : Reactor),
    good name o r f ->
    (forall a r1 o1, (o1 = true -> registered name r1) -> good name o1 r1 (g a r1)) ->
    good name o r (then_ f g).
Proof.
  induction f as [r' a|X r' e k IH]; intros o r Hf Hg; simpl in *.
  - destruct Hf as (o' & Hm). eapply good_pre; [exact Hm|]. apply Hg. apply Hm.
  - destruct Hf as (o' & Hm & He & Hk). exists o'. split; [exact Hm|]. split; [exact He|].
    intros x r'' Hr. apply IH; [apply Hk, Hr | exact Hg].
Qed.

Lemma others_refl (name : string) (r : Reactor) : others name r r.
Proof. intros n _. reflexivity. Qed.

Lemma others_FulfillWaiters (name : string) (status : Status) (r r' : Reactor) :
  others name r r' -> others name r (FulfillWaiters name status r').
Proof.
  intros H n Hn. rewrite <- (H n Hn). unfold registered.
  rewrite FulfillWaiters_requestWaiters, lookup_delete_ne by congruence. reflexivity.
Qed.

Lemma others_set_collections (name : string) f (r r' : Reactor) :
  others name r r' -> others name r (set_collections f r').
Proof. intros H n Hn. rewrite <- (H n Hn). reflexivity. Qed.

Lemma others_collections_at (name n' : string) (r r' : Reactor) :
  others name r r' -> others name r (snd (collections_at n' r')).
Proof.
  intros H. unfold collections_at. destruct (collections (client r') !! n'); simpl;
    [exact H | apply others_set_collections, H].
Qed.

Lemma collections_at_requestWaiters (n' : string) (r : Reactor) :
  requestWaiters (client (snd (collections_at n' r))) = requestWaiters (client r).
Proof. unfold collections_at. destruct (collections (client r) !! n'); reflexivity. Qed.

Lemma released (name : string) (r r' : Reactor) :
  others name r r' -> exists owns', moves name true r owns' r'.
Proof.
  intros H. exists false. split; [exact H|]. repeat split; intros; discriminate.
Qed.

Lemma attach_moves (name : string) (owns : bool) (r : Reactor) (waiters : list promise) :
  moves name owns r owns (snd (emplace_back_promise name waiters r)).
Proof.
  unfold moves, registered; simpl. split.
  - intros n Hn. rewrite lookup_insert_ne by congruence. reflexivity.
  - rewrite lookup_insert_eq. repeat split; intros; try congruence; eauto.
Qed.

Lemma register_moves (name : string) (r : Reactor) :
  requestWaiters (client r) !! name = None ->
  moves name false r true (set_requestWaiters (<[name := []]>) r).
Proof.
  intros Hrw. unfold moves, registered; simpl. split.
  - intros n Hn. rewrite lookup_insert_ne by congruence. reflexivity.
  - rewrite lookup_insert_eq, Hrw. repeat split; intros; try congruence; eauto.
Qed.

(** The continuation of a call that attached itself to the request in
    flight. *)
Lemma waiter_good (retry : Reactor -> future Status) (name : string) (key : Key)
    (reverse excludedKey : bool) (owns : bool) (status : Status) (r2 : Reactor) :
  (owns = true -> registered name r2) ->
  (forall r, (owns = true -> registered name r) -> good name owns r (retry r)) ->
  good name owns r2
    (let '(assigned, r) :=
       if is2xxOK status then
         let '(getter, r) := collections_at name r2 in
         (negb (not_assigned (partition (getPartitionForKey getter key reverse excludedKey))),
          r)
       else (false, r2) in
     if assigned then Ready r status else retry r).
Proof.
  intros Hr2 Hretry.
  destruct (is2xxOK status); [|apply Hretry, Hr2].
  pose proof (collections_at_requestWaiters name r2) as Hrw3.
  destruct (collections_at name r2) as [getter r3]. simpl in Hrw3.
  assert (Hm : moves name owns r2 owns r3) by (apply moves_refl; assumption).
  destruct (negb (not_assigned _)).
  - exists owns. exact Hm.
  - eapply good_pre; [exact Hm|]. apply Hretry. apply Hm.
Qed.

Lemma Get_good (retries : nat) :
  forall (deadline : Deadline) (name : string) (key : Key) (reverse excludedKey : bool)
         (r : Reactor) (owns : bool),
    (owns = true -> registered name r) ->
    good name owns r
      (GetAssignedPartitionWithRetry retries deadline name key reverse excludedKey r).
Proof.
  induction retries as [|n IH]; intros deadline name key reverse excludedKey r owns Howns;
    simpl; destruct (requestWaiters (client r) !! name) as [waiters|] eqn:Hrw.
  - exists owns. split; [apply (attach_moves name owns r waiters)|].
    split; [intros n' [=]|]. intros status r2 Hr2.
    apply (waiter_good (fun r => Ready r _) name key reverse excludedKey owns status r2 Hr2).
    intros r3 Hr3. exists owns. apply moves_refl; [reflexivity | exact Hr3].
  - assert (owns = false) as ->
      by (destruct owns; [destruct (Howns eq_refl) as [? Hx]; congruence | reflexivity]).
    exists true. split; [apply register_moves, Hrw|].
    split; [intros n' [= <-]; auto|]. intros [status coll] r2 Hr2; cbv beta iota.
    destruct (is2xxOK status) eqn:H2; simpl.
    all: try rewrite collections_at_insert.
    all: try destruct (not_assigned _) eqn:Hna; simpl.
    all: try destruct (is5xxRetryable status) eqn:H5; simpl.
    all: try destruct (isOver deadline _) eqn:Hover; simpl.
    all: apply released;
         repeat first [apply others_FulfillWaiters | apply others_set_collections
                      | apply others_refl].
  - exists owns. split; [apply (attach_moves name owns r waiters)|].
    split; [intros n' [=]|]. intros status r2 Hr2.
    apply (waiter_good
             (fun r => GetAssignedPartitionWithRetry n deadline name key reverse excludedKey r)
             name key reverse excludedKey owns status r2 Hr2).
    intros r3 Hr3. apply IH, Hr3.
  - assert (owns = false) as ->
      by (destruct owns; [destruct (Howns eq_refl) as [? Hx]; congruence | reflexivity]).
    exists true. split; [apply register_moves, Hrw|].
    split; [intros n' [= <-]; auto|]. intros [status coll] r2 Hr2; cbv beta iota.
    destruct (is2xxOK status) eqn:H2; simpl.
    + rewrite collections_at_insert.
      destruct (not_assigned _) eqn:Hna; simpl;
        [destruct (isOver deadline _) eqn:Hover; simpl|].
      1,3: apply released;
           repeat first [apply others_FulfillWaiters | apply others_set_collections
                        | apply others_refl].
      (* not assigned, retries remain: released, then sleep *)
      exists false. split.
      { split; [apply others_FulfillWaiters, others_set_collections, others_refl|].
        repeat split; intros; discriminate. }
      split; [intros n' [=]|]. intros _ r4 _. apply IH. intros [=].
    + destruct (is5xxRetryable status) eqn:H5; simpl;
        [destruct (isOver deadline _) eqn:Hover; simpl|].
      1,3: apply released;
           repeat first [apply others_FulfillWaiters | apply others_set_collections
                        | apply others_refl].
      (* 5xx, retries remain: sleep with the registration kept *)
      exists true. split; [apply moves_refl; [reflexivity | exact Hr2]|].
      split; [intros n' [=]|]. intros _ r4 Hr4. apply IH. exact Hr4.
Qed.

Lemma PartitionRequest_f_good (deadline : Deadline) (request : RequestT)
    (reverse exclusiveKey : bool) (r : Reactor) (owns : bool) :
  (owns = true -> registered (collectionName request) r) ->
  good (collectionName request) owns r
    (PartitionRequest_f deadline request reverse exclusiveKey r).
Proof.
  intros Howns. unfold CPO.PartitionRequest_f.
  destruct (collections (client r) !! collectionName request) as [getter|] eqn:Hc.
  - rewrite (collections_at_Some _ _ _ Hc). destruct (not_assigned _).
    + apply (Get_good 1), Howns.
    + exists owns. apply moves_refl; [reflexivity | exact Howns].
  - apply (Get_good 1), Howns.
Qed.

Lemma PartitionRequest_good (retries : nat) :
  forall (deadline : Deadline) (request : RequestT) (reverse exclusiveKey : bool)
         (r : Reactor) (owns : bool),
    (owns = true -> registered (collectionName request) r) ->
    good (collectionName request) owns r
      (PartitionRequest retries deadline request reverse exclusiveKey r).
Proof.
  induction retries as [|n IH]; intros deadline request reverse exclusiveKey r owns Howns;
    simpl; (apply good_then; [apply PartitionRequest_f_good, Howns|]).
  all: intros status r1 o1 Hr1.
  all: assert (Hstay : forall (a : Status * ResponseT),
                  good (collectionName request) o1 r1 (Ready r1 a))
         by (intros a; exists o1; apply moves_refl; [reflexivity | exact Hr1]).
  all: destruct (collections (client r1) !! collectionName request) as [getter|] eqn:Hc;
         [|apply Hstay].
  all: rewrite (collections_at_Some _ _ _ Hc).
  all: destruct (partition _) as [p|]; [|apply Hstay].
  all: destruct (negb (bool_decide (astate p = Assigned))); [apply Hstay|].
  all: exists o1; split; [apply moves_refl; [reflexivity | exact Hr1]|].
  all: split; [intros n' [=]|]; intros [st resp] r2 Hr2; cbv beta iota.
  all: assert (Hstay2 : forall (a : Status * ResponseT),
                  good (collectionName request) o1 r2 (Ready r2 a))
         by (intros a; exists o1; apply moves_refl; [reflexivity | exact Hr2]).
  all: destruct (negb (Status_eqb st (S410_Gone "")) && negb (is5xxRetryable st));
         [apply Hstay2|].
  all: destruct (isOver deadline r2); [apply Hstay2|]; try apply Hstay2.
  apply good_then.
  - apply (Get_good 1 deadline (collectionName request)). exact Hr2.
  - intros _ r3 o3 Hr3. apply (IH deadline (set_pvid (pvid p) request)). exact Hr3.
Qed.

Lemma owners_app (ts1 ts2 : list Tagged) : owners (ts1 ++ ts2) = owners ts1 ++ owners ts2.
Proof.
  induction ts1 as [|t ts1 IH]; simpl; [reflexivity|].
  destruct (tag_owns t); simpl; rewrite IH; reflexivity.
Qed.

Lemma park_Inv {A : Type} (f : future A) (name : string) (o : bool) (r0 : Reactor)
    (rest : list Tagged) :
  good name o r0 f ->
  Forall fiber_ok rest -> NoDup (owners rest) ->
  (forall n, n ∈ owners rest -> registered n r0) ->
  (o = true -> name ∉ owners rest) ->
  Inv (park f (tag_fiber <$> rest)).
Proof.
  intros Hgood Hok Hnd Hreg Hmine.
  assert (Hkept : forall o' r', moves name o r0 o' r' ->
                    forall n, n ∈ owners rest -> registered n r').
  { intros o' r' (Hm1 & Hm2 & Hm3 & Hm4) n Hn.
    destruct (decide (n = name)) as [-> | Hne]; [|apply Hm1; auto].
    destruct o; [destruct (Hmine eq_refl Hn)|].
    destruct o'; [destruct (Hm3 eq_refl eq_refl (Hreg _ Hn)) | apply Hm4; auto]. }
  destruct f as [r' a|X r' e k]; simpl in *.
  - destruct Hgood as (o' & Hm). exists rest. repeat split; try assumption.
    simpl. apply (Hkept o' r' Hm).
  - destruct Hgood as (o' & Hm & He & Hk).
    exists (mkTagged name o' (Parked e k) :: rest). simpl.
    split; [reflexivity|]. split; [constructor; [split; assumption | exact Hok]|].
    pose proof Hm as (Hm1 & Hm2 & Hm3 & Hm4).
    destruct o'; simpl.
    + split.
      * constructor; [|exact Hnd]. intros Hin.
        destruct o; [exact (Hmine eq_refl Hin)|].
        exact (Hm3 eq_refl eq_refl (Hreg _ Hin)).
      * intros n Hn. apply elem_of_cons in Hn. destruct Hn as [-> | Hn];
          [apply Hm2; reflexivity | apply (Hkept true r' Hm n Hn)].
    + split; [exact Hnd | apply (Hkept false r' Hm)].
Qed.

Lemma step_Inv (s s' : System) : Inv s -> step s s' -> Inv s'.
Proof.
  intros (ts & Hfib & Hok & Hnd & Hreg) Hstep.
  destruct Hstep as [s t retries deadline name key reverse excludedKey
                    |s t retries deadline request reverse exclusiveKey
                    |s t before after A X e k x Hsplit Hans].
  - rewrite <- Hfib.
    apply (park_Inv _ name false (tick t (reactor s)) ts); try assumption;
      [apply Get_good; discriminate | discriminate].
  - rewrite <- Hfib.
    apply (park_Inv _ (collectionName request) false (tick t (reactor s)) ts);
      try assumption; [apply PartitionRequest_good; discriminate | discriminate].
  - rewrite Hsplit in Hfib.
    apply fmap_app_inv in Hfib. destruct Hfib as (ts1 & ts' & -> & Hts' & ->).
    symmetry in Hts'. apply fmap_cons_inv in Hts'.
    destruct Hts' as (tg & ts2 & Htg & -> & ->).
    rewrite <- fmap_app.
    apply Forall_app in Hok. destruct Hok as [Hok1 Hok].
    apply Forall_cons in Hok. destruct Hok as [Htgok Hok2].
    unfold fiber_ok in Htgok. rewrite <- Htg in Htgok. destruct Htgok as [_ Hk].
    rewrite owners_app in Hnd, Hreg. simpl in Hnd, Hreg.
    assert (Hrest : NoDup (owners (ts1 ++ ts2))
                    /\ (tag_owns tg = true -> tag_name tg ∉ owners (ts1 ++ ts2))
                    /\ (tag_owns tg = true -> registered (tag_name tg) (reactor s))
                    /\ forall n, n ∈ owners (ts1 ++ ts2) -> registered n (reactor s)).
    { rewrite owners_app. destruct (tag_owns tg).
      - apply NoDup_app in Hnd. destruct Hnd as (Hnd1 & Hdisj & Hnd2).
        apply NoDup_cons in Hnd2. destruct Hnd2 as [Hnotin Hnd2].
        split; [apply NoDup_app; repeat split; try assumption;
                intros n Hn1 Hn2; apply (Hdisj n Hn1); right; exact Hn2|].
        split; [intros _ Hin; apply elem_of_app in Hin; destruct Hin as [Hin | Hin];
                [apply (Hdisj _ Hin); left | exact (Hnotin Hin)]|].
        split; [intros _; apply Hreg; apply elem_of_app; right; left|].
        intros n Hn. apply Hreg. apply elem_of_app in Hn. apply elem_of_app.
        destruct Hn as [Hn | Hn]; [left | right; right]; exact Hn.
      - split; [exact Hnd|]. split; [discriminate|]. split; [discriminate | exact Hreg]. }
    destruct Hrest as (Hnd' & Hmine & Hown & Hreg').
    apply (park_Inv _ (tag_name tg) (tag_owns tg) (tick t (reactor s)) (ts1 ++ ts2));
      try assumption.
    + apply Hk. exact Hown.
    + apply Forall_app. split; assumption.
Qed.

Lemma reachable_Inv (s : System) : reachable s -> Inv s.
Proof.
  induction 1 as [r Hr|s s' _ IH Hstep].
  - exists []. simpl. repeat split; [constructor | constructor |].
    intros n Hn. apply elem_of_nil in Hn. destruct Hn.
  - eapply step_Inv; eassumption.
Qed.

Lemma waits_for_collection_owner (name : string) (t : Tagged) :
  fiber_ok t -> waits_for_collection name (tag_fiber t) = true ->
  tag_name t = name /\ tag_owns t = true.
Proof.
  unfold fiber_ok, waits_for_collection. destruct (tag_fiber t) as [A X e k].
  intros [He _] Hw. apply bool_decide_eq_true in Hw.
  destruct (He name Hw) as [-> Ho]. split; [reflexivity | exact Ho].
Qed.

Lemma outstanding_owners (name : string) (ts : list Tagged) :
  Forall fiber_ok ts -> NoDup (owners ts) ->
  (length (List.filter (waits_for_collection name) (tag_fiber <$> ts)) <= 1)%nat
  /\ (name ∉ owners ts ->
      length (List.filter (waits_for_collection name) (tag_fiber <$> ts)) = 0%nat).
Proof.
  induction ts as [|t ts IH]; intros Hok Hnd; [split; [simpl; lia | reflexivity]|].
  apply Forall_cons in Hok. destruct Hok as [Ht Hok].
  rewrite fmap_cons. cbn [List.filter owners] in *.
  destruct (waits_for_collection name (tag_fiber t)) eqn:Hw.
  - destruct (waits_for_collection_owner name t Ht Hw) as [Hname Howns].
    rewrite Howns, Hname in *. apply NoDup_cons in Hnd.
    destruct Hnd as [Hnotin Hnd]. destruct (IH Hok Hnd) as [_ Hzero].
    cbn [length]. rewrite (Hzero Hnotin). split; [lia|].
    intros Hno. exfalso. apply Hno. left.
  - assert (Hnd' : NoDup (owners ts)).
    { destruct (tag_owns t); [apply NoDup_cons in Hnd; apply Hnd | exact Hnd]. }
    destruct (IH Hok Hnd') as [Hle Hzero]. split; [exact Hle|].
    intros Hno. apply Hzero. intros Hin. apply Hno.
    destruct (tag_owns t); [right|]; exact Hin.
Qed.

Lemma at_most_one_outstanding (s : System) (name : string) :
  reachable s -> (outstanding name s <= 1)%nat.
Proof.
  intros Hs. destruct (reachable_Inv s Hs) as (ts & Hfib & Hok & Hnd & _).
  unfold outstanding. rewrite <- Hfib. apply outstanding_owners; assumption.
Qed.

Lemma FulfillWaiters_fulfilled (name : string) (status : Status) (r : Reactor)
    (waiters : list promise) (p : promise) :
  requestWaiters (client r) !! name = Some waiters -> p ∈ waiters ->
  fulfilled (FulfillWaiters name status r) !! p = Some status.
Proof.
  intros Hrw Hp. unfold FulfillWaiters. rewrite Hrw. simpl.
  clear Hrw. revert r. induction waiters as [|q waiters IH]; intros r.
  - apply elem_of_nil in Hp. destruct Hp.
  - simpl. destruct (decide (p ∈ waiters)) as [Hin | Hnotin]; [apply IH, Hin|].
    apply elem_of_cons in Hp. destruct Hp as [-> | Hp]; [|contradiction].
    clear IH. revert r. induction waiters as [|q' waiters IH]; intros r; simpl.
    + apply lookup_insert_eq.
    + assert (Hne : q ≠ q') by (intros ->; apply Hnotin; left).
      assert (Hnotin' : q ∉ waiters) by (intros H; apply Hnotin; right; exact H).
      specialize (IH Hnotin' (set_value q' status r)).
      unfold set_value in *. simpl in *.
      rewrite insert_insert_ne in IH by congruence. exact IH.
Qed.

Lemma FulfillWaiters_unregistered (name : string) (status : Status) (r : Reactor) :
  requestWaiters (client r) !! name = None ->
  fulfilled (FulfillWaiters name status r) = fulfilled r.
Proof. intros Hnone. unfold FulfillWaiters. rewrite Hnone. reflexivity. Qed.

(** The continuation of the collection-get RPC, case by case: the status
    that each call of [FulfillWaiters] passes to the waiters, and the status
    that the call itself returns. *)
Lemma Get_owner_continuation (retries : nat) (deadline : Deadline) (name : string) (key : Key)
    (reverse excludedKey : bool) (r : Reactor) :
  requestWaiters (client r) !! name = None ->
  exists k,
    GetAssignedPartitionWithRetry retries deadline name key reverse excludedKey r
    = Pending (set_requestWaiters (<[name := []]>) r)
        (callRPC_CPO_COLLECTION_GET (mkCollectionGetRequest name) (cpo (client r))
           (Z.min (getRemaining deadline r) (cpo_request_timeout (client r)))) k
    /\ forall (status : Status) (coll_response : CollectionGetResponse) (r2 : Reactor),
        (is2xxOK status = true ->
         let r3 := FulfillWaiters name status
                     (set_collections
                        (<[name := mkPartitionGetter (collection coll_response)]>) r2) in
         (not_assigned (partition (getPartitionForKey
                                     (mkPartitionGetter (collection coll_response))
                                     key reverse excludedKey)) = false ->
          k (status, coll_response) r2 = Ready r3 status)
         /\ (not_assigned (partition (getPartitionForKey
                                        (mkPartitionGetter (collection coll_response))
                                        key reverse excludedKey)) = true ->
             retries = O ->
             k (status, coll_response) r2
             = Ready (FulfillWaiters name
                        (S503_Service_Unavailable "not all partitions assigned in cpo") r3)
                 (S503_Service_Unavailable "not all partitions assigned in cpo"))
         /\ (not_assigned (partition (getPartitionForKey
                                        (mkPartitionGetter (collection coll_response))
                                        key reverse excludedKey)) = true ->
             forall n, retries = S n ->
             (isOver deadline r2 = true ->
              k (status, coll_response) r2
              = Ready (FulfillWaiters name (S408_Request_Timeout "cpo deadline exceeded") r3)
                  (S408_Request_Timeout "cpo deadline exceeded"))
             /\ (isOver deadline r2 = false ->
                 k (status, coll_response) r2
                 = Pending r3
                     (sleep (Z.min (getRemaining deadline r2)
                                   (cpo_request_backoff (client r2))))
                     (fun _ r4 => GetAssignedPartitionWithRetry n deadline name key
                                    reverse excludedKey r4)))
         /\ (forall waiters p,
               requestWaiters (client r2) !! name = Some waiters -> p ∈ waiters ->
               fulfilled (left_reactor (k (status, coll_response) r2)) !! p = Some status))
        /\ (is2xxOK status = false -> is5xxRetryable status = false ->
            k (status, coll_response) r2 = Ready (FulfillWaiters name status r2) status)
        /\ (is2xxOK status = false -> is5xxRetryable status = true ->
            (isOver deadline r2 = true ->
             k (status, coll_response) r2
             = Ready (FulfillWaiters name (S408_Request_Timeout "cpo deadline exceeded") r2)
                 (S408_Request_Timeout "cpo deadline exceeded"))
            /\ (isOver deadline r2 = false -> retries = O ->
                k (status, coll_response) r2
                = Ready (FulfillWaiters name status r2)
                    (S408_Request_Timeout "cpo retries exceeded"))
            /\ (isOver deadline r2 = false -> forall n, retries = S n ->
                k (status, coll_response) r2
                = Pending r2
                    (sleep (Z.min (getRemaining deadline r2) (cpo_request_backoff (client r2))))
                    (fun _ r4 => GetAssignedPartitionWithRetry n deadline name key
                                   reverse excludedKey r4))).
Proof.
  intros Hnone.
  destruct retries as [|n]; simpl; rewrite Hnone; eexists; (split; [reflexivity|]).
  all: intros status coll r2; cbv beta iota.
  all: split; [|split].
  all: try (intros H2 H5; rewrite H2, H5; simpl).
  (* not retryable *)
  2,5: reflexivity.
  (* 5xx *)
  2,4: (split; [intros ->; reflexivity|]; split;
        [intros -> Hr; first [reflexivity | discriminate]
        |intros -> n' Hr; first [discriminate | injection Hr as <-; reflexivity]]).
  (* 2xx *)
  all: intros H2; rewrite H2; simpl; rewrite collections_at_insert.
  all: remember (FulfillWaiters name status _) as r3 eqn:Hr3.
  all: assert (Hgone : requestWaiters (client r3) !! name = None)
    by (rewrite Hr3, FulfillWaiters_requestWaiters; apply lookup_delete_eq).
  all: assert (Hover3 : isOver deadline r3 = isOver deadline r2)
    by (apply isOver_now; rewrite Hr3, FulfillWaiters_now; reflexivity).
  all: assert (Hrem3 : getRemaining deadline r3 = getRemaining deadline r2)
    by (apply getRemaining_now; rewrite Hr3, FulfillWaiters_now; reflexivity).
  all: assert (Hback3 : cpo_request_backoff (client r3) = cpo_request_backoff (client r2))
    by (rewrite Hr3, FulfillWaiters_config; reflexivity).
  all: split; [intros ->; reflexivity|].
  all: split; [intros -> Hr; first [reflexivity | discriminate]|].
  all: split;
    [intros -> n' Hr; first [discriminate | injection Hr as <-]; cbn -[FulfillWaiters];
     rewrite Hover3, Hrem3, Hback3; split; intros ->; reflexivity|].
  all: intros waiters p Hw Hp.
  all: assert (Hp3 : fulfilled r3 !! p = Some status)
    by (rewrite Hr3; eapply FulfillWaiters_fulfilled; [|exact Hp]; simpl; exact Hw).
  all: destruct (not_assigned _); cbn -[FulfillWaiters]; [|exact Hp3].
  - rewrite FulfillWaiters_unregistered by exact Hgone. exact Hp3.
  - destruct (isOver deadline r3); cbn -[FulfillWaiters]; [|exact Hp3].
    rewrite FulfillWaiters_unregistered by exact Hgone. exact Hp3.
Qed.

(** A call that attached itself as a waiter, resumed with a 2xx status while
    the partition of its key is absent from the cache or not assigned. *)
Lemma Get_waiter_not_assigned (retries : nat) (deadline : Deadline) (name : string)
    (key : Key) (reverse excludedKey : bool) (r : Reactor) (waiters : list promise) :
  requestWaiters (client r) !! name = Some waiters ->
  exists r1 k,
    GetAssignedPartitionWithRetry retries deadline name key reverse excludedKey r
    = Pending r1 (get_future (next_promise r)) k
    /\ forall (status : Status) (r2 : Reactor),
        is2xxOK status = true ->
        not_assigned (partition (getPartitionForKey (collections_at name r2).1
                                   key reverse excludedKey)) = true ->
        (retries = O ->
         k status r2
         = Ready (collections_at name r2).2
             (S408_Request_Timeout "get assigned partition retries exceeded"))
        /\ (forall n, retries = S n ->
            k status r2
            = GetAssignedPartitionWithRetry n deadline name key reverse excludedKey
                (collections_at name r2).2).
Proof.
  intros Hrw. destruct retries as [|n]; simpl; rewrite Hrw; simpl.
  all: eexists; eexists; split; [reflexivity|].
  all: intros status r2 H2 Hna; cbv beta; rewrite H2.
  all: destruct (collections_at name r2) as [getter r3]; simpl in *; rewrite Hna; simpl.
  all: split; [intros Hr | intros n' Hr];
    first [discriminate | reflexivity | injection Hr as <-; reflexivity].
Qed.

(** C5 (amended). At most one collection-get RPC per collection name is in flight in
    any state that a shard reaches by calls of
    [GetAssignedPartitionWithRetry] and [PartitionRequest], with any
    arguments, and by resuming suspended calls with any result. A call of
    [GetAssignedPartitionWithRetry] made while the name is registered in
    [requestWaiters] issues no RPC: it puts a new promise at the back of the
    waiters of that name and waits on the future of that promise.
    [FulfillWaiters] gives every waiting promise of the name the status it
    is called with and removes the registration; the waiting call is resumed
    with that status, and is ready with it when it is 2xx and the partition
    of its key is assigned. Resumed with a status that is not 2xx, it is
    ready with S408 "get assigned partition retries exceeded" when it has no
    retries left, and calls [GetAssignedPartitionWithRetry] again with one
    retry less otherwise. The status that the call in flight passes to
    [FulfillWaiters] is the status of the collection-get RPC when that is
    2xx, whether or not the partition of its own key is assigned, so that
    it may itself return S503 afterwards; when it is neither 2xx nor
    5xx-retryable; and when it is 5xx-retryable, the deadline is not over and
    no retries are left, where it returns S408 itself. It is S408 "cpo
    deadline exceeded" when the status is 5xx-retryable and the deadline is
    over. When the call backs off to retry after a 5xx-retryable status,
    it leaves the state as it is: no waiter is fulfilled. *)
Theorem one_collection_get_in_flight :
  (forall (s : System) (name : string), reachable s -> (outstanding name s <= 1)%nat)
  /\ (forall (retries : nat) (deadline : Deadline) (name : string) (key : Key)
             (reverse excludedKey : bool) (r : Reactor) (waiters : list promise),
        requestWaiters (client r) !! name = Some waiters ->
        exists r1 k,
          GetAssignedPartitionWithRetry retries deadline name key reverse excludedKey r
          = Pending r1 (get_future (next_promise r)) k
          /\ requestWaiters (client r1)
             = <[name := waiters ++ [next_promise r]]> (requestWaiters (client r))
          /\ collections (client r1) = collections (client r)
          /\ fulfilled r1 = fulfilled r
          /\ (forall (status : Status) (r2 : Reactor) (getter : PartitionGetter),
               is2xxOK status = true ->
               collections (client r2) !! name = Some getter ->
               not_assigned (partition (getPartitionForKey getter key reverse excludedKey))
               = false ->
               k status r2 = Ready r2 status)
          /\ (forall (status : Status) (r2 : Reactor),
                is2xxOK status = false ->
                (retries = O ->
                 k status r2
                 = Ready r2 (S408_Request_Timeout "get assigned partition retries exceeded"))
                /\ (forall n, retries = S n ->
                    k status r2
                    = GetAssignedPartitionWithRetry n deadline name key reverse
                        excludedKey r2)))
  /\ (forall (name : string) (status : Status) (r : Reactor) (waiters : list promise),
        requestWaiters (client r) !! name = Some waiters ->
        requestWaiters (client (FulfillWaiters name status r)) !! name = None
        /\ forall p, p ∈ waiters ->
             fulfilled (FulfillWaiters name status r) !! p = Some status
             /\ forall x, answers (FulfillWaiters name status r) (get_future p) x
                          -> x = status)
  /\ (forall (retries : nat) (deadline : Deadline) (name : string) (key : Key)
             (reverse excludedKey : bool) (r : Reactor),
        requestWaiters (client r) !! name = None ->
        exists k,
          GetAssignedPartitionWithRetry retries deadline name key reverse excludedKey r
          = Pending (set_requestWaiters (<[name := []]>) r)
              (callRPC_CPO_COLLECTION_GET (mkCollectionGetRequest name) (cpo (client r))
                 (Z.min (getRemaining deadline r) (cpo_request_timeout (client r)))) k
          /\ forall (status : Status) (coll_response : CollectionGetResponse) (r2 : Reactor),
              (is2xxOK status = true ->
               let r3 := FulfillWaiters name status
                           (set_collections
                              (<[name := mkPartitionGetter (collection coll_response)]>) r2) in
               (not_assigned (partition (getPartitionForKey
                                           (mkPartitionGetter (collection coll_response))
                                           key reverse excludedKey)) = false ->
                k (status, coll_response) r2 = Ready r3 status)
               /\ (not_assigned (partition (getPartitionForKey
                                              (mkPartitionGetter (collection coll_response))
                                              key reverse excludedKey)) = true ->
                   retries = O ->
                   k (status, coll_response) r2
                   = Ready (FulfillWaiters name
                              (S503_Service_Unavailable "not all partitions assigned in cpo")
                              r3)
                       (S503_Service_Unavailable "not all partitions assigned in cpo"))
               /\ (not_assigned (partition (getPartitionForKey
                                              (mkPartitionGetter (collection coll_response))
                                              key reverse excludedKey)) = true ->
                   forall n, retries = S n ->
                   (isOver deadline r2 = true ->
                    k (status, coll_response) r2
                    = Ready (FulfillWaiters name
                               (S408_Request_Timeout "cpo deadline exceeded") r3)
                        (S408_Request_Timeout "cpo deadline exceeded"))
                   /\ (isOver deadline r2 = false ->
                       k (status, coll_response) r2
                       = Pending r3
                           (sleep (Z.min (getRemaining deadline r2)
                                         (cpo_request_backoff (client r2))))
                           (fun _ r4 => GetAssignedPartitionWithRetry n deadline name key
                                          reverse excludedKey r4)))
               /\ (forall waiters p,
                     requestWaiters (client r2) !! name = Some waiters -> p ∈ waiters ->
                     fulfilled (left_reactor (k (status, coll_response) r2)) !! p
                     = Some status))
              /\ (is2xxOK status = false -> is5xxRetryable status = false ->
                  k (status, coll_response) r2 = Ready (FulfillWaiters name status r2) status)
              /\ (is2xxOK status = false -> is5xxRetryable status = true ->
                  (isOver deadline r2 = true ->
                   k (status, coll_response) r2
                   = Ready (FulfillWaiters name
                              (S408_Request_Timeout "cpo deadline exceeded") r2)
                       (S408_Request_Timeout "cpo deadline exceeded"))
                  /\ (isOver deadline r2 = false -> retries = O ->
                      k (status, coll_response) r2
                      = Ready (FulfillWaiters name status r2)
                          (S408_Request_Timeout "cpo retries exceeded"))
                  /\ (isOver deadline r2 = false -> forall n, retries = S n ->
                      k (status, coll_response) r2
                      = Pending r2
                          (sleep (Z.min (getRemaining deadline r2)
                                        (cpo_request_backoff (client r2))))
                          (fun _ r4 => GetAssignedPartitionWithRetry n deadline name key
                                         reverse excludedKey r4)))).
Proof.
  split; [intros s name Hs; apply at_most_one_outstanding, Hs|]. split; [|split].
  3:{ intros retries deadline name key reverse excludedKey r Hnone.
      apply Get_owner_continuation. exact Hnone. }
  - intros retries deadline name key reverse excludedKey r waiters Hrw.
    destruct retries as [|n]; simpl; rewrite Hrw; simpl.
    all: eexists; eexists; split; [reflexivity|]; simpl.
    all: repeat (split; [reflexivity|]).
    all: split;
      [intros status r2 getter H2 Hc Hna; rewrite H2, (collections_at_Some _ _ _ Hc), Hna;
       reflexivity|].
    all: intros status r2 H2; rewrite H2; split; [intros Hr | intros n' Hr];
      first [discriminate | reflexivity | injection Hr as <-; reflexivity].
  - intros name status r waiters Hrw. split.
    + rewrite FulfillWaiters_requestWaiters. apply lookup_delete_eq.
    + intros p Hp.
      pose proof (FulfillWaiters_fulfilled name status r waiters p Hrw Hp) as Hf.
      split; [exact Hf|]. intros x Hx. unfold CPO.answers in Hx. rewrite Hf in Hx.
      injection Hx as <-. reflexivity.
Qed.

(** C6 (amended). A call of [GetAssignedPartitionWithRetry] that finds no request
    registered for the collection issues the collection-get RPC. When the
    CPO answers 2xx and the partition of the key is absent from the returned
    collection or not in state Assigned: with no retries left the call is
    ready with S503 "not all partitions assigned in cpo"; with retries left
    and the deadline not over it sleeps for the backoff, bounded by the time
    remaining to the deadline, and calls itself again with one retry less.
    When the first part of [PartitionRequest] has completed and the cached
    partition of the key is still not assigned, [PartitionRequest] is ready
    with S503 "partition not assigned" and issues nothing more. A call of
    [GetAssignedPartitionWithRetry] that finds a request registered waits
    as one of its waiters; resumed with a 2xx status while the partition of
    its key is absent from the cache or not assigned, it is ready with S408
    "get assigned partition retries exceeded" when it has no retries left,
    and otherwise calls itself again at once, with one retry less and
    without a sleep. *)
Theorem not_assigned_is_service_unavailable :
  (forall (retries : nat) (deadline : Deadline) (name : string) (key : Key)
          (reverse excludedKey : bool) (r : Reactor),
     requestWaiters (client r) !! name = None ->
     exists k,
       GetAssignedPartitionWithRetry retries deadline name key reverse excludedKey r
       = Pending (set_requestWaiters (<[name := []]>) r)
           (callRPC_CPO_COLLECTION_GET (mkCollectionGetRequest name) (cpo (client r))
              (Z.min (getRemaining deadline r) (cpo_request_timeout (client r)))) k
       /\ forall (status : Status) (coll_response : CollectionGetResponse) (r2 : Reactor),
           is2xxOK status = true ->
           not_assigned (partition (getPartitionForKey
                                      (mkPartitionGetter (collection coll_response))
                                      key reverse excludedKey)) = true ->
           (retries = O ->
            exists r3, k (status, coll_response) r2
                       = Ready r3 (S503_Service_Unavailable
                                     "not all partitions assigned in cpo"))
           /\ (forall n, retries = S n -> isOver deadline r2 = false ->
               exists r3, k (status, coll_response) r2
                          = Pending r3
                              (sleep (Z.min (getRemaining deadline r2)
                                            (cpo_request_backoff (client r2))))
                              (fun _ r4 => GetAssignedPartitionWithRetry n deadline name key
                                             reverse excludedKey r4)))
  /\ (forall (retries : nat) (deadline : Deadline) (request : RequestT)
             (reverse exclusiveKey : bool) (r0 r1 : Reactor) (trace : list Resumption)
             (status : Status) (getter : PartitionGetter),
        run (PartitionRequest_f deadline request reverse exclusiveKey r0) trace r1 status ->
        collections (client r1) !! collectionName request = Some getter ->
        not_assigned (partition (getPartitionForKey getter (key request)
                                   reverse exclusiveKey)) = true ->
        run (PartitionRequest retries deadline request reverse exclusiveKey r0) trace r1
          (S503_Service_Unavailable "partition not assigned", ResponseT_default))
  /\ (forall (retries : nat) (deadline : Deadline) (name : string) (key : Key)
             (reverse excludedKey : bool) (r : Reactor) (waiters : list promise),
        requestWaiters (client r) !! name = Some waiters ->
        exists r1 k,
          GetAssignedPartitionWithRetry retries deadline name key reverse excludedKey r
          = Pending r1 (get_future (next_promise r)) k
          /\ forall (status : Status) (r2 : Reactor),
              is2xxOK status = true ->
              not_assigned (partition (getPartitionForKey (collections_at name r2).1
                                         key reverse excludedKey)) = true ->
              (retries = O ->
               k status r2
               = Ready (collections_at name r2).2
                   (S408_Request_Timeout "get assigned partition retries exceeded"))
              /\ (forall n, retries = S n ->
                  k status r2
                  = GetAssignedPartitionWithRetry n deadline name key reverse excludedKey
                      (collections_at name r2).2)).
Proof.
  split; [intros; apply Get_registers; assumption|].
  split; [|intros retries deadline name key reverse excludedKey r waiters Hrw;
           eapply Get_waiter_not_assigned; exact Hrw].
  intros retries deadline request reverse exclusiveKey r0 r1 trace status getter Hrun Hc Hna.
  destruct (PartitionRequest_unfold retries deadline request reverse exclusiveKey r0)
    as (g & -> & _ & Hg & _).
  rewrite <- (app_nil_r trace). eapply run_then; [exact Hrun|].
  rewrite (Hg status r1 getter Hc Hna). constructor.
Qed.

End Client.

(** The client on concrete data. *)

Example get_not_assigned_no_retries :
  (f ← resume_collection_get (Get0 0 reactor0)
         (S200_OK "", mkCollectionGetResponse (collection_of PendingAssignment)) reactor0;
   result f)
  = Some (S503_Service_Unavailable "not all partitions assigned in cpo").
Proof. reflexivity. Qed.

Example get_not_assigned_backs_off :
  (f ← resume_collection_get (Get0 1 reactor0)
         (S200_OK "", mkCollectionGetResponse (collection_of PendingAssignment)) reactor0;
   sleeping f)
  = Some 500.
Proof. reflexivity. Qed.

Example get_not_assigned_backs_off_until_deadline :
  (f ← resume_collection_get (Get0 1 reactor0)
         (S200_OK "", mkCollectionGetResponse (collection_of PendingAssignment))
         (tick 900 reactor0);
   sleeping f)
  = Some 100.
Proof. reflexivity. Qed.

Example get_assigned :
  (f ← resume_collection_get (Get0 0 reactor0)
         (S200_OK "", mkCollectionGetResponse (collection_of Assigned)) reactor0;
   result f)
  = Some (S200_OK "").
Proof. reflexivity. Qed.

Example request_sets_pvid :
  sent_request (Request0 1 reactor_cached)
  = Some (mkRequest (mkPVID 1 1 1) "TPCC" key0 tt).
Proof. reflexivity. Qed.

Example request_not_found_is_returned :
  (f ← resume_partition_rpc (Request0 1 reactor_cached) (mkStatus 404 "not found", tt)
         reactor_cached;
   result f)
  = Some (mkStatus 404 "not found", tt).
Proof. reflexivity. Qed.

Example request_gone_refreshes :
  (f ← resume_partition_rpc (Request0 1 reactor_cached) (S410_Gone "moved", tt)
         reactor_cached;
   Some (result f, requestWaiters (client (left_reactor f)) !! "TPCC"))
  = Some (None, Some []).
Proof. reflexivity. Qed.

Example request_gone_then_reissued :
  (f ← resume_partition_rpc (Request0 1 reactor_cached) (S410_Gone "moved", tt)
         reactor_cached;
   g ← resume_collection_get f
         (S200_OK "", mkCollectionGetResponse (collection_of Assigned)) (left_reactor f);
   sent_request g)
  = Some (mkRequest (mkPVID 1 1 1) "TPCC" key0 tt).
Proof. reflexivity. Qed.

Example request_gone_no_retries :
  (f ← resume_partition_rpc (Request0 0 reactor_cached) (S410_Gone "moved", tt)
         reactor_cached;
   result f)
  = Some (S408_Request_Timeout "partition retries exceeded", tt).
Proof. reflexivity. Qed.

Example request_not_assigned :
  result (Request0 1
            (set_collections
               (<["TPCC" := mkPartitionGetter (collection_of PendingAssignment)]>) reactor0))
  = None
  /\ (f ← resume_collection_get
            (Request0 1
               (set_collections
                  (<["TPCC" := mkPartitionGetter (collection_of PendingAssignment)]>)
                  reactor0))
            (mkStatus 404 "no such collection", mkCollectionGetResponse
                                                   (collection_of PendingAssignment))
            (set_requestWaiters (<["TPCC" := []]>)
               (set_collections
                  (<["TPCC" := mkPartitionGetter (collection_of PendingAssignment)]>)
                  reactor0));
      result f)
     = Some (S503_Service_Unavailable "partition not assigned", tt).
Proof. split; reflexivity. Qed.

Example second_caller_waits :
  awaited_promise (Get0 1 (reactor shard1)) = Some 0%nat
  /\ requestWaiters (client (reactor shard2)) !! "TPCC" = Some [0%nat]
  /\ length (fibers shard2) = 2%nat
  /\ outstanding "TPCC" shard2 = 1%nat.
Proof. repeat split; reflexivity. Qed.

Example shard2_reachable : reachable 3 tt first_partition shard2.
Proof.
  assert (H0 : reachable 3 tt first_partition shard0)
    by (apply reachable_start; reflexivity).
  assert (H1 : reachable 3 tt first_partition shard1).
  { eapply reachable_step; [exact H0|].
    apply (step_GetAssignedPartitionWithRetry 3 tt first_partition
             shard0 0 1 deadline0 "TPCC" key0 false false). }
  eapply reachable_step; [exact H1|].
  apply (step_GetAssignedPartitionWithRetry 3 tt first_partition
           shard1 5 1 deadline0 "TPCC" key0 false false).
Qed.

Example waiter_receives_the_status :
  (f ← resume_promise (Get0 1 (reactor shard1))
         (FulfillWaiters "TPCC" (S200_OK "")
            (set_collections (<["TPCC" := mkPartitionGetter (collection_of Assigned)]>)
               (reactor shard2)));
   result f)
  = Some (S200_OK "").
Proof. reflexivity. Qed.

(** After a 5xx answer with retries left the registration is kept over the
    sleep; the call made after the sleep finds it and waits on a promise of
    its own registration. *)
Example retry_after_5xx_attaches_to_its_own_registration :
  (f ← resume_collection_get (Get0 1 reactor0)
         (S503_Service_Unavailable "busy", mkCollectionGetResponse (collection_of Assigned))
         (left_reactor (Get0 1 reactor0));
   g ← resume_sleep f (left_reactor f);
   Some (awaited_promise g, requestWaiters (client (left_reactor g)) !! "TPCC"))
  = Some (Some 0%nat, Some [0%nat]).
Proof. reflexivity. Qed.

(** C5 (as stated, refuted). A second caller has attached itself to the
    collection-get RPC in flight. When the RPC is answered 503 after the
    deadline, the waiter receives S408 "cpo deadline exceeded", not the
    status of the RPC. When the RPC is answered 200 with the partition not
    assigned and the caller in flight has no retries left, the waiter
    receives 200 while the caller in flight returns S503. *)
Lemma waiter_does_not_receive_the_status_of_the_request :
  (owner ← Some (Get0 1 reactor0);
   waiter ← Some (Get0 1 (left_reactor owner));
   owner' ← resume_collection_get owner
               (S503_Service_Unavailable "busy", mkCollectionGetResponse (collection_of Assigned))
               (tick 2000 (left_reactor waiter));
   p ← awaited_promise waiter;
   Some (result owner', fulfilled (left_reactor owner') !! p))
  = Some (Some (S408_Request_Timeout "cpo deadline exceeded"),
          Some (S408_Request_Timeout "cpo deadline exceeded"))
  /\ code (S408_Request_Timeout "cpo deadline exceeded")
     <> code (S503_Service_Unavailable "busy")
  /\ (owner ← Some (Get0 0 reactor0);
      waiter ← Some (Get0 1 (left_reactor owner));
      owner' ← resume_collection_get owner
                  (S200_OK "", mkCollectionGetResponse (collection_of PendingAssignment))
                  (left_reactor waiter);
      p ← awaited_promise waiter;
      Some (result owner', fulfilled (left_reactor owner') !! p))
     = Some (Some (S503_Service_Unavailable "not all partitions assigned in cpo"),
             Some (S200_OK ""))
  /\ code (S200_OK "")
     <> code (S503_Service_Unavailable "not all partitions assigned in cpo").
Proof. vm_compute. repeat split; congruence. Qed.

(** C6 (as stated, refuted). The CPO answers 200 with the partition not
    assigned. The caller that issued the RPC backs off; the caller that
    waited on it is fulfilled with 200 and, with no retries left, returns
    S408 "get assigned partition retries exceeded", not S503; with a retry
    left it does not sleep: it issues the collection-get RPC at once. *)
Lemma waiter_not_assigned_is_request_timeout :
  (owner ← Some (Get0 1 reactor0);
   waiter ← Some (Get0 0 (left_reactor owner));
   owner' ← resume_collection_get owner
               (S200_OK "", mkCollectionGetResponse (collection_of PendingAssignment))
               (left_reactor waiter);
   waiter' ← resume_promise waiter (left_reactor owner');
   Some (sleeping owner', result waiter'))
  = Some (Some 500, Some (S408_Request_Timeout "get assigned partition retries exceeded"))
  /\ code (S408_Request_Timeout "get assigned partition retries exceeded")
     <> code (S503_Service_Unavailable "not all partitions assigned in cpo")
  /\ (owner ← Some (Get0 1 reactor0);
      waiter ← Some (Get0 1 (left_reactor owner));
      owner' ← resume_collection_get owner
                  (S200_OK "", mkCollectionGetResponse (collection_of PendingAssignment))
                  (left_reactor waiter);
      waiter' ← resume_promise waiter (left_reactor owner');
      Some (result waiter', sleeping waiter',
            g ← resume_collection_get waiter'
                  (S200_OK "", mkCollectionGetResponse (collection_of Assigned))
                  (left_reactor waiter');
            result g))
     = Some (None, None, Some (S200_OK "")).
Proof. vm_compute. repeat split; congruence. Qed.
End CPO_Properties.

Module TSOService_Properties.
Import Int TSO TSOService TSO_Properties.

Section Worker.
Variable this_shard_id : Z.
Variable K2ASSERT_enabled : bool.
Hypothesis shard_pos : 1 <= this_shard_id.

Local Abbreviation clock_in_range := (TSOService.clock_in_range this_shard_id).
Local Abbreviation call_facts := (TSOService.call_facts this_shard_id K2ASSERT_enabled).
Local Abbreviation adjust_clock_ok := (TSOService.adjust_clock_ok this_shard_id).
Local Abbreviation GetTimestampFromTSO := (TSO.GetTimestampFromTSO this_shard_id K2ASSERT_enabled).

Lemma busy_wait_used {A : Type} (w : TSOWorker) (retry : list Z -> option A) (clock : list Z) :
  forall (cur : Z) (r : A),
    busy_wait w retry cur clock = Some r ->
    exists used clock', clock = used ++ clock' /\ retry clock' = Some r.
Proof.
  induction clock as [|now clock IH]; intros cur r; simpl;
    destruct (cur =? _lastRequestTBEMicroSecRounded w); try discriminate.
  - intros Hr. exists [], []. split; [reflexivity | exact Hr].
  - intros Hr. destruct (IH _ _ Hr) as (used & clock' & -> & Hr').
    exists (now :: used), clock'. split; [reflexivity | exact Hr'].
  - intros Hr. exists [], (now :: clock). split; [reflexivity | exact Hr].
Qed.

Lemma call_facts_earlier (w : TSOWorker) (req : Z) (used clock : list Z) (r : Result) :
  call_facts w req clock r -> call_facts w req (used ++ clock) r.
Proof.
  destruct r as [[out w'] clock']. unfold call_facts.
  intros ((now & used' & ->) & Hci & Hid & Hout).
  split; [exists now, (used ++ used'); rewrite app_assoc; reflexivity|].
  split; [exact Hci|]. split; [exact Hid|].
  destruct out as [b | [|]].
  - destruct Hout as (H1 & H2 & H3 & H4 & H5 & H6 & H7 & now' & k & Hin & Hrest).
    repeat (split; [assumption|]). exists now', k.
    split; [apply elem_of_app; right; exact Hin | exact Hrest].
  - destruct Hout as (H1 & [H2 | (now' & Hin & H2)]); (split; [exact H1|]); [left; exact H2|].
    right. exists now'. split; [apply elem_of_app; right; exact Hin | exact H2].
  - destruct Hout as (H1 & H2 & now' & Hin & H3). repeat (split; [assumption|]).
    exists now'. split; [apply elem_of_app; right; exact Hin | exact H3].
Qed.

Lemma GetTimestampFromTSO_facts (n : nat) :
  forall (clock : list Z), (length clock <= n)%nat ->
  forall (w : TSOWorker) (req : Z) (r : Result),
    worker_ok w -> clock_in_range (_curControlInfo w) clock -> 0 <= req ->
    GetTimestampFromTSO clock w req = Some r ->
    call_facts w req clock r.
Proof.
  induction n as [|n IH]; intros [|now clock] Hlen w req r Hw Hclock Hreq;
    simpl in Hlen; try lia; try discriminate.
  cbn [TSO.GetTimestampFromTSO]. unfold GetTimeStampFromTSOLessFrequentHelper.
  apply Forall_cons in Hclock. destruct Hclock as [[Hnow Hnowb] Hclock].
  assert (Hretry : forall used clock' r',
             clock = used ++ clock' ->
             GetTimestampFromTSO clock' w req = Some r' ->
             call_facts w req clock' r').
  { intros used clock' r' ->. apply IH; try assumption.
    - rewrite length_app in Hlen. lia.
    - apply Forall_app in Hclock. apply Hclock. }
  clear IH.
  destruct Hw as (Hstep & Hadj & Hlast0 & Hlastm & Hcnt).
  rewrite (TBEMicroSecRounded_us this_shard_id shard_pos w now) by assumption.
  set (ci := _curControlInfo w) in *.
  set (cur := us (now + TBEAdjustment ci)) in *.
  set (step := TBENanoSecStep ci) in *.
  set (last := _lastRequestTBEMicroSecRounded w) in *.
  set (cnt := _lastRequestTimeStampCount w) in *.
  set (thr := ReservedTimeThreshold ci) in *.
  assert (Hcur : 0 <= cur <= now + TBEAdjustment ci /\ cur mod 1000 = 0)
    by (unfold cur, us; dlia).
  pose proof (per_us_bounds step Hstep) as HN.
  change (2 ^ 64) with 18446744073709551616 in Hnowb.
  rewrite (uint64_small (cur + 1000)) by (change (2 ^ 64) with 18446744073709551616; lia).
  rewrite (uint16_small (1000 / step)) by (change (2 ^ 16) with 65536; lia).
  rewrite (uint16_small (1000 / step - cnt)) by (change (2 ^ 16) with 65536; lia).
  assert (Hhere : exists now0 used, now :: clock = used ++ now0 :: clock)
    by (exists now, []; reflexivity).
  destruct (IsReadyToIssueTS ci) eqn:Hready; simpl;
    [|intros [= <-]; unfold call_facts; fold ci; rewrite Hready; auto 10].
  destruct (IgnoreThreshold ci || (cur + 1000 <? thr)) eqn:Hfast;
    destruct (Z.ltb_spec last cur) as [Hnew | Hold]; simpl.
  1:{ destruct (K2ASSERT_enabled && (thr <? cur + 1000) && negb (IgnoreThreshold ci)) eqn:Hassert;
      intros [= <-].
      - apply andb_true_iff in Hassert as [Hassert Hi]. apply negb_true_iff in Hi.
        rewrite Hi in Hfast. simpl in Hfast. apply andb_true_iff in Hassert as [_ Hlt].
        apply Z.ltb_lt in Hfast. apply Z.ltb_lt in Hlt. lia.
      - unfold call_facts; simpl; fold ci step cur last thr. rewrite Hready.
        rewrite uint64_small by (change (2 ^ 64) with 18446744073709551616; lia).
        repeat (split; [solve [assumption | reflexivity | lia]|]).
        exists now, 0. split; [apply elem_of_cons; left; reflexivity|].
        repeat (split; [solve [reflexivity | lia]|]).
        intros Hi. rewrite Hi in Hfast. simpl in Hfast. apply Z.ltb_lt in Hfast. lia. }
  all: destruct ((thr <? cur + 1000) && negb (IgnoreThreshold ci)) eqn:Hstep2;
    [intros [= <-]; unfold call_facts; fold ci; rewrite Hready;
     apply andb_true_iff in Hstep2 as [Hlt Hi]; apply negb_true_iff in Hi;
     apply Z.ltb_lt in Hlt;
     repeat (split; [solve [assumption | reflexivity]|]);
     right; exists now; split; [apply elem_of_cons; left; reflexivity|]; left; fold cur thr; split; [exact Hi | lia]|].
  all: destruct (Z.ltb_spec cur last) as [Hback | Hnotback];
    [intros [= <-]; unfold call_facts; fold ci; rewrite Hready;
     repeat (split; [solve [assumption | reflexivity]|]);
     right; exists now; split; [apply elem_of_cons; left; reflexivity|]; right; exact Hback|].
  all: assert (Hthr : IgnoreThreshold ci = false -> cur + 1000 <= thr)
    by (intros Hi; rewrite Hi, andb_true_r in Hstep2; apply Z.ltb_ge in Hstep2; exact Hstep2).
  all: destruct (K2ASSERT_enabled && negb (cur =? last)) eqn:Hassert;
    [intros [= <-]; unfold call_facts; fold ci;
     apply andb_true_iff in Hassert as [Hen Hne]; apply negb_true_iff, Z.eqb_neq in Hne;
     repeat (split; [solve [assumption | reflexivity]|]);
     first [lia |
       apply orb_false_iff in Hfast as [Hi Hlt]; apply Z.ltb_ge in Hlt; specialize (Hthr Hi);
       exists now; split; [apply elem_of_cons; left; reflexivity|]; fold cur thr;
       split; [exact Hi | lia]]|].
  all: destruct (Z.ltb_spec (1000 / step - cnt) req) as [Hshort | Henough];
    [intros Hb; apply busy_wait_used in Hb as (used & clock' & Hsplit & Hr);
     pose proof (Hretry _ _ _ Hsplit Hr) as Hpost; subst clock;
     apply (call_facts_earlier w req (now :: used) clock' r Hpost)|].
  all: intros [= <-].
  all: unfold call_facts; simpl; fold ci step cur last cnt thr; rewrite Hready.
  all: pose proof (slots_fit step cnt Hstep Hcnt) as Hfit.
  all: rewrite uint64_small by (change (2 ^ 64) with 18446744073709551616; lia).
  all: repeat (split; [solve [assumption | reflexivity | lia]|]).
  all: exists now, cnt; (split; [apply elem_of_cons; left; reflexivity|]).
  all: repeat (split; [solve [reflexivity | lia]|]); exact Hthr.
Qed.

Local Abbreviation AdjustWorker := (TSOService.AdjustWorker K2ASSERT_enabled).
Local Abbreviation UpdateWorkerControlInfo := (TSOService.UpdateWorkerControlInfo K2ASSERT_enabled).

Lemma timeToPause_bounds (old new : TSOWorkerControlInfo) :
  control_ok old -> control_ok new ->
  timeToPauseWorkerNanoSec old new mod 1000 = 0
  /\ shrink old new <= timeToPauseWorkerNanoSec old new
  /\ (timeToPauseWorkerNanoSec old new < shrink old new + 1000
      \/ timeToPauseWorkerNanoSec old new = 1000)
  /\ (TBENanoSecStep new <> TBENanoSecStep old -> 1000 <= timeToPauseWorkerNanoSec old new)
  /\ (timeToPauseWorkerNanoSec old new = 0
      <-> shrink old new = 0 /\ TBENanoSecStep new = TBENanoSecStep old).
Proof.
  intros (_ & Ha & Ht & Hb) (_ & Ha' & Ht' & Hb').
  unfold timeToPauseWorkerNanoSec, shrink.
  change (2 ^ 64) with 18446744073709551616 in *.
  destruct (Z.ltb_spec (TBEAdjustment new) (TBEAdjustment old)) as [Hd | Hd];
    [rewrite (uint64_small (0 + _)) by (change (2 ^ 64) with 18446744073709551616; lia)|].
  all: destruct (Z.ltb_spec (BatchTTL new) (BatchTTL old)) as [Hl | Hl];
    [rewrite (uint64_small (_ + (BatchTTL old - BatchTTL new)))
       by (change (2 ^ 64) with 18446744073709551616; lia)|].
  all: match goal with |- context [negb (_ =? _) && (?t <? 1000)] => set (raw := t) in * end.
  all: destruct (Z.eqb_spec (TBENanoSecStep new) (TBENanoSecStep old)) as [Hs | Hs]; simpl.
  all: try (destruct (Z.ltb_spec raw 1000) as [Hr | Hr]; simpl).
  all: repeat match goal with
         | |- context [0 <? ?t] => destruct (Z.ltb_spec 0 t); simpl
         | |- context [?t =? ?u] => destruct (Z.eqb_spec t u); simpl
         end.
  all: try (rewrite uint64_small by (change (2 ^ 64) with 18446744073709551616; subst raw; dlia)).
  all: subst raw; dlia.
Qed.


(** X5. The pause of [AdjustWorker] is the shrink of [TBEAdjustment] plus
    the shrink of [BatchTTL], raised to one microsecond when
    [TBENanoSecStep] changes, and rounded up to a whole number of
    microseconds. So it is at least the shrink, and zero exactly when
    nothing shrinks and the step stays the same. *)
Theorem timeToPauseWorkerNanoSec_rounds_up (old new : TSOWorkerControlInfo) :
  control_ok old -> control_ok new ->
  timeToPauseWorkerNanoSec old new
  = (Z.max (shrink old new)
       (if TBENanoSecStep new =? TBENanoSecStep old then 0 else 1000) + 999) / 1000 * 1000
  /\ timeToPauseWorkerNanoSec old new mod 1000 = 0
  /\ shrink old new <= timeToPauseWorkerNanoSec old new
  /\ (timeToPauseWorkerNanoSec old new = 0
      <-> shrink old new = 0 /\ TBENanoSecStep new = TBENanoSecStep old).
Proof.
  intros Hold Hnew.
  pose proof (timeToPause_bounds _ _ Hold Hnew) as (Hmod & Hlow & Hup & Hstep & Hzero).
  split; [|auto].
  assert (Hshrink : 0 <= shrink old new) by (unfold shrink; lia).
  destruct (Z.eqb_spec (TBENanoSecStep new) (TBENanoSecStep old)) as [Hs | Hs].
  - destruct (Z.eq_dec (shrink old new) 0) as [H0 | H0].
    + rewrite (proj2 Hzero (conj H0 Hs)), H0. reflexivity.
    + destruct Hup as [Hup | Hup]; dlia.
  - specialize (Hstep Hs). destruct Hup as [Hup | Hup]; dlia.
Qed.

Lemma busy_sleep_stops (w : TSOWorker) (t : Z) (clock : list Z) :
  forall (now0 : Z) (clock' : list Z),
    busy_sleep w t (TBEMicroSecRounded w now0) clock = Some clock' ->
    exists used nowf,
      now0 :: clock = used ++ nowf :: clock'
      /\ _lastRequestTBEMicroSecRounded w <= uint64 (TBEMicroSecRounded w nowf - t).
Proof.
  induction clock as [|x clock IH]; intros now0 clock'; simpl;
    destruct (Z.ltb_spec (uint64 (TBEMicroSecRounded w now0 - t))
                (_lastRequestTBEMicroSecRounded w)) as [Hlt | Hge]; try discriminate.
  - intros [= <-]. exists [], now0. split; [reflexivity | exact Hge].
  - intros Hs. destruct (IH _ _ Hs) as (used & nowf & Heq & Hf).
    exists (now0 :: used), nowf. split; [simpl; rewrite Heq; reflexivity | exact Hf].
  - intros [= <-]. exists [], now0. split; [reflexivity | exact Hge].
Qed.

Lemma busy_sleep_returns (w : TSOWorker) (t : Z) (clock : list Z) :
  forall (now0 : Z),
    (exists nowf, nowf ∈ now0 :: clock
       /\ _lastRequestTBEMicroSecRounded w <= uint64 (TBEMicroSecRounded w nowf - t)) ->
    exists clock', busy_sleep w t (TBEMicroSecRounded w now0) clock = Some clock'.
Proof.
  induction clock as [|x clock IH]; intros now0 (nowf & Hin & Hf); simpl;
    destruct (Z.ltb_spec (uint64 (TBEMicroSecRounded w now0 - t))
                (_lastRequestTBEMicroSecRounded w)) as [Hlt | Hge]; eauto.
  - apply elem_of_cons in Hin. destruct Hin as [-> | Hin]; [lia|].
    apply elem_of_nil in Hin. destruct Hin.
  - apply IH. apply elem_of_cons in Hin. destruct Hin as [-> | Hin]; [lia|].
    exists nowf. split; assumption.
Qed.

Lemma sorted_after (used : list Z) (x : Z) (l : list Z) :
  StronglySorted Z.le (used ++ x :: l) -> Forall (Z.le x) l.
Proof.
  induction used as [|y used IH]; simpl; intros Hs.
  - apply StronglySorted_inv in Hs. apply Hs.
  - apply IH. apply StronglySorted_inv in Hs. apply Hs.
Qed.

(** X6. [AdjustWorker] on a ready worker, with a clock that does not go
    backwards and reaches the last request time plus the pause: it returns
    with the new control information installed and the last-request state
    untouched, without reading the clock when the pause is zero. At every
    later reading the time under the new adjustment is at least the last
    request time plus the reduction of the batch TTL, so its microsecond is
    not before that of the last request; when the step has changed and the
    adjustment has not shrunk, it is strictly after it. *)
Theorem AdjustWorker_waits_out_the_change
    (clock : list Z) (w : TSOWorker) (new : TSOWorkerControlInfo) (nowf : Z) :
  worker_ok w -> control_ok (_curControlInfo w) -> control_ok new ->
  IsReadyToIssueTS (_curControlInfo w) = true -> IsReadyToIssueTS new = true ->
  adjust_clock_ok w new clock ->
  nowf ∈ clock ->
  _lastRequestTBEMicroSecRounded w + timeToPauseWorkerNanoSec (_curControlInfo w) new
    <= us (nowf + TBEAdjustment (_curControlInfo w)) ->
  exists clock',
    AdjustWorker clock w new = Some (Done (set_curControlInfo new w), clock')
    /\ clock' `suffix_of` clock
    /\ (timeToPauseWorkerNanoSec (_curControlInfo w) new = 0 -> clock' = clock)
    /\ Forall (fun now' =>
         _lastRequestTBEMicroSecRounded w
           + Z.max 0 (BatchTTL (_curControlInfo w) - BatchTTL new)
           <= now' + TBEAdjustment new
         /\ _lastRequestTBEMicroSecRounded w <= us (now' + TBEAdjustment new)
         /\ (TBENanoSecStep new <> TBENanoSecStep (_curControlInfo w) ->
             TBEAdjustment (_curControlInfo w) <= TBEAdjustment new ->
             _lastRequestTBEMicroSecRounded w < us (now' + TBEAdjustment new))) clock'.
Proof.
  intros Hw Hold Hnew Hr Hr' (Hsorted & Hrange & Hrange' & Hclock) Hin Hf.
  pose proof (timeToPause_bounds _ _ Hold Hnew) as (Hmod & Hlow & Hup & Hstep & Hzero).
  unfold TSOService.AdjustWorker. rewrite Hr, Hr'. simpl. rewrite andb_false_r.
  set (old := _curControlInfo w) in *.
  set (t := timeToPauseWorkerNanoSec old new) in *.
  set (last := _lastRequestTBEMicroSecRounded w) in *.
  destruct Hw as (_ & _ & Hlast0 & Hlastm & _). fold last in Hlast0, Hlastm.
  destruct Hold as (_ & Ha & Ht & Hb). destruct Hnew as (_ & Ha' & Ht' & Hb').
  assert (Hshrink : shrink old new <= TBEAdjustment old + BatchTTL old)
    by (unfold shrink; lia).
  assert (Hcur : forall now, now ∈ clock ->
            TBEMicroSecRounded w now = us (now + TBEAdjustment old)
            /\ last <= us (now + TBEAdjustment old)
            /\ t <= us (now + TBEAdjustment old)
            /\ us (now + TBEAdjustment old) < 2 ^ 64).
  { intros now Hnow.
    pose proof (proj1 (Forall_forall _ _) Hrange now Hnow) as [Hn0 Hnb].
    pose proof (proj1 (Forall_forall _ _) Hclock now Hnow) as [Hnl Hnt].
    split; [apply (TBEMicroSecRounded_us this_shard_id shard_pos); assumption|].
    split; [exact Hnl|]. fold old in Hnb, Hnt.
    change (2 ^ 64) with 18446744073709551616 in *. unfold us. split; dlia. }
  destruct (Z.ltb_spec 0 t) as [Hpos | Hzero'].
  - destruct clock as [|now0 clock]; [apply elem_of_nil in Hin; destruct Hin|].
    destruct (busy_sleep_returns w t clock now0) as [clock' Hs].
    { exists nowf. split; [exact Hin|].
      destruct (Hcur nowf Hin) as (-> & _ & Hge & Hlt).
      rewrite uint64_small by lia. fold last. lia. }
    rewrite Hs. exists clock'. split; [reflexivity|].
    apply busy_sleep_stops in Hs. destruct Hs as (used & nowe & Heq & Hstop).
    split; [exists (used ++ [nowe]); rewrite Heq, <- app_assoc; reflexivity|].
    split; [lia|].
    assert (Hine : nowe ∈ now0 :: clock)
      by (rewrite Heq; apply elem_of_app; right; left).
    destruct (Hcur nowe Hine) as (Hcure & _ & Hge & Hlt).
    rewrite Hcure, uint64_small in Hstop by lia. fold last in Hstop.
    rewrite Heq in Hsorted. apply sorted_after in Hsorted.
    apply Forall_forall. intros now' Hnow'.
    pose proof (proj1 (Forall_forall _ _) Hsorted now' Hnow') as Hle.
    assert (Hlong : last + Z.max 0 (BatchTTL old - BatchTTL new) <= now' + TBEAdjustment new).
    { unfold shrink in Hlow. unfold us in Hstop. dlia. }
    split; [exact Hlong|]. split; [unfold us; dlia|].
    intros Hne Hadj. specialize (Hstep Hne). unfold us in *. dlia.
  - exists clock. split; [reflexivity|]. split; [reflexivity|]. split; [reflexivity|].
    assert (Ht0 : t = 0).
    { destruct Hup as [Hup | Hup]; [|lia]. unfold shrink in *. lia. }
    apply Hzero in Ht0. destruct Ht0 as [Hs0 Hsame]. unfold shrink in Hs0.
    apply Forall_forall. intros now' Hnow'.
    destruct (Hcur now' Hnow') as (_ & Hnl & _ & _).
    split; [unfold us in Hnl; dlia|]. split; [unfold us in *; dlia|].
    intros Hne. congruence.
Qed.


Lemma fast_path_issues (now : Z) (clock : list Z) (w : TSOWorker) (req : Z) :
  worker_ok w -> IsReadyToIssueTS (_curControlInfo w) = true ->
  clock_in_range (_curControlInfo w) [now] -> may_issue w [now] ->
  _lastRequestTBEMicroSecRounded w < us (now + TBEAdjustment (_curControlInfo w)) ->
  exists b w', GetTimestampFromTSO (now :: clock) w req = Some (Returned b, w', clock).
Proof.
  intros (Hstep & Hadj & _) Hready Hrange Hmay Hnew.
  apply Forall_cons in Hrange. destruct Hrange as [[Hnow Hnowb] _].
  apply Forall_cons in Hmay. destruct Hmay as [[_ Hthr] _].
  cbn [TSO.GetTimestampFromTSO].
  rewrite (TBEMicroSecRounded_us this_shard_id shard_pos w now) by assumption.
  set (cur := us (now + TBEAdjustment (_curControlInfo w))) in *.
  assert (Hcur : 0 <= cur <= now + TBEAdjustment (_curControlInfo w)) by (unfold cur, us; dlia).
  change (2 ^ 64) with 18446744073709551616 in Hnowb.
  rewrite (uint64_small (cur + 1000)) by (change (2 ^ 64) with 18446744073709551616; lia).
  rewrite Hready. simpl.
  replace (_lastRequestTBEMicroSecRounded w <? cur) with true by (symmetry; apply Z.ltb_lt; lia).
  destruct Hthr as [Hi | Hlt].
  - rewrite Hi. simpl. rewrite andb_false_r. eauto.
  - replace (cur + 1000 <? ReservedTimeThreshold (_curControlInfo w)) with true
      by (symmetry; apply Z.ltb_lt; lia).
    replace (ReservedTimeThreshold (_curControlInfo w) <? cur + 1000) with false
      by (symmetry; apply Z.ltb_ge; lia).
    rewrite orb_true_r. simpl. rewrite andb_false_r. simpl. eauto.
Qed.

Lemma busy_wait_leaves {A : Type} (w : TSOWorker) (retry : list Z -> option A) (clock : list Z) :
  StronglySorted Z.le clock -> clock_in_range (_curControlInfo w) clock ->
  worker_ok w -> may_issue w clock -> advances w clock ->
  exists used y clock2,
    clock = used ++ y :: clock2
    /\ _lastRequestTBEMicroSecRounded w < us (y + TBEAdjustment (_curControlInfo w))
    /\ busy_wait w retry (_lastRequestTBEMicroSecRounded w) clock = retry (y :: clock2).
Proof.
  intros Hsorted Hrange Hw Hmay (pre & a & b & rest & -> & Ha).
  destruct Hw as (_ & Hadj & _).
  induction pre as [|x pre IH]; simpl in *.
  - rewrite Z.eqb_refl.
    apply Forall_cons in Hrange. destruct Hrange as [[Ha0 Hab] Hrange].
    rewrite (TBEMicroSecRounded_us this_shard_id shard_pos w a) by assumption.
    replace (_ =? _) with false by (symmetry; apply Z.eqb_neq; lia).
    exists [a], b, rest. split; [reflexivity|]. split; [|destruct rest; reflexivity].
    apply StronglySorted_inv in Hsorted. destruct Hsorted as [_ Hle].
    apply Forall_cons in Hle. destruct Hle as [Hle _]. unfold us in *. dlia.
  - rewrite Z.eqb_refl.
    apply Forall_cons in Hrange. destruct Hrange as [[Hx0 Hxb] Hrange].
    apply Forall_cons in Hmay. destruct Hmay as [[Hxl _] Hmay].
    apply StronglySorted_inv in Hsorted. destruct Hsorted as [Hsorted Hle].
    rewrite (TBEMicroSecRounded_us this_shard_id shard_pos w x) by assumption.
    destruct (Z.eqb_spec (us (x + TBEAdjustment (_curControlInfo w)))
                (_lastRequestTBEMicroSecRounded w)) as [Heq | Hne].
    + destruct (IH Hrange Hsorted Hmay) as (used & y & clock2 & Hsplit & Hy & Hwait).
      exists (x :: used), y, clock2. split; [simpl; rewrite Hsplit; reflexivity|].
      split; [exact Hy|]. rewrite <- Hwait, Heq.
      destruct (pre ++ a :: b :: rest) eqn:Hc; [destruct pre; discriminate|].
      simpl. rewrite Z.eqb_refl. reflexivity.
    + destruct (pre ++ a :: b :: rest) as [|y clock2] eqn:Hc; [destruct pre; discriminate|].
      exists [x], y, clock2. split; [reflexivity|]. split.
      * apply Forall_cons in Hle. destruct Hle as [Hle _]. unfold us in *. dlia.
      * simpl. replace (_ =? _) with false by (symmetry; apply Z.eqb_neq; exact Hne).
        reflexivity.
Qed.


Local Abbreviation handleGetTSOTimestampBatch :=
  (TSOService.handleGetTSOTimestampBatch this_shard_id K2ASSERT_enabled).

(** X1. A ready worker whose clock does not go backwards, is not behind the
    last request and is more than a microsecond away from the reserved
    threshold (or ignores it) returns a batch, and does not raise, when the
    first reading is in a new microsecond, or the request fits in what is
    left of the microsecond of the last request, or the clock moves on to a
    later microsecond and has a reading after that. *)
Theorem GetTimestampFromTSO_issues
    (now : Z) (clock : list Z) (w : TSOWorker) (batchSizeRequested : Z) :
  worker_ok w -> IsReadyToIssueTS (_curControlInfo w) = true -> 0 <= batchSizeRequested ->
  StronglySorted Z.le (now :: clock) -> clock_in_range (_curControlInfo w) (now :: clock) ->
  may_issue w (now :: clock) ->
  _lastRequestTBEMicroSecRounded w < us (now + TBEAdjustment (_curControlInfo w))
  \/ batchSizeRequested
     <= 1000 / TBENanoSecStep (_curControlInfo w) - _lastRequestTimeStampCount w
  \/ advances w clock ->
  exists b w' clock',
    GetTimestampFromTSO (now :: clock) w batchSizeRequested = Some (Returned b, w', clock').
Proof.
  intros Hw Hready Hreq Hsorted Hrange Hmay Hcase.
  pose proof Hrange as Hrange0. pose proof Hmay as Hmay0.
  apply Forall_cons in Hrange. destruct Hrange as [[Hnow Hnowb] Hrange].
  apply Forall_cons in Hmay. destruct Hmay as [[Hnl Hthr] Hmay].
  apply StronglySorted_inv in Hsorted. destruct Hsorted as [Hsorted Hle].
  destruct (Z.lt_ge_cases (_lastRequestTBEMicroSecRounded w)
              (us (now + TBEAdjustment (_curControlInfo w)))) as [Hnew | Hsame].
  { destruct (fast_path_issues now clock w batchSizeRequested Hw Hready) as (b & w' & Hb);
      try assumption; try (constructor; [split; assumption | constructor]).
    exists b, w', clock. exact Hb. }
  assert (Heq : us (now + TBEAdjustment (_curControlInfo w)) = _lastRequestTBEMicroSecRounded w)
    by lia.
  destruct Hcase as [Hc | Hcase]; [lia|].
  pose proof Hw as (Hstep & Hadj & Hlast0 & Hlastm & Hcnt).
  cbn [TSO.GetTimestampFromTSO]. unfold GetTimeStampFromTSOLessFrequentHelper.
  rewrite (TBEMicroSecRounded_us this_shard_id shard_pos w now) by assumption.
  rewrite Heq, Hready, Z.ltb_irrefl, Z.eqb_refl, andb_false_r. simpl.
  pose proof (per_us_bounds _ Hstep) as HN.
  assert (Hcur : us (now + TBEAdjustment (_curControlInfo w))
                 <= now + TBEAdjustment (_curControlInfo w)) by (unfold us; dlia).
  change (2 ^ 64) with 18446744073709551616 in Hnowb.
  rewrite (uint64_small (_ + 1000)) by (change (2 ^ 64) with 18446744073709551616; lia).
  rewrite (uint16_small (1000 / _ - _)) by (change (2 ^ 16) with 65536; lia).
  replace ((ReservedTimeThreshold (_curControlInfo w) <? _lastRequestTBEMicroSecRounded w + 1000)
           && negb (IgnoreThreshold (_curControlInfo w))) with false.
  2:{ symmetry. destruct Hthr as [-> | Hlt]; [apply andb_false_r|].
      apply andb_false_iff. left. apply Z.ltb_ge. lia. }
  rewrite andb_false_r.
  destruct (Z.ltb_spec (1000 / TBENanoSecStep (_curControlInfo w) - _lastRequestTimeStampCount w)
              batchSizeRequested) as [Hshort | Henough]; [|eauto].
  destruct Hcase as [Hc | Hadv]; [lia|].
  destruct (busy_wait_leaves w
              (fun clock' => GetTimestampFromTSO clock' w batchSizeRequested)
              clock Hsorted Hrange Hw Hmay Hadv) as (used & y & clock2 & Hsplit & Hy & ->).
  subst clock. apply Forall_app in Hrange as [_ Hrange]. apply Forall_app in Hmay as [_ Hmay].
  apply Forall_cons in Hrange as [Hry _]. apply Forall_cons in Hmay as [Hmy _].
  destruct (fast_path_issues y clock2 w batchSizeRequested Hw Hready) as (b & w' & Hb);
    try assumption; try (constructor; [assumption | constructor]).
  exists b, w', clock2. exact Hb.
Qed.

(** X2. Every timestamp of a returned batch, less the shard offset, lies in
    the microsecond of a clock reading (plus adjustment) that the call has
    taken, which is not before the microsecond of the last request; unless
    the threshold is ignored, it is below [ReservedTimeThreshold]. *)
Theorem issued_timestamps_below_reserved_threshold
    (clock clock' : list Z) (w w' : TSOWorker) (batchSizeRequested : Z)
    (b : TimestampBatch.t) :
  worker_ok w -> clock_in_range (_curControlInfo w) clock -> 0 <= batchSizeRequested ->
  GetTimestampFromTSO clock w batchSizeRequested = Some (Returned b, w', clock') ->
  exists now,
    now ∈ clock
    /\ _lastRequestTBEMicroSecRounded w <= us (now + TBEAdjustment (_curControlInfo w))
    /\ forall t, t ∈ timestamps b ->
         us (now + TBEAdjustment (_curControlInfo w)) <= t - (this_shard_id - 1)
           < us (now + TBEAdjustment (_curControlInfo w)) + 1000
         /\ (IgnoreThreshold (_curControlInfo w) = false ->
             t - (this_shard_id - 1) < ReservedTimeThreshold (_curControlInfo w)).
Proof.
  intros Hw Hclock Hreq Hcall.
  pose proof (GetTimestampFromTSO_facts (length clock) clock (le_n _) w batchSizeRequested _
                Hw Hclock Hreq Hcall)
    as (_ & _ & _ & _ & _ & _ & _ & Hst & Hn & _ & now & k & Hin & Hbase & Hk & Hfit & Hl & Hthr).
  destruct Hw as (Hstep & _).
  exists now. split; [exact Hin|]. split; [exact Hl|].
  intros t Ht. apply in_timestamps in Ht. destruct Ht as (i & Hi & ->).
  rewrite Hbase, Hst. set (step := TBENanoSecStep (_curControlInfo w)) in *.
  pose proof (Z.mul_div_le 1000 step Hstep).
  assert (0 <= (k + i) * step /\ (k + i) * step + step <= 1000) by nia.
  split; [nia|]. intros Hi'. specialize (Hthr Hi'). nia.
Qed.

(** X3. For a request of a positive size and a step of at most 1000ns,
    [handleGetTSOTimestampBatch] answers 200 "OK" with a batch that carries
    the TSO id, [TsDelta], [BatchTTL] and step of the worker and holds at
    least one and at most the requested number of timestamps (all of them
    when they fit in one microsecond), or it answers 503 with a default
    response and leaves the worker as it was, and then the worker is not
    ready, or the reserved threshold is reached and not ignored, or the clock
    is behind the last request. The process is only aborted, with assertions
    enabled, at a reading exactly one microsecond before the threshold. *)
Theorem handleGetTSOTimestampBatch_answers
    (what : string) (default : TimestampBatch.t)
    (clock clock' : list Z) (w w' : TSOWorker) (request : GetTimeStampBatchRequest)
    (h : Handled) :
  worker_ok w -> TBENanoSecStep (_curControlInfo w) <= 1000 ->
  clock_in_range (_curControlInfo w) clock ->
  0 < batchSizeRequested request ->
  handleGetTSOTimestampBatch what default clock w request = Some (h, w', clock') ->
  match h with
  | RPCResponse status response =>
      (status = CPO.Statuses.S200_OK "OK"
       /\ IsReadyToIssueTS (_curControlInfo w) = true
       /\ TimestampBatch.TSOId (timeStampBatch response) = _tsoId w
       /\ TimestampBatch.TsDelta (timeStampBatch response) = TsDelta (_curControlInfo w)
       /\ TimestampBatch.TTLNanoSec (timeStampBatch response) = BatchTTL (_curControlInfo w)
       /\ TimestampBatch.TBENanoSecStep (timeStampBatch response)
          = TBENanoSecStep (_curControlInfo w)
       /\ 1 <= TimestampBatch.TSCount (timeStampBatch response) <= batchSizeRequested request
       /\ Z.min (batchSizeRequested request) (1000 / TBENanoSecStep (_curControlInfo w))
          <= TimestampBatch.TSCount (timeStampBatch response))
      \/ (status = CPO.Statuses.S503_Service_Unavailable what
          /\ response = mkGetTimeStampBatchResponse default
          /\ w' = w
          /\ (IsReadyToIssueTS (_curControlInfo w) = false
              \/ exists now, now ∈ clock
                   /\ ((IgnoreThreshold (_curControlInfo w) = false
                        /\ ReservedTimeThreshold (_curControlInfo w)
                           <= us (now + TBEAdjustment (_curControlInfo w)) + 1000)
                       \/ us (now + TBEAdjustment (_curControlInfo w))
                          < _lastRequestTBEMicroSecRounded w)))
  | ProcessAborted =>
      K2ASSERT_enabled = true /\ w' = w
      /\ exists now, now ∈ clock
           /\ IgnoreThreshold (_curControlInfo w) = false
           /\ us (now + TBEAdjustment (_curControlInfo w)) + 1000
              = ReservedTimeThreshold (_curControlInfo w)
  end.
Proof.
  intros Hw Hstep Hclock Hreq. unfold TSOService.handleGetTSOTimestampBatch.
  replace (0 <? batchSizeRequested request) with true by (symmetry; apply Z.ltb_lt; lia).
  rewrite andb_false_r.
  destruct (GetTimestampFromTSO clock w (batchSizeRequested request))
    as [[[out w1] clock1]|] eqn:Hcall; [|discriminate].
  pose proof (GetTimestampFromTSO_facts (length clock) clock (le_n _) w
                (batchSizeRequested request) _ Hw Hclock (Z.lt_le_incl _ _ Hreq) Hcall)
    as (_ & _ & _ & Hout).
  destruct out as [b | [|]]; intros [= <- <- <-].
  - left. destruct Hout as (H1 & H2 & H3 & H4 & H5 & H6 & H7 & _). simpl.
    repeat (split; [solve [assumption | reflexivity | lia]|]).
    split; [|exact H7].
    assert (1 <= 1000 / TBENanoSecStep (_curControlInfo w))
      by (apply Z.div_le_lower_bound; [apply Hw | lia]).
    lia.
  - right. destruct Hout as [-> Hcause]. auto.
  - destruct Hout as (-> & Hen & Hcause). auto.
Qed.

(** X7. Whatever [UpdateWorkerControlInfo] returns: the TSO id and the
    last-request time and count of the worker are unchanged; the new control
    information is installed whenever the worker was or becomes ready; an
    update from not ready to not ready installs nothing, and is the only one
    that fails an assertion, that of [AdjustWorker] is never failed. *)
Theorem UpdateWorkerControlInfo_outcome
    (clock clock' : list Z) (w : TSOWorker) (controlInfo : TSOWorkerControlInfo)
    (u : Updated) :
  UpdateWorkerControlInfo clock w controlInfo = Some (u, clock') ->
  clock' `suffix_of` clock
  /\ match u with
     | Done w' =>
         _tsoId w' = _tsoId w
         /\ _lastRequestTBEMicroSecRounded w' = _lastRequestTBEMicroSecRounded w
         /\ _lastRequestTimeStampCount w' = _lastRequestTimeStampCount w
         /\ ((IsReadyToIssueTS (_curControlInfo w) || IsReadyToIssueTS controlInfo = true
              /\ _curControlInfo w' = controlInfo)
             \/ (IsReadyToIssueTS (_curControlInfo w) = false
                 /\ IsReadyToIssueTS controlInfo = false
                 /\ K2ASSERT_enabled = false /\ w' = w /\ clock' = clock))
     | AssertFailed =>
         K2ASSERT_enabled = true
         /\ IsReadyToIssueTS (_curControlInfo w) = false
         /\ IsReadyToIssueTS controlInfo = false
     end.
Proof.
  unfold TSOService.UpdateWorkerControlInfo, TSOService.AdjustWorker.
  destruct (IsReadyToIssueTS (_curControlInfo w)) eqn:Hold,
           (IsReadyToIssueTS controlInfo) eqn:Hnew; simpl.
  - rewrite andb_false_r.
    destruct (0 <? timeToPauseWorkerNanoSec (_curControlInfo w) controlInfo).
    + destruct clock as [|now0 clock]; [discriminate|].
      destruct (busy_sleep w _ _ clock) as [clock2|] eqn:Hs; [|discriminate].
      intros [= <- <-]. apply busy_sleep_stops in Hs. destruct Hs as (used & nowf & Heq & _).
      split; [exists (used ++ [nowf]); rewrite Heq, <- app_assoc; reflexivity|].
      simpl. auto 10.
    + intros [= <- <-]. split; [reflexivity|]. simpl. auto 10.
  - intros [= <- <-]. split; [reflexivity|]. simpl. auto 10.
  - intros [= <- <-]. split; [reflexivity|]. simpl. auto 10.
  - destruct K2ASSERT_enabled; intros [= <- <-]; (split; [reflexivity|]); auto 10.
Qed.

(** X8. Starting and stopping a worker take effect without reading the
    clock (no pause, whatever else changes in the control information). Once
    stopped, the worker answers every request 503 with a default response and
    stays as it is. *)
Theorem start_and_stop_take_effect_at_once
    (what : string) (default : TimestampBatch.t)
    (clock : list Z) (w : TSOWorker) (controlInfo : TSOWorkerControlInfo) :
  IsReadyToIssueTS (_curControlInfo w) = negb (IsReadyToIssueTS controlInfo) ->
  UpdateWorkerControlInfo clock w controlInfo
  = Some (Done (set_curControlInfo controlInfo w), clock)
  /\ (IsReadyToIssueTS controlInfo = false ->
      forall (request : GetTimeStampBatchRequest) (now : Z) (clock2 : list Z),
        K2ASSERT_enabled = false \/ 0 < batchSizeRequested request ->
        handleGetTSOTimestampBatch what default (now :: clock2)
          (set_curControlInfo controlInfo w) request
        = Some (RPCResponse (CPO.Statuses.S503_Service_Unavailable what)
                  (mkGetTimeStampBatchResponse default),
                set_curControlInfo controlInfo w, clock2)).
Proof.
  intros Hflip. split.
  - unfold TSOService.UpdateWorkerControlInfo. rewrite Hflip.
    destruct (IsReadyToIssueTS controlInfo); reflexivity.
  - intros Hnew request now clock2 Hreq.
    unfold TSOService.handleGetTSOTimestampBatch.
    replace (K2ASSERT_enabled && negb (0 <? batchSizeRequested request)) with false.
    2:{ symmetry. destruct Hreq as [-> | Hreq]; [reflexivity|].
        replace (0 <? batchSizeRequested request) with true by (symmetry; apply Z.ltb_lt; lia).
        apply andb_false_r. }
    cbn [TSO.GetTimestampFromTSO]. unfold GetTimeStampFromTSOLessFrequentHelper.
    simpl. rewrite Hnew. reflexivity.
Qed.

(** X4. At a reading whose microsecond is exactly 1000ns before
    [ReservedTimeThreshold], not ignored, and after the microsecond of the
    last request, the request is neither served by the fast path nor
    rejected: with assertions enabled the helper's assertion that the two
    microseconds are equal fails; with assertions disabled a request that
    fits in the leftover count is served from slot
    [_lastRequestTimeStampCount] of the new microsecond, and the worker
    keeps the old [_lastRequestTBEMicroSecRounded]. *)
Theorem one_microsecond_before_the_threshold
    (now : Z) (clock : list Z) (w : TSOWorker) (batchSizeRequested : Z) :
  worker_ok w -> IsReadyToIssueTS (_curControlInfo w) = true ->
  IgnoreThreshold (_curControlInfo w) = false ->
  clock_in_range (_curControlInfo w) [now] -> 0 <= batchSizeRequested ->
  _lastRequestTBEMicroSecRounded w < us (now + TBEAdjustment (_curControlInfo w)) ->
  us (now + TBEAdjustment (_curControlInfo w)) + 1000
  = ReservedTimeThreshold (_curControlInfo w) ->
  (K2ASSERT_enabled = true ->
   GetTimestampFromTSO (now :: clock) w batchSizeRequested
   = Some (Thrown K2AssertFailure, w, clock))
  /\ (K2ASSERT_enabled = false ->
      batchSizeRequested
      <= 1000 / TBENanoSecStep (_curControlInfo w) - _lastRequestTimeStampCount w ->
      exists b,
        GetTimestampFromTSO (now :: clock) w batchSizeRequested
        = Some (Returned b,
                mkWorker (_tsoId w) (_curControlInfo w) (_lastRequestTBEMicroSecRounded w)
                  (_lastRequestTimeStampCount w + batchSizeRequested),
                clock)
        /\ TimestampBatch.TBEBase b
           = us (now + TBEAdjustment (_curControlInfo w)) + (this_shard_id - 1)
             + _lastRequestTimeStampCount w * TBENanoSecStep (_curControlInfo w)
        /\ TimestampBatch.TSCount b = batchSizeRequested).
Proof.
  intros Hw Hready Hignore Hrange Hreq Hnew Hthr.
  pose proof Hw as (Hstep & Hadj & Hlast0 & Hlastm & Hcnt).
  apply Forall_cons in Hrange. destruct Hrange as [[Hnow Hnowb] _].
  cbn [TSO.GetTimestampFromTSO]. unfold GetTimeStampFromTSOLessFrequentHelper.
  rewrite (TBEMicroSecRounded_us this_shard_id shard_pos w now) by assumption.
  set (cur := us (now + TBEAdjustment (_curControlInfo w))) in *.
  assert (Hcur : 0 <= cur <= now + TBEAdjustment (_curControlInfo w)) by (unfold cur, us; dlia).
  pose proof (per_us_bounds _ Hstep) as HN.
  pose proof (slots_fit _ _ Hstep Hcnt) as Hfit.
  change (2 ^ 64) with 18446744073709551616 in Hnowb.
  rewrite (uint64_small (cur + 1000)) by (change (2 ^ 64) with 18446744073709551616; lia).
  rewrite (uint16_small (1000 / _ - _)) by (change (2 ^ 16) with 65536; lia).
  rewrite Hready, Hignore, <- Hthr, !Z.ltb_irrefl. simpl.
  replace (cur <? _lastRequestTBEMicroSecRounded w) with false by (symmetry; apply Z.ltb_ge; lia).
  replace (cur =? _lastRequestTBEMicroSecRounded w) with false by (symmetry; apply Z.eqb_neq; lia).
  split; intros ->; simpl; [reflexivity|].
  intros Hfits.
  replace (_ <? batchSizeRequested) with false by (symmetry; apply Z.ltb_ge; lia).
  rewrite uint64_small by (change (2 ^ 64) with 18446744073709551616; lia).
  rewrite uint16_small by (change (2 ^ 16) with 65536; lia).
  eexists. split; [reflexivity|]. simpl. split; [lia | reflexivity].
Qed.

End Worker.
Ltac worker_ok_by_computation :=
  unfold worker_ok; simpl; repeat split; first [reflexivity | vm_compute; discriminate].

Ltac clock_in_range_by_computation :=
  unfold TSOService.clock_in_range; change (2 ^ 64) with 18446744073709551616;
  repeat constructor; simpl; lia.

Lemma timeToPauseWorkerNanoSec_rounds_up_witness :
  timeToPauseWorkerNanoSec (_curControlInfo worker2) controlInfo2
  = (Z.max (shrink (_curControlInfo worker2) controlInfo2)
       (if TBENanoSecStep controlInfo2 =? TBENanoSecStep (_curControlInfo worker2)
        then 0 else 1000) + 999) / 1000 * 1000
  /\ timeToPauseWorkerNanoSec (_curControlInfo worker2) controlInfo2 mod 1000 = 0
  /\ shrink (_curControlInfo worker2) controlInfo2
     <= timeToPauseWorkerNanoSec (_curControlInfo worker2) controlInfo2
  /\ (timeToPauseWorkerNanoSec (_curControlInfo worker2) controlInfo2 = 0
      <-> shrink (_curControlInfo worker2) controlInfo2 = 0
          /\ TBENanoSecStep controlInfo2 = TBENanoSecStep (_curControlInfo worker2)).
Proof.
  apply (timeToPauseWorkerNanoSec_rounds_up (_curControlInfo worker2) controlInfo2).
  - unfold control_ok; simpl. change (2 ^ 64) with 18446744073709551616. lia.
  - unfold control_ok; simpl. change (2 ^ 64) with 18446744073709551616. lia.
Defined.

Example pause_of_controlInfo2 :
  timeToPauseWorkerNanoSec (_curControlInfo worker2) controlInfo2 = 2000.
Proof. reflexivity. Qed.

Example AdjustWorker_worker2 :
  AdjustWorker false clock2 worker2 controlInfo2
  = Some (Done (set_curControlInfo controlInfo2 worker2), [19800; 20100]).
Proof. vm_compute. reflexivity. Qed.

Lemma AdjustWorker_waits_out_the_change_witness :
  exists clock',
    AdjustWorker false clock2 worker2 controlInfo2
    = Some (Done (set_curControlInfo controlInfo2 worker2), clock')
    /\ clock' `suffix_of` clock2
    /\ (timeToPauseWorkerNanoSec (_curControlInfo worker2) controlInfo2 = 0 -> clock' = clock2)
    /\ Forall (fun now' =>
         _lastRequestTBEMicroSecRounded worker2
           + Z.max 0 (BatchTTL (_curControlInfo worker2) - BatchTTL controlInfo2)
           <= now' + TBEAdjustment controlInfo2
         /\ _lastRequestTBEMicroSecRounded worker2 <= us (now' + TBEAdjustment controlInfo2)
         /\ (TBENanoSecStep controlInfo2 <> TBENanoSecStep (_curControlInfo worker2) ->
             TBEAdjustment (_curControlInfo worker2) <= TBEAdjustment controlInfo2 ->
             _lastRequestTBEMicroSecRounded worker2 < us (now' + TBEAdjustment controlInfo2)))
         clock'.
Proof.
  apply (AdjustWorker_waits_out_the_change 1 false ltac:(lia) clock2 worker2 controlInfo2 19200).
  - worker_ok_by_computation.
  - unfold control_ok; simpl. change (2 ^ 64) with 18446744073709551616. lia.
  - unfold control_ok; simpl. change (2 ^ 64) with 18446744073709551616. lia.
  - reflexivity.
  - reflexivity.
  - split; [repeat constructor; lia|].
    split; [clock_in_range_by_computation|]. split; [clock_in_range_by_computation|].
    repeat constructor; simpl; first [lia | vm_compute; discriminate].
  - unfold clock2. set_solver.
  - vm_compute. discriminate.
Defined.

Lemma GetTimestampFromTSO_issues_witness :
  exists b w' clock',
    GetTimestampFromTSO 1 false (5000 :: [5200; 5400; 7000; 7100; 7100]) worker1 3
    = Some (Returned b, w', clock').
Proof.
  apply (GetTimestampFromTSO_issues 1 false ltac:(lia) 5000 [5200; 5400; 7000; 7100; 7100]
           worker1 3).
  - worker_ok_by_computation.
  - reflexivity.
  - lia.
  - repeat constructor; lia.
  - clock_in_range_by_computation.
  - repeat constructor; first [vm_compute; discriminate | right; vm_compute; reflexivity].
  - left. vm_compute. reflexivity.
Defined.

Lemma issued_timestamps_below_reserved_threshold_witness :
  exists now,
    now ∈ clock1
    /\ _lastRequestTBEMicroSecRounded worker1 <= us (now + TBEAdjustment (_curControlInfo worker1))
    /\ forall t, t ∈ timestamps (TimestampBatch.mk 5000 7 20 8000 3 100) ->
         us (now + TBEAdjustment (_curControlInfo worker1)) <= t - (1 - 1)
           < us (now + TBEAdjustment (_curControlInfo worker1)) + 1000
         /\ (IgnoreThreshold (_curControlInfo worker1) = false ->
             t - (1 - 1) < ReservedTimeThreshold (_curControlInfo worker1)).
Proof.
  apply (issued_timestamps_below_reserved_threshold 1 false ltac:(lia) clock1
           [5200; 5400; 7000; 7100; 7100] worker1
           (mkWorker 7 (_curControlInfo worker1) 5000 3) 3).
  - worker_ok_by_computation.
  - clock_in_range_by_computation.
  - lia.
  - vm_compute. reflexivity.
Defined.

Lemma handleGetTSOTimestampBatch_answers_witness :
  (CPO.Statuses.S200_OK "OK" = CPO.Statuses.S200_OK "OK"
   /\ IsReadyToIssueTS (_curControlInfo worker1) = true
   /\ TimestampBatch.TSOId (TimestampBatch.mk 5000 7 20 8000 3 100) = _tsoId worker1
   /\ TimestampBatch.TsDelta (TimestampBatch.mk 5000 7 20 8000 3 100)
      = TsDelta (_curControlInfo worker1)
   /\ TimestampBatch.TTLNanoSec (TimestampBatch.mk 5000 7 20 8000 3 100)
      = BatchTTL (_curControlInfo worker1)
   /\ TimestampBatch.TBENanoSecStep (TimestampBatch.mk 5000 7 20 8000 3 100)
      = TBENanoSecStep (_curControlInfo worker1)
   /\ 1 <= TimestampBatch.TSCount (TimestampBatch.mk 5000 7 20 8000 3 100) <= 3
   /\ Z.min 3 (1000 / TBENanoSecStep (_curControlInfo worker1))
      <= TimestampBatch.TSCount (TimestampBatch.mk 5000 7 20 8000 3 100))
  \/ (CPO.Statuses.S200_OK "OK" = CPO.Statuses.S503_Service_Unavailable "TSO not ready"
      /\ mkGetTimeStampBatchResponse (TimestampBatch.mk 5000 7 20 8000 3 100)
         = mkGetTimeStampBatchResponse (TimestampBatch.mk 0 0 0 0 0 0)
      /\ mkWorker 7 (_curControlInfo worker1) 5000 3 = worker1
      /\ (IsReadyToIssueTS (_curControlInfo worker1) = false
          \/ exists now, now ∈ clock1
               /\ ((IgnoreThreshold (_curControlInfo worker1) = false
                    /\ ReservedTimeThreshold (_curControlInfo worker1)
                       <= us (now + TBEAdjustment (_curControlInfo worker1)) + 1000)
                   \/ us (now + TBEAdjustment (_curControlInfo worker1))
                      < _lastRequestTBEMicroSecRounded worker1))).
Proof.
  apply (handleGetTSOTimestampBatch_answers 1 false ltac:(lia) "TSO not ready"
           (TimestampBatch.mk 0 0 0 0 0 0) clock1 [5200; 5400; 7000; 7100; 7100]
           worker1 (mkWorker 7 (_curControlInfo worker1) 5000 3)
           (mkGetTimeStampBatchRequest 3)
           (RPCResponse (CPO.Statuses.S200_OK "OK")
              (mkGetTimeStampBatchResponse (TimestampBatch.mk 5000 7 20 8000 3 100)))).
  - worker_ok_by_computation.
  - simpl. lia.
  - clock_in_range_by_computation.
  - simpl. lia.
  - vm_compute. reflexivity.
Defined.

Lemma UpdateWorkerControlInfo_outcome_witness :
  clock1 `suffix_of` clock1
  /\ _tsoId (set_curControlInfo stopped worker1) = _tsoId worker1
  /\ _lastRequestTBEMicroSecRounded (set_curControlInfo stopped worker1)
     = _lastRequestTBEMicroSecRounded worker1
  /\ _lastRequestTimeStampCount (set_curControlInfo stopped worker1)
     = _lastRequestTimeStampCount worker1
  /\ ((IsReadyToIssueTS (_curControlInfo worker1) || IsReadyToIssueTS stopped = true
       /\ _curControlInfo (set_curControlInfo stopped worker1) = stopped)
      \/ (IsReadyToIssueTS (_curControlInfo worker1) = false
          /\ IsReadyToIssueTS stopped = false
          /\ true = false /\ set_curControlInfo stopped worker1 = worker1
          /\ clock1 = clock1)).
Proof.
  apply (UpdateWorkerControlInfo_outcome true clock1 clock1 worker1 stopped
           (Done (set_curControlInfo stopped worker1))).
  reflexivity.
Defined.

Lemma start_and_stop_take_effect_at_once_witness :
  UpdateWorkerControlInfo true clock1 worker1 stopped
  = Some (Done (set_curControlInfo stopped worker1), clock1)
  /\ (IsReadyToIssueTS stopped = false ->
      forall (request : GetTimeStampBatchRequest) (now : Z) (clock2 : list Z),
        true = false \/ 0 < batchSizeRequested request ->
        handleGetTSOTimestampBatch 1 true "TSO not ready" (TimestampBatch.mk 0 0 0 0 0 0)
          (now :: clock2) (set_curControlInfo stopped worker1) request
        = Some (RPCResponse (CPO.Statuses.S503_Service_Unavailable "TSO not ready")
                  (mkGetTimeStampBatchResponse (TimestampBatch.mk 0 0 0 0 0 0)),
                set_curControlInfo stopped worker1, clock2)).
Proof.
  apply (start_and_stop_take_effect_at_once 1 true "TSO not ready"
           (TimestampBatch.mk 0 0 0 0 0 0) clock1 worker1 stopped).
  reflexivity.
Defined.

Lemma one_microsecond_before_the_threshold_witness :
  (true = true ->
   GetTimestampFromTSO 1 true (5000 :: [5200]) worker3 3
   = Some (Thrown K2AssertFailure, worker3, [5200]))
  /\ (true = false ->
      3 <= 1000 / TBENanoSecStep (_curControlInfo worker3) - _lastRequestTimeStampCount worker3 ->
      exists b,
        GetTimestampFromTSO 1 true (5000 :: [5200]) worker3 3
        = Some (Returned b,
                mkWorker (_tsoId worker3) (_curControlInfo worker3)
                  (_lastRequestTBEMicroSecRounded worker3)
                  (_lastRequestTimeStampCount worker3 + 3),
                [5200])
        /\ TimestampBatch.TBEBase b
           = us (5000 + TBEAdjustment (_curControlInfo worker3)) + (1 - 1)
             + _lastRequestTimeStampCount worker3 * TBENanoSecStep (_curControlInfo worker3)
        /\ TimestampBatch.TSCount b = 3).
Proof.
  apply (one_microsecond_before_the_threshold 1 true ltac:(lia) 5000 [5200] worker3 3).
  - worker_ok_by_computation.
  - reflexivity.
  - reflexivity.
  - clock_in_range_by_computation.
  - lia.
  - vm_compute. reflexivity.
  - vm_compute. reflexivity.
Defined.

End TSOService_Properties.

Module CPORuns_Properties.
Import dto CPO CPO.Statuses CPO_Properties CPORuns.

#[local] Arguments FulfillWaiters : simpl never.

Section Client.
Context {PayloadT ResponseT : Type}.
Variable verb : Verb.
Variable ResponseT_default : ResponseT.
Variable getPartitionForKey : PartitionGetter -> Key -> bool -> bool -> PartitionWithEndpoint.

Local Abbreviation future := (@CPO.future PayloadT ResponseT).
Local Abbreviation GetAssignedPartitionWithRetry :=
  (@CPO.GetAssignedPartitionWithRetry PayloadT ResponseT getPartitionForKey).
Local Abbreviation PartitionRequest_f :=
  (@CPO.PartitionRequest_f PayloadT ResponseT getPartitionForKey).
Local Abbreviation PartitionRequest :=
  (@CPO.PartitionRequest PayloadT ResponseT verb ResponseT_default getPartitionForKey).
Local Abbreviation Suspend := (@CPO.Suspend PayloadT ResponseT).
Local Abbreviation Resumption := (@CPO.Resumption PayloadT ResponseT).
Local Abbreviation Ready := (CPO.Ready (PayloadT := PayloadT) (ResponseT := ResponseT)).
Local Abbreviation Pending := (CPO.Pending (PayloadT := PayloadT) (ResponseT := ResponseT)).
Local Abbreviation run := (CPO.run (PayloadT := PayloadT) (ResponseT := ResponseT)).
Local Abbreviation assigned_in := (CPORuns.assigned_in getPartitionForKey).

Lemma run_inv {A : Type} (f : future A) (trace : list Resumption) (r' : Reactor) (a : A) :
  run f trace r' a ->
  match f with
  | CPO.Ready r a0 => trace = [] /\ r' = r /\ a = a0
  | CPO.Pending r e k =>
      exists x r1 trace', trace = Resume e x r1 :: trace' /\ run (k x r1) trace' r' a
  end.
Proof. intros H. destruct H; eauto 10. Qed.

Lemma collections_at_lookup (name : string) (r r' : Reactor) (getter : PartitionGetter) :
  collections_at name r = (getter, r') -> collections (client r') !! name = Some getter.
Proof.
  unfold collections_at. destruct (collections (client r) !! name) eqn:Hc.
  - intros [= <- <-]. exact Hc.
  - intros [= <- <-]. simpl. apply lookup_insert_eq.
Qed.

Ltac run_cases H :=
  repeat match type of H with
    | run (if ?b then _ else _) _ _ _ => destruct b eqn:?
    | run (let '(_, _) := ?p in _) _ _ _ => destruct p eqn:?
    | run (match ?n with O => _ | S _ => _ end) _ _ _ => destruct n eqn:?
    end.

Lemma is5xxRetryable_not_2xx (status : Status) :
  is5xxRetryable status = true -> is2xxOK status = false.
Proof.
  unfold is5xxRetryable, is2xxOK. intros H. apply andb_true_iff in H as [H _].
  apply Z.leb_le in H. apply andb_false_iff. right. apply Z.leb_gt. lia.
Qed.

Lemma assigned_after_FulfillWaiters (name n : string) (status : Status) (r : Reactor)
    (key : Key) (reverse excludedKey : bool) :
  assigned_in r name key reverse excludedKey ->
  assigned_in (FulfillWaiters n status r) name key reverse excludedKey.
Proof. unfold CPORuns.assigned_in. rewrite FulfillWaiters_collections. auto. Qed.

Lemma assigned_by_lookup (name : string) (r r0 : Reactor) (getter : PartitionGetter)
    (key : Key) (reverse excludedKey : bool) :
  collections_at name r = (getter, r0) ->
  not_assigned (partition (getPartitionForKey getter key reverse excludedKey)) = false ->
  assigned_in r0 name key reverse excludedKey.
Proof. intros Hc Hna. exists getter. split; [eapply collections_at_lookup, Hc | exact Hna]. Qed.

Lemma Get_2xx_assigned (retries : nat) :
  forall (deadline : Deadline) (name : string) (key : Key) (reverse excludedKey : bool)
         (r r' : Reactor) (trace : list Resumption) (status : Status),
    run (GetAssignedPartitionWithRetry retries deadline name key reverse excludedKey r)
      trace r' status ->
    is2xxOK status = true ->
    assigned_in r' name key reverse excludedKey.
Proof.
  induction retries as [|n IH]; intros deadline name key reverse excludedKey r r' trace status;
    simpl; destruct (requestWaiters (client r) !! name); simpl.
  all: intros Hrun H2; apply run_inv in Hrun; destruct Hrun as (x & r1 & trace' & -> & Hrun).
  all: cbv beta iota in Hrun.
  (* a waiter *)
  1,3: destruct (is2xxOK x) eqn:Hx;
       [destruct (collections_at name r1) as [getter r2] eqn:Hc;
        destruct (not_assigned _) eqn:Hna; simpl in Hrun|].
  (* the owner of the request *)
  7,8: destruct x as [st coll];
       destruct (is2xxOK st) eqn:Hx; simpl in Hrun;
       [rewrite collections_at_insert in Hrun;
        destruct (not_assigned _) eqn:Hna; simpl in Hrun
       |destruct (is5xxRetryable st) eqn:H5; simpl in Hrun].
  all: repeat match type of Hrun with
         | run (if ?b then _ else _) _ _ _ => destruct b eqn:?
         end.
  all: match type of Hrun with
       | run (CPO.Pending _ _ _) _ _ _ =>
           apply run_inv in Hrun; destruct Hrun as (? & ? & ? & _ & Hrun)
       | run (CPO.Ready _ _) _ _ _ =>
           apply run_inv in Hrun; destruct Hrun as (_ & -> & ->)
       | _ => idtac
       end.
  all: try discriminate H2.
  all: try congruence.
  all: try (eapply IH; eassumption).
  all: try (eapply assigned_by_lookup; eassumption).
  all: try (apply assigned_after_FulfillWaiters; eexists; split;
            [simpl; apply lookup_insert_eq | exact Hna]).
Qed.

(** X9. Whenever a call of [GetAssignedPartitionWithRetry] completes: a
    2xx status means that the client has the collection cached and the
    partition of the key is assigned in it; a 5xx status is never one that
    the CPO gave, it is the call's own 503 "not all partitions assigned in
    cpo". *)
Theorem GetAssignedPartitionWithRetry_result (retries : nat) :
  forall (deadline : Deadline) (name : string) (key : Key) (reverse excludedKey : bool)
         (r r' : Reactor) (trace : list Resumption) (status : Status),
    run (GetAssignedPartitionWithRetry retries deadline name key reverse excludedKey r)
      trace r' status ->
    (is2xxOK status = true -> assigned_in r' name key reverse excludedKey)
    /\ (is5xxRetryable status = true ->
        status = S503_Service_Unavailable "not all partitions assigned in cpo").
Proof.
  intros deadline name key reverse excludedKey r r' trace status Hrun.
  split; [eapply Get_2xx_assigned; exact Hrun|].
  revert deadline name key reverse excludedKey r r' trace status Hrun.
  induction retries as [|n IH]; intros deadline name key reverse excludedKey r r' trace status;
    simpl; destruct (requestWaiters (client r) !! name); simpl.
  all: intros Hrun H5; apply run_inv in Hrun; destruct Hrun as (x & r1 & trace' & -> & Hrun).
  all: cbv beta iota in Hrun.
  1,3: destruct (is2xxOK x) eqn:Hx;
       [destruct (collections_at name r1) as [getter r2] eqn:Hc;
        destruct (not_assigned _) eqn:Hna; simpl in Hrun|].
  7,8: destruct x as [st coll];
       destruct (is2xxOK st) eqn:Hx; simpl in Hrun;
       [rewrite collections_at_insert in Hrun;
        destruct (not_assigned _) eqn:Hna; simpl in Hrun
       |destruct (is5xxRetryable st) eqn:Hst; simpl in Hrun].
  all: repeat match type of Hrun with
         | run (if ?b then _ else _) _ _ _ => destruct b eqn:?
         end.
  all: match type of Hrun with
       | run (CPO.Pending _ _ _) _ _ _ =>
           apply run_inv in Hrun; destruct Hrun as (? & ? & ? & _ & Hrun)
       | run (CPO.Ready _ _) _ _ _ =>
           apply run_inv in Hrun; destruct Hrun as (_ & -> & ->)
       | _ => idtac
       end.
  all: try reflexivity.
  all: try discriminate H5.
  all: try (eapply IH; eassumption).
  all: try (apply is5xxRetryable_not_2xx in H5; congruence).
  all: congruence.
Qed.

Local Abbreviation sends := (CPORuns.sends (PayloadT := PayloadT) (ResponseT := ResponseT)).
Local Abbreviation every_pending :=
  (CPORuns.every_pending (PayloadT := PayloadT) (ResponseT := ResponseT)).
Local Abbreviation every_suspension :=
  (CPO.every_suspension (PayloadT := PayloadT) (ResponseT := ResponseT)).
Local Abbreviation is_CPO_COLLECTION_GET :=
  (@CPORuns.is_CPO_COLLECTION_GET PayloadT ResponseT).
Local Abbreviation is_callRPC := (@CPO.is_callRPC PayloadT ResponseT).
Local Abbreviation sent_to_assigned_partition :=
  (CPORuns.sent_to_assigned_partition (ResponseT := ResponseT) getPartitionForKey verb).

Lemma sends_inv {A : Type} (P : forall X : Type, Suspend X -> bool) (f : future A)
    (trace : list Resumption) (n : nat) :
  sends P f trace n ->
  match f with
  | CPO.Ready r a => trace = [] /\ n = O
  | CPO.Pending r e k =>
      (trace = [] /\ n = if P _ e then 1 else 0)%nat
      \/ exists x r' trace' n',
           trace = Resume e x r' :: trace'
           /\ n = ((if P _ e then 1 else 0) + n')%nat
           /\ sends P (k x r') trace' n'
  end.
Proof. intros H. destruct H; eauto 10. Qed.

Lemma sends_resumed_counting {A X : Type} (P : forall X : Type, Suspend X -> bool)
    (r : Reactor) (e : Suspend X) (k : X -> Reactor -> future A) (x : X) (r' : Reactor)
    (trace : list Resumption) (n m : nat) :
  sends P (k x r') trace n -> m = ((if P X e then 1 else 0) + n)%nat ->
  sends P (CPO.Pending r e k) (Resume e x r' :: trace) m.
Proof. intros Hs ->. constructor. exact Hs. Qed.

Lemma sends_then {A B : Type} (P : forall X : Type, Suspend X -> bool)
    (f : future A) (g : A -> Reactor -> future B) :
  forall (trace : list Resumption) (n : nat),
    sends P (then_ f g) trace n ->
    sends P f trace n
    \/ exists t1 t2 r a n1 n2,
         trace = t1 ++ t2 /\ run f t1 r a /\ sends P f t1 n1
         /\ sends P (g a r) t2 n2 /\ n = (n1 + n2)%nat.
Proof.
  induction f as [r a|X r e k IH]; intros trace n; simpl; intros Hs.
  - right. exists [], trace, r, a, O, n. repeat split; try constructor. exact Hs.
  - apply sends_inv in Hs. destruct Hs as [[-> ->] | (x & r' & trace' & n' & -> & -> & Hs)].
    + left. constructor.
    + destruct (IH x r' trace' n' Hs)
        as [Hf | (t1 & t2 & r1 & a & n1 & n2 & -> & Hrun & Hf & Hg & ->)].
      * left. constructor. exact Hf.
      * right. exists (Resume e x r' :: t1), t2, r1, a, ((if P X e then 1 else 0) + n1)%nat, n2.
        repeat split; try assumption; [constructor; exact Hrun | constructor; exact Hf | lia].
Qed.

Lemma sends_none {A : Type} (P : forall X : Type, Suspend X -> bool) (f : future A) :
  every_suspension (fun X e _ => P X e = false) f ->
  forall (trace : list Resumption) (n : nat), sends P f trace n -> n = O.
Proof.
  induction f as [r a|X r e k IH]; simpl; intros Hf trace n Hs; apply sends_inv in Hs.
  - apply Hs.
  - destruct Hf as [He Hk]. rewrite He in Hs.
    destruct Hs as [[_ ->] | (x & r' & trace' & n' & _ & -> & Hs)]; [reflexivity|].
    apply (IH x r' (Hk x r') trace' n' Hs).
Qed.

Lemma run_then_inv {A B : Type} (f : future A) (g : A -> Reactor -> future B) :
  forall (trace : list Resumption) (r' : Reactor) (b : B),
    run (then_ f g) trace r' b ->
    exists t1 t2 r a, trace = t1 ++ t2 /\ run f t1 r a /\ run (g a r) t2 r' b.
Proof.
  induction f as [r a|X r e k IH]; intros trace r' b; simpl; intros Hr.
  - exists [], trace, r, a. repeat split; [constructor | exact Hr].
  - apply run_inv in Hr. destruct Hr as (x & r1 & trace' & -> & Hr).
    destruct (IH x r1 trace' r' b Hr) as (t1 & t2 & r2 & a & -> & Hf & Hg).
    exists (Resume e x r1 :: t1), t2, r2, a. repeat split; [constructor; exact Hf | exact Hg].
Qed.

Lemma every_pending_then {A B : Type} (Q : forall X : Type, Reactor -> Suspend X -> Prop)
    (f : future A) (g : A -> Reactor -> future B) :
  every_pending Q f -> (forall a r, every_pending Q (g a r)) -> every_pending Q (then_ f g).
Proof.
  intros Hf Hg. induction f as [r a|X r e k IH]; simpl; [apply Hg|].
  destruct Hf as [He Hk]. split; [exact He|]. intros x r'. apply IH, Hk.
Qed.

Lemma every_pending_no_rpc {A : Type} (Q : forall X : Type, Reactor -> Suspend X -> Prop)
    (f : future A) :
  (forall X r (e : Suspend X), is_callRPC e = false -> Q X r e) ->
  every_suspension (fun X e _ => is_callRPC e = false) f -> every_pending Q f.
Proof.
  intros HQ. induction f as [r a|X r e k IH]; simpl; [auto|].
  intros [He Hk]. split; [apply HQ, He|]. intros x r'. apply IH, Hk.
Qed.

(** X10. However it is resumed, a call of [GetAssignedPartitionWithRetry]
    starts at most one collection-get RPC more than it has retries, and is
    resumed at most twice that many times. *)
Theorem GetAssignedPartitionWithRetry_sends_at_most (retries : nat) :
  forall (deadline : Deadline) (name : string) (key : Key) (reverse excludedKey : bool)
         (r : Reactor) (trace : list Resumption) (n : nat),
    sends (@CPORuns.is_CPO_COLLECTION_GET PayloadT ResponseT)
      (GetAssignedPartitionWithRetry retries deadline name key reverse excludedKey r) trace n ->
    (n <= retries + 1)%nat /\ (length trace <= 2 * (retries + 1))%nat.
Proof.
  induction retries as [|m IH]; intros deadline name key reverse excludedKey r trace n;
    simpl; destruct (requestWaiters (client r) !! name); simpl.
  all: intros Hs; apply sends_inv in Hs;
    destruct Hs as [[-> ->] | (x & r1 & trace' & n' & -> & -> & Hs)]; [simpl; lia|].
  all: cbv beta iota in Hs.
  1,3: destruct (is2xxOK x);
       [destruct (collections_at name r1) as [getter r2];
        destruct (not_assigned _); simpl in Hs|].
  7,8: destruct x as [st coll];
       destruct (is2xxOK st); simpl in Hs;
       [rewrite collections_at_insert in Hs; destruct (not_assigned _); simpl in Hs
       |destruct (is5xxRetryable st); simpl in Hs].
  all: repeat match type of Hs with
         | CPORuns.sends _ (if ?b then _ else _) _ _ => destruct b
         end.
  all: match type of Hs with
       | CPORuns.sends _ (CPO.Pending _ _ _) _ _ =>
           apply sends_inv in Hs;
           destruct Hs as [[-> ->] | (? & ? & ? & ? & -> & -> & Hs)];
           [simpl; lia | apply IH in Hs; simpl in *; lia]
       | CPORuns.sends _ (CPO.Ready _ _) _ _ =>
           apply sends_inv in Hs; destruct Hs as [-> ->]; simpl; lia
       | _ => apply IH in Hs; simpl in *; lia
       end.
Qed.

Lemma PartitionRequest_f_no_rpc (deadline : Deadline) (request : RequestT)
    (reverse exclusiveKey : bool) (r : Reactor) :
  every_suspension (fun X e _ => is_callRPC e = false)
    (PartitionRequest_f deadline request reverse exclusiveKey r).
Proof.
  unfold CPO.PartitionRequest_f.
  destruct (collections (client r) !! collectionName request);
    [destruct (collections_at _ _) as [getter r']; destruct (not_assigned _)|];
    solve [apply (Get_no_partition_rpc getPartitionForKey 1) | exact I].
Qed.

Lemma every_pending_impl {A : Type} (Q Q' : forall X : Type, Reactor -> Suspend X -> Prop)
    (f : future A) :
  (forall X r (e : Suspend X), Q X r e -> Q' X r e) -> every_pending Q f -> every_pending Q' f.
Proof.
  intros HQ. induction f as [r a|X r e k IH]; simpl; [auto|].
  intros [Hq Hk]. split; [apply HQ, Hq|]. intros x r'. apply IH, Hk.
Qed.

(** X11. However it is resumed, a call of [PartitionRequest] sends the
    request to a partition at most one time more than it has retries. *)
Theorem PartitionRequest_sends_at_most (retries : nat) :
  forall (deadline : Deadline) (request : RequestT) (reverse exclusiveKey : bool)
         (r : Reactor) (trace : list Resumption) (n : nat),
    sends (@CPO.is_callRPC PayloadT ResponseT)
      (PartitionRequest retries deadline request reverse exclusiveKey r) trace n ->
    (n <= retries + 1)%nat.
Proof.
  induction retries as [|m IH]; intros deadline request reverse exclusiveKey r trace n; simpl.
  all: intros Hs; apply sends_then in Hs.
  all: destruct Hs as [Hf | (t1 & t2 & r1 & a & n1 & n2 & -> & _ & Hf & Hg & ->)];
    [apply (sends_none _ _ (PartitionRequest_f_no_rpc _ _ _ _ _)) in Hf; lia|].
  all: apply (sends_none _ _ (PartitionRequest_f_no_rpc _ _ _ _ _)) in Hf; subst n1.
  all: destruct (collections (client r1) !! collectionName request) as [getter|] eqn:Hc;
    [rewrite (collections_at_Some _ _ _ Hc) in Hg
    |apply sends_inv in Hg; destruct Hg as [_ ->]; lia].
  all: destruct (partition _) as [p|];
    [destruct (bool_decide (astate p = Assigned)); simpl in Hg|];
    try (apply sends_inv in Hg; destruct Hg as [_ ->]; lia).
  all: apply sends_inv in Hg;
    destruct Hg as [[_ ->] | ([st resp] & r2 & trace' & n' & _ & -> & Hk)]; [simpl; lia|].
  all: destruct (negb (Status_eqb st (S410_Gone "")) && negb (is5xxRetryable st));
    [apply sends_inv in Hk; destruct Hk as [_ ->]; simpl; lia|].
  all: destruct (isOver deadline r2);
    [apply sends_inv in Hk; destruct Hk as [_ ->]; simpl; lia|].
  - apply sends_inv in Hk. destruct Hk as [_ ->]. simpl. lia.
  - apply sends_then in Hk.
    destruct Hk as [Hf | (t3 & t4 & r3 & a' & n3 & n4 & _ & _ & Hf & Hg & ->)];
      apply (sends_none _ _ (Get_no_partition_rpc getPartitionForKey 1 _ _ _ _ _ _)) in Hf;
      [simpl; lia|].
    subst n3. apply IH in Hg. simpl. lia.
Qed.

(** X12. Every partition RPC that a call of [PartitionRequest] sends, the
    retried ones included, goes to the preferred endpoint of the partition
    that the cache holds for the key of the request at that moment; that
    partition is assigned, the request carries its [pvid] and is otherwise
    the caller's, the verb is the one of the call, and the timeout is the
    time remaining to the deadline capped by [partition_request_timeout]. *)
Theorem PartitionRequest_sends_to_assigned_partition (retries : nat) :
  forall (deadline : Deadline) (request : RequestT) (reverse exclusiveKey : bool)
         (r : Reactor),
    every_pending (sent_to_assigned_partition deadline request reverse exclusiveKey)
      (PartitionRequest retries deadline request reverse exclusiveKey r).
Proof.
  assert (Hother : forall deadline request reverse exclusiveKey X r (e : Suspend X),
            is_callRPC e = false ->
            sent_to_assigned_partition deadline request reverse exclusiveKey X r e).
  { intros deadline request reverse exclusiveKey X r []; simpl; solve [discriminate | auto]. }
  induction retries as [|m IH]; intros deadline request reverse exclusiveKey r; simpl.
  all: apply every_pending_then;
    [apply every_pending_no_rpc; [apply Hother | apply PartitionRequest_f_no_rpc]|].
  all: intros status r1.
  all: destruct (collections (client r1) !! collectionName request) as [getter|] eqn:Hc;
    [rewrite (collections_at_Some _ _ _ Hc) | exact I].
  all: destruct (partition _) as [p|] eqn:Hp; [|exact I].
  all: destruct (bool_decide (astate p = Assigned)) eqn:Ha; [|exact I].
  all: apply bool_decide_eq_true in Ha.
  all: simpl; split; [exists getter, p; auto 10|].
  all: intros [st resp] r2.
  all: destruct (negb (Status_eqb st (S410_Gone "")) && negb (is5xxRetryable st)); [exact I|].
  all: destruct (isOver deadline r2); [exact I|]; try exact I.
  apply every_pending_then.
  - apply every_pending_no_rpc; [apply Hother | apply (Get_no_partition_rpc getPartitionForKey 1)].
  - intros _ r3. eapply every_pending_impl; [|apply IH].
    intros X r4 []; simpl; auto.
Qed.

(** X13. When a call of [PartitionRequest] completes, the response it
    returns is the default one, or it is the response of the last partition
    RPC together with the status that this RPC answered, which is then
    neither 410 Gone nor 5xx. *)
Theorem PartitionRequest_response_comes_with_its_status (retries : nat) :
  forall (deadline : Deadline) (request : RequestT) (reverse exclusiveKey : bool)
         (r r' : Reactor) (trace : list Resumption) (status : Status) (response : ResponseT),
    run (PartitionRequest retries deadline request reverse exclusiveKey r) trace r'
      (status, response) ->
    response = ResponseT_default
    \/ exists pre v sent endpoint timeout,
         trace = pre ++ [Resume (callRPC v sent endpoint timeout) (status, response) r']
         /\ retryable status = false.
Proof.
  induction retries as [|m IH];
    intros deadline request reverse exclusiveKey r r' trace status response; simpl.
  all: intros Hr; apply run_then_inv in Hr; destruct Hr as (t1 & t2 & r1 & a & -> & _ & Hg).
  all: destruct (collections (client r1) !! collectionName request) as [getter|] eqn:Hc;
    [rewrite (collections_at_Some _ _ _ Hc) in Hg
    |apply run_inv in Hg; destruct Hg as (_ & _ & [= _ ->]); left; reflexivity].
  all: destruct (partition _) as [p|];
    [destruct (bool_decide (astate p = Assigned)); simpl in Hg|];
    try (apply run_inv in Hg; destruct Hg as (_ & _ & [= _ ->]); left; reflexivity).
  all: apply run_inv in Hg; destruct Hg as ([st resp] & r2 & trace' & -> & Hk).
  all: destruct (negb (Status_eqb st (S410_Gone "")) && negb (is5xxRetryable st)) eqn:Hret;
    [apply run_inv in Hk; destruct Hk as (-> & -> & [= -> ->]); right;
     exists t1; do 4 eexists; split; [reflexivity|];
     unfold retryable; apply andb_true_iff in Hret as [H1 H2];
     apply negb_true_iff in H1, H2; rewrite H1, H2; reflexivity|].
  all: destruct (isOver deadline r2);
    [apply run_inv in Hk; destruct Hk as (_ & _ & [= _ ->]); left; reflexivity|].
  - apply run_inv in Hk. destruct Hk as (_ & _ & [= _ ->]). left. reflexivity.
  - apply run_then_inv in Hk. destruct Hk as (t3 & t4 & r3 & a' & -> & _ & Hk).
    apply IH in Hk. destruct Hk as [-> | (pre & v & sent & ep & tm & -> & Hret')];
      [left; reflexivity|].
    right. eexists (t1 ++ _ :: t3 ++ pre), v, sent, ep, tm.
    split; [|exact Hret']. rewrite <- !app_assoc. simpl. rewrite <- app_assoc. reflexivity.
Qed.

Local Abbreviation System := (@CPO.System PayloadT ResponseT).
Local Abbreviation park := (CPO.park (PayloadT := PayloadT) (ResponseT := ResponseT)).
Local Abbreviation step :=
  (@CPO.step PayloadT ResponseT verb ResponseT_default getPartitionForKey).
Local Abbreviation reachable :=
  (@CPO.reachable PayloadT ResponseT verb ResponseT_default getPartitionForKey).



(** X14. On a shard with no request registered, a call of
    [GetAssignedPartitionWithRetry] with a retry left whose collection-get
    RPC is answered 5xx before the deadline keeps its registration, sleeps
    for the backoff, and then finds its own registration: it issues no
    second RPC but waits on a new promise queued under the name. In that
    state of the shard no collection-get RPC for the name is in flight and
    the promise has no value, so the call cannot be resumed. *)
Theorem retry_after_5xx_waits_on_its_own_registration
    (n : nat) (deadline : Deadline) (name : string) (key : Key) (reverse excludedKey : bool)
    (r : Reactor) (t0 t1 t2 : Z) (status : Status) (coll_response : CollectionGetResponse) :
  requestWaiters (client r) = ∅ ->
  fulfilled r !! next_promise r = None ->
  is5xxRetryable status = true ->
  t1 < deadline_time deadline ->
  exists f1 f2 f3 : future Status,
    f1 = GetAssignedPartitionWithRetry (S n) deadline name key reverse excludedKey (tick t0 r)
    /\ resume_collection_get f1 (status, coll_response) (tick t1 (left_reactor f1)) = Some f2
    /\ sleeping f2
       = Some (Z.min (deadline_time deadline - t1) (cpo_request_backoff (client r)))
    /\ resume_sleep f2 (tick t2 (left_reactor f2)) = Some f3
    /\ awaited_promise f3 = Some (next_promise r)
    /\ requestWaiters (client (left_reactor f3)) !! name = Some [next_promise r]
    /\ fulfilled (left_reactor f3) !! next_promise r = None
    /\ resume_promise f3 (left_reactor f3) = None
    /\ reachable (park f3 [])
    /\ outstanding name (park f3 []) = O.
Proof.
  intros Hrw Hfresh H5 Hdl.
  pose proof (is5xxRetryable_not_2xx _ H5) as H2.
  assert (Hnone : requestWaiters (client (tick t0 r)) !! name = None)
    by (simpl; rewrite Hrw; apply lookup_empty).
  assert (Hover : forall r0, isOver deadline (tick t1 r0) = false)
    by (intros; unfold isOver; simpl; apply Z.leb_gt; lia).
  assert (Hrem : forall r0, getRemaining deadline (tick t1 r0) = deadline_time deadline - t1).
  { intros. unfold getRemaining. simpl.
    replace (deadline_time deadline <=? t1) with false by (symmetry; apply Z.leb_gt; lia).
    reflexivity. }
  assert (H0 : reachable (mkSystem r [])) by (apply reachable_start; exact Hrw).
  pose proof (reachable_step _ _ _ _ _ H0
                (step_GetAssignedPartitionWithRetry verb ResponseT_default getPartitionForKey
                   (mkSystem r []) t0 (S n) deadline name key reverse excludedKey)) as H1.
  destruct n as [|n].
  all: eexists; eexists; eexists.
  all: split; [reflexivity|].
  all: simpl; simpl in H1; rewrite Hrw, lookup_empty; rewrite Hrw, lookup_empty in H1.
  all: simpl; simpl in H1; rewrite H2, H5; simpl; rewrite Hover, Hrem.
  all: split; [reflexivity|].
  all: split; [reflexivity|].
  all: simpl; rewrite lookup_insert_eq; simpl.
  all: split; [reflexivity|]; simpl.
  all: split; [reflexivity|].
  all: split; [rewrite insert_insert_eq; apply lookup_insert_eq|].
  all: split; [exact Hfresh|].
  all: split; [rewrite Hfresh; reflexivity|].
  all: split; [|reflexivity].
  (* the three steps of the shard *)
  all: match type of H1 with
       | CPO.reachable _ _ _ (mkSystem ?r1 [Parked ?e ?k]) =>
           pose proof (reachable_step _ _ _ _ _ H1
                         (step_resume verb ResponseT_default getPartitionForKey
                            (mkSystem r1 [Parked e k]) t1 [] [] e k (status, coll_response)
                            eq_refl I)) as H3
       end.
  all: simpl in H3; rewrite H2, H5 in H3; simpl in H3; rewrite Hover, Hrem in H3; simpl in H3.
  all: match type of H3 with
       | CPO.reachable _ _ _ (mkSystem ?r1 [Parked ?e ?k]) =>
           pose proof (reachable_step _ _ _ _ _ H3
                         (step_resume verb ResponseT_default getPartitionForKey
                            (mkSystem r1 [Parked e k]) t2 [] [] e k tt eq_refl I)) as H4
       end.
  all: simpl in H4; rewrite lookup_insert_eq in H4; simpl in H4.
  all: exact H4.
Qed.

End Client.

Lemma GetAssignedPartitionWithRetry_result_witness :
  (is2xxOK (S200_OK "") = true ->
   assigned_in first_partition
     (FulfillWaiters "TPCC" (S200_OK "")
        (set_collections (<["TPCC" := mkPartitionGetter (collection_of Assigned)]>)
           (left_reactor (Get0 1 reactor0))))
     "TPCC" key0 false false)
  /\ (is5xxRetryable (S200_OK "") = true ->
      S200_OK "" = S503_Service_Unavailable "not all partitions assigned in cpo").
Proof.
  apply (GetAssignedPartitionWithRetry_result (PayloadT := unit) (ResponseT := unit)
           first_partition 1 deadline0 "TPCC" key0 false false reactor0 _
           [Resume (callRPC_CPO_COLLECTION_GET (mkCollectionGetRequest "TPCC") endpoint0 100)
              (S200_OK "", mkCollectionGetResponse (collection_of Assigned))
              (left_reactor (Get0 1 reactor0))]).
  apply (run_Pending (A := Status)). apply run_Ready.
Defined.

Example run_get_retry :
  exists r, run get_retry_1 trace_get_retry r (S200_OK "").
Proof.
  eexists. unfold trace_get_retry.
  apply (run_Pending (A := Status)). apply (run_Pending (A := Status)).
  apply (run_Pending (A := Status)). apply run_Ready.
Qed.

Example run_request_retry :
  exists r, run request_retry_1 trace_request_retry r (S200_OK "", tt).
Proof.
  eexists. unfold trace_request_retry.
  apply (run_Pending (A := Status * unit)). apply (run_Pending (A := Status * unit)).
  apply (run_Pending (A := Status * unit)). apply run_Ready.
Qed.

Lemma GetAssignedPartitionWithRetry_sends_at_most_witness :
  (2 <= 1 + 1)%nat /\ (length trace_get_retry <= 2 * (1 + 1))%nat.
Proof.
  apply (GetAssignedPartitionWithRetry_sends_at_most (PayloadT := unit) (ResponseT := unit)
           first_partition 1 deadline0 "TPCC" key0 false false reactor0 trace_get_retry 2%nat).
  unfold trace_get_retry.
  eapply sends_resumed_counting; [|reflexivity].
  eapply sends_resumed_counting; [|reflexivity].
  eapply sends_resumed_counting with (n := 0%nat); [|reflexivity].
  apply (sends_Ready (A := Status)).
Defined.

Lemma PartitionRequest_sends_at_most_witness : (2 <= 1 + 1)%nat.
Proof.
  apply (PartitionRequest_sends_at_most (PayloadT := unit) (ResponseT := unit)
           3 tt first_partition 1 deadline0 request0 false false reactor_cached
           trace_request_retry 2%nat).
  unfold trace_request_retry.
  eapply sends_resumed_counting; [|reflexivity].
  eapply sends_resumed_counting; [|reflexivity].
  eapply sends_resumed_counting with (n := 0%nat); [|reflexivity].
  apply (sends_Ready (A := Status * unit)).
Defined.

Lemma PartitionRequest_response_comes_with_its_status_witness :
  tt = tt
  \/ exists pre v sent endpoint timeout,
       [Resume (PayloadT := unit) (ResponseT := unit)
          (callRPC 3 (set_pvid (mkPVID 1 1 1) request0) endpoint0 100)
          (S200_OK "", tt) reactor_cached]
       = pre ++ [Resume (callRPC v sent endpoint timeout) (S200_OK "", tt) reactor_cached]
       /\ retryable (S200_OK "") = false.
Proof.
  apply (PartitionRequest_response_comes_with_its_status (PayloadT := unit) (ResponseT := unit)
           3 tt first_partition 1 deadline0 request0 false false reactor_cached reactor_cached).
  apply (run_Pending (A := Status * unit)). apply run_Ready.
Defined.
Lemma retry_after_5xx_waits_on_its_own_registration_witness :
  exists f1 f2 f3 : future (PayloadT := unit) (ResponseT := unit) Status,
    f1 = GetAssignedPartitionWithRetry first_partition 1 deadline0 "TPCC" key0 false false
           (tick 0 reactor0)
    /\ resume_collection_get f1
         (S503_Service_Unavailable "busy", mkCollectionGetResponse (collection_of Assigned))
         (tick 10 (left_reactor f1)) = Some f2
    /\ sleeping f2
       = Some (Z.min (deadline_time deadline0 - 10) (cpo_request_backoff (client reactor0)))
    /\ resume_sleep f2 (tick 20 (left_reactor f2)) = Some f3
    /\ awaited_promise f3 = Some (next_promise reactor0)
    /\ requestWaiters (client (left_reactor f3)) !! "TPCC" = Some [next_promise reactor0]
    /\ fulfilled (left_reactor f3) !! next_promise reactor0 = None
    /\ resume_promise f3 (left_reactor f3) = None
    /\ reachable 3 tt first_partition (park f3 [])
    /\ outstanding "TPCC" (park f3 []) = O.
Proof.
  apply (retry_after_5xx_waits_on_its_own_registration (PayloadT := unit) (ResponseT := unit)
           3 tt first_partition 0 deadline0 "TPCC" key0 false false reactor0 0 10 20
           (S503_Service_Unavailable "busy") (mkCollectionGetResponse (collection_of Assigned))).
  - reflexivity.
  - reflexivity.
  - reflexivity.
  - simpl. lia.
Defined.

End CPORuns_Properties.

Module CPOCreate_Properties.
Import dto CPO CPO.Statuses CPO_Properties CPORuns CPORuns_Properties CPOCreate.

Section Client.
Context {PayloadT ResponseT : Type}.
Variable getPartitionForKey : PartitionGetter -> Key -> bool -> bool -> PartitionWithEndpoint.

Local Abbreviation future := (@CPO.future PayloadT ResponseT).
Local Abbreviation Resumption := (@CPO.Resumption PayloadT ResponseT).
Local Abbreviation create_future := (@CPOCreate.create_future PayloadT ResponseT).
Local Abbreviation CreateResumption := (@CPOCreate.CreateResumption PayloadT ResponseT).
Local Abbreviation create_run :=
  (CPOCreate.create_run (PayloadT := PayloadT) (ResponseT := ResponseT)).
Local Abbreviation run := (CPO.run (PayloadT := PayloadT) (ResponseT := ResponseT)).
Local Abbreviation lift := (CPOCreate.lift (PayloadT := PayloadT) (ResponseT := ResponseT)).
Local Abbreviation CreateAndWaitForCollection :=
  (@CPOCreate.CreateAndWaitForCollection PayloadT ResponseT getPartitionForKey).
Local Abbreviation GetAssignedPartitionWithRetry :=
  (@CPO.GetAssignedPartitionWithRetry PayloadT ResponseT getPartitionForKey).
Local Abbreviation assigned_in := (CPORuns.assigned_in getPartitionForKey).

Lemma create_run_inv {A : Type} (f : create_future A) (trace : list CreateResumption)
    (r' : Reactor) (a : A) :
  create_run f trace r' a ->
  match f with
  | CreateReady r a0 => trace = [] /\ r' = r /\ a = a0
  | CreatePending r e k =>
      exists x r1 trace',
        trace = CreateResume e x r1 :: trace' /\ create_run (k x r1) trace' r' a
  end.
Proof. intros H. destruct H; eauto 10. Qed.

Lemma create_run_lift {A : Type} (f : future A) :
  forall (trace : list CreateResumption) (r' : Reactor) (a : A),
    create_run (lift f) trace r' a ->
    exists trace0, trace = lift_resumption <$> trace0 /\ run f trace0 r' a.
Proof.
  induction f as [r a0|X r e k IH]; intros trace r' a; simpl; intros Hr;
    apply create_run_inv in Hr.
  - destruct Hr as (-> & -> & ->). exists []. split; [reflexivity | constructor].
  - destruct Hr as (x & r1 & trace' & -> & Hr).
    destruct (IH x r1 trace' r' a Hr) as (trace0 & -> & Hrun).
    exists (Resume e x r1 :: trace0). split; [reflexivity | constructor; exact Hrun].
Qed.

(** X15. A completed call of [CreateAndWaitForCollection] has sent the
    collection-create RPC to the CPO with the remaining time, capped by
    [cpo_request_timeout], as timeout. An answer that is neither 403 nor 2xx
    is returned as it is and nothing more is done. After 403 (the collection
    exists) or 2xx the call sleeps for the backoff and returns what
    [GetAssignedPartitionWithRetry] returns for the collection and the empty
    key, with one retry; a 2xx result then means that the partition of the
    empty key is cached and assigned. *)
Theorem CreateAndWaitForCollection_waits_for_assignment
    (deadline : Deadline) (metadata : CollectionMetadata)
    (clusterEndpoints rangeEnds : list string) (r r' : Reactor)
    (trace : list CreateResumption) (status : Status) :
  create_run (CreateAndWaitForCollection deadline metadata clusterEndpoints rangeEnds r)
    trace r' status ->
  exists (created : Status) (k2response : CollectionCreateResponse) (r1 : Reactor)
         (rest : list CreateResumption),
    trace
    = CreateResume
        (callRPC_CPO_COLLECTION_CREATE
           (mkCollectionCreateRequest metadata clusterEndpoints rangeEnds) (cpo (client r))
           (Z.min (getRemaining deadline r) (cpo_request_timeout (client r))))
        (created, k2response) r1 :: rest
    /\ ((Status_eqb created (S403_Forbidden "") || is2xxOK created = false
         /\ rest = [] /\ status = created /\ r' = r1)
        \/ (Status_eqb created (S403_Forbidden "") || is2xxOK created = true
            /\ exists (r2 : Reactor) (gets : list Resumption),
                 rest
                 = CreateResume
                     (client_operation
                        (sleep (Z.min (getRemaining deadline r1)
                                  (cpo_request_backoff (client r1)))))
                     tt r2 :: (lift_resumption <$> gets)
                 /\ run (GetAssignedPartitionWithRetry 1 deadline (dto.name metadata)
                           (mkKey "" "" "") false false r2) gets r' status
                 /\ (is2xxOK status = true ->
                     assigned_in r' (dto.name metadata) (mkKey "" "" "") false false))).
Proof.
  unfold CPOCreate.CreateAndWaitForCollection. intros Hr.
  apply create_run_inv in Hr. destruct Hr as ([created k2response] & r1 & rest & -> & Hr).
  exists created, k2response, r1, rest. split; [reflexivity|].
  cbv beta iota zeta in Hr.
  destruct (Status_eqb created (S403_Forbidden "") || is2xxOK created) eqn:Hok.
  - right. split; [reflexivity|].
    apply create_run_inv in Hr. destruct Hr as ([] & r2 & rest' & -> & Hr).
    apply create_run_lift in Hr. destruct Hr as (gets & -> & Hrun).
    exists r2, gets. split; [reflexivity|]. split; [exact Hrun|].
    intros H2.
    exact (Get_2xx_assigned getPartitionForKey 1 _ _ _ _ _ _ _ _ _ Hrun H2).
  - left. apply create_run_inv in Hr. destruct Hr as (-> & -> & ->). auto.
Qed.

End Client.

Lemma CreateAndWaitForCollection_waits_for_assignment_witness :
  exists (created : Status) (k2response : CollectionCreateResponse) (r1 : Reactor)
         (rest : list (CreateResumption (PayloadT := unit) (ResponseT := unit))),
    [CreateResume
       (callRPC_CPO_COLLECTION_CREATE
          (mkCollectionCreateRequest (mkCollectionMetadata "TPCC" 3600 10) [] [""])
          endpoint0 100)
       (mkStatus 409 "conflict", tt) reactor0]
    = CreateResume
        (callRPC_CPO_COLLECTION_CREATE
           (mkCollectionCreateRequest (mkCollectionMetadata "TPCC" 3600 10) [] [""])
           (cpo (client reactor0))
           (Z.min (getRemaining deadline0 reactor0) (cpo_request_timeout (client reactor0))))
        (created, k2response) r1 :: rest
    /\ ((Status_eqb created (S403_Forbidden "") || is2xxOK created = false
         /\ rest = [] /\ mkStatus 409 "conflict" = created /\ reactor0 = r1)
        \/ (Status_eqb created (S403_Forbidden "") || is2xxOK created = true
            /\ exists (r2 : Reactor) (gets : list (Resumption (PayloadT := unit) (ResponseT := unit))),
                 rest
                 = CreateResume
                     (client_operation
                        (sleep (Z.min (getRemaining deadline0 r1)
                                  (cpo_request_backoff (client r1)))))
                     tt r2 :: (lift_resumption <$> gets)
                 /\ run (GetAssignedPartitionWithRetry first_partition 1 deadline0
                           (dto.name (mkCollectionMetadata "TPCC" 3600 10))
                           (mkKey "" "" "") false false r2) gets reactor0
                      (mkStatus 409 "conflict")
                 /\ (is2xxOK (mkStatus 409 "conflict") = true ->
                     assigned_in first_partition reactor0
                       (dto.name (mkCollectionMetadata "TPCC" 3600 10))
                       (mkKey "" "" "") false false))).
Proof.
  apply (CreateAndWaitForCollection_waits_for_assignment (PayloadT := unit) (ResponseT := unit)
           first_partition deadline0 (mkCollectionMetadata "TPCC" 3600 10) [] [""]
           reactor0 reactor0).
  apply (create_run_Pending (A := Status)). apply create_run_Ready.
Defined.

End CPOCreate_Properties.

Module K23SIPush_Properties.
Import dto K23SI K23SIPush.

Section Validators.
Variable owns : OwnerPartition -> Key -> bool -> bool.
Variable compareCertain : Timestamp -> Timestamp -> Z.
Context {R : Type} `{RequestT R}.

(** X22. A read-type request is answered OK exactly when it names the
    collection and the partition version of the module, the partition owns
    its key (for a Query in the direction of the scan, for the other types
    forwards), its partition key is not empty unless it is a Query, its
    timestamp does not compare below the retention timestamp, and the module
    has a schema of the name in its key. A Query is never answered
    BadParameter. A push request passes its retention check exactly when a
    read-type request with the MTR of the challenger passes its own. *)
Theorem validateReadRequest_accepts_exactly (m : K23SIPartitionModule) (req : R) :
  (code (_validateReadRequest owns compareCertain m req) = OK
   <-> collectionName req = name (_cmeta m)
       /\ pvid req = dto.pvid (partition (_partition m))
       /\ owns (_partition m) (key req)
            (if isQueryRequest (R := R) then reverseDirection req else false) = true
       /\ (isQueryRequest (R := R) = true \/ partitionKey (key req) <> EmptyString)
       /\ 0 <= compareCertain (timestamp (mtr req)) (_retentionTimestamp m)
       /\ is_Some (_schemas m !! schemaName (key req)))
  /\ (isQueryRequest (R := R) = true ->
      code (_validateReadRequest owns compareCertain m req) <> BadParameter)
  /\ (forall push : K23SITxnPushRequest,
        challengerMTR push = mtr req ->
        _validatePushRetention compareCertain m push
        = _validateRetentionWindow compareCertain m req).
Proof.
  split; [|split].
  - unfold _validateReadRequest, _validateRequestPartition, _validateRequestPartitionKey,
      _validateRetentionWindow.
    destruct (isQueryRequest (R := R)).
    all: repeat case_bool_decide; simpl.
    all: destruct (owns _ _ _); simpl.
    all: destruct (Z.leb_spec 0 (compareCertain (timestamp (mtr req)) (_retentionTimestamp m)));
      simpl.
    all: try case_bool_decide; simpl.
    all: split; [try discriminate|].
    all: try (intros _; repeat split; auto; try lia;
              match goal with
              | Hn : _ <> None |- is_Some _ => apply not_eq_None_Some, Hn
              end).
    all: intros (A1 & A2 & A3 & A4 & A5 & A6); try reflexivity; try congruence; try lia.
    all: try (destruct A4 as [A4 | A4]; congruence).
    all: try (destruct A6 as [x A6]; congruence).
  - intros Hq. unfold _validateReadRequest, _validateRequestPartitionKey. rewrite Hq.
    destruct (_validateRequestPartition owns m req); simpl; [|discriminate].
    destruct (_validateRetentionWindow compareCertain m req); simpl; [|discriminate].
    case_bool_decide; discriminate.
  - intros push Hmtr. unfold _validatePushRetention, _validateRetentionWindow.
    rewrite Hmtr. reflexivity.
Qed.
End Validators.
End K23SIPush_Properties.

Module TPCCClient_Properties.
Import Int TPCC TPCCClient TPCC_Properties.

Local Abbreviation succeeded_of0 := (TPCCClient.succeeded_of 0 1 0 0).

Lemma uint64_idemp_l (x y : Z) : uint64 (uint64 x + y) = uint64 (x + y).
Proof. unfold uint64. apply Zplus_mod_idemp_l. Qed.

Lemma uint64_small' (x : Z) : uint64 (uint64 x) = uint64 x.
Proof. unfold uint64. apply Z.mod_mod. lia. Qed.

(** X16. Of the 100 equally likely values of the draw, 43 choose a Payment
    transaction, 4 an Order-Status, 4 a Delivery and 49 a New-Order,
    whatever the shard and the configuration. *)
Theorem transaction_mix (this_shard_id _max_warehouses _delivery_txn_batch_size junk : Z) :
  length (List.filter (fun k => bool_decide (k = Payment))
            (kinds_of_draws this_shard_id _max_warehouses _delivery_txn_batch_size junk))
  = 43%nat
  /\ length (List.filter (fun k => bool_decide (k = OrderStatus))
               (kinds_of_draws this_shard_id _max_warehouses _delivery_txn_batch_size junk))
     = 4%nat
  /\ length (List.filter (fun k => bool_decide (k = Delivery))
               (kinds_of_draws this_shard_id _max_warehouses _delivery_txn_batch_size junk))
     = 4%nat
  /\ length (List.filter (fun k => bool_decide (k = NewOrder))
               (kinds_of_draws this_shard_id _max_warehouses _delivery_txn_batch_size junk))
     = 49%nat.
Proof. unfold kinds_of_draws, curTxn. vm_compute. auto. Qed.

Lemma uint64_sum4 (a b c d : Z) :
  uint64 (uint64 a + uint64 b + uint64 c + uint64 d) = uint64 (a + b + c + d).
Proof.
  unfold uint64.
  rewrite Zplus_mod_idemp_r.
  replace (a mod 2 ^ 64 + b mod 2 ^ 64 + c mod 2 ^ 64 + d)
    with (a mod 2 ^ 64 + b mod 2 ^ 64 + d + c mod 2 ^ 64) by ring.
  rewrite Zplus_mod_idemp_r.
  replace (a mod 2 ^ 64 + b mod 2 ^ 64 + d + c)
    with (a mod 2 ^ 64 + d + c + b mod 2 ^ 64) by ring.
  rewrite Zplus_mod_idemp_r.
  replace (a mod 2 ^ 64 + d + c + b) with (d + c + b + a mod 2 ^ 64) by ring.
  rewrite Zplus_mod_idemp_r. f_equal. ring.
Qed.

Lemma kind_curTxn (a b c d txn_type : Z) :
  kind (curTxn a b c d txn_type) = kind (curTxn 0 1 0 0 txn_type).
Proof.
  unfold curTxn. destruct (txn_type <=? 43), (txn_type <=? 47), (txn_type <=? 51); reflexivity.
Qed.

Lemma completed_counts (k : Kind) (txn_type : Z) (success : bool) (c : Counters) :
  _completedTxns (completed txn_type success c)
  = (if success then uint64 (_completedTxns c + 1) else _completedTxns c)
  /\ counter k (completed txn_type success c)
     = (if success && bool_decide (kind (curTxn 0 1 0 0 txn_type) = k)
        then uint64 (counter k c + 1) else counter k c).
Proof.
  unfold completed, curTxn. destruct success; simpl; [|auto].
  destruct (txn_type <=? 43); [destruct k; simpl; auto|].
  destruct (txn_type <=? 47); [destruct k; simpl; auto|].
  destruct (txn_type <=? 51); destruct k; simpl; auto.
Qed.

Lemma foldl_completed (k : Kind) (ended : list (Z * bool)) :
  forall c : Counters,
    let c' := foldl (fun c '(txn_type, success) => completed txn_type success c) c ended in
    uint64 (_completedTxns c') = uint64 (_completedTxns c + succeeded ended)
    /\ uint64 (counter k c') = uint64 (counter k c + succeeded_of0 k ended).
Proof.
  induction ended as [|[txn_type success] ended IH]; intros c; simpl.
  - unfold succeeded, TPCCClient.succeeded_of. simpl. rewrite !Z.add_0_r. auto.
  - destruct (IH (completed txn_type success c)) as [IH1 IH2].
    destruct (completed_counts k txn_type success c) as [H1 H2].
    rewrite IH1, IH2, H1, H2. unfold succeeded, TPCCClient.succeeded_of. simpl.
    destruct success; simpl.
    + rewrite uint64_idemp_l. split; [f_equal; lia|].
      destruct (bool_decide _); simpl; [rewrite uint64_idemp_l|]; f_equal; lia.
    + auto.
Qed.

Lemma counters_in_range (ended : list (Z * bool)) :
  forall c : Counters,
    (forall k, counter k c = uint64 (counter k c)) -> _completedTxns c = uint64 (_completedTxns c) ->
    let c' := foldl (fun c '(txn_type, success) => completed txn_type success c) c ended in
    (forall k, counter k c' = uint64 (counter k c')) /\ _completedTxns c' = uint64 (_completedTxns c').
Proof.
  induction ended as [|[txn_type success] ended IH]; intros c Hk Hc; simpl; [auto|].
  apply IH.
  - intros k. destruct (completed_counts k txn_type success c) as [_ ->].
    destruct (_ && _); [symmetry; apply uint64_small' | apply Hk].
  - destruct (completed_counts Payment txn_type success c) as [-> _].
    destruct success; [symmetry; apply uint64_small' | apply Hc].
Qed.

Lemma succeeded_by_kind (ended : list (Z * bool)) :
  succeeded ended
  = succeeded_of0 Payment ended + succeeded_of0 OrderStatus ended
    + succeeded_of0 Delivery ended + succeeded_of0 NewOrder ended.
Proof.
  unfold succeeded, TPCCClient.succeeded_of.
  induction ended as [|[txn_type success] ended IH]; simpl; [reflexivity|].
  destruct success; simpl; [|exact IH].
  destruct (kind (curTxn 0 1 0 0 txn_type)); simpl; lia.
Qed.

(** X17. After any sequence of transactions on a new client,
    [_completedTxns] is the number of those that succeeded, each of the four
    counters is the number of the successful ones of its kind (the kind that
    [_tpcc] constructs for the same draw), and the four counters add up to
    [_completedTxns]; all of this in 64-bit unsigned arithmetic. A
    transaction that fails changes no counter. *)
Theorem counters_add_up
    (this_shard_id _max_warehouses _delivery_txn_batch_size junk : Z)
    (ended : list (Z * bool)) :
  _completedTxns (benchmark ended) = uint64 (succeeded ended)
  /\ (forall k,
        counter k (benchmark ended)
        = uint64 (succeeded_of this_shard_id _max_warehouses _delivery_txn_batch_size junk
                    k ended))
  /\ uint64 (_paymentTxns (benchmark ended) + _orderStatusTxns (benchmark ended)
             + _deliveryTxns (benchmark ended) + _newOrderTxns (benchmark ended))
     = _completedTxns (benchmark ended)
  /\ (forall txn_type c, completed txn_type false c = c).
Proof.
  assert (Hsame : forall k,
            succeeded_of this_shard_id _max_warehouses _delivery_txn_batch_size junk k ended
            = succeeded_of0 k ended).
  { intros k. unfold TPCCClient.succeeded_of. do 2 f_equal.
    apply List.filter_ext. intros [t ok]. simpl. rewrite kind_curTxn. reflexivity. }
  unfold benchmark.
  destruct (counters_in_range ended Counters_initial) as [Hk Hc];
    [intros []; reflexivity | reflexivity|].
  assert (Hcount : forall k, counter k (foldl (fun c '(txn_type, success) =>
                                                 completed txn_type success c)
                                          Counters_initial ended)
                             = uint64 (succeeded_of0 k ended)).
  { intros k. rewrite Hk. destruct (foldl_completed k ended Counters_initial) as [_ ->].
    destruct k; reflexivity. }
  assert (Hall : _completedTxns (foldl (fun c '(txn_type, success) =>
                                          completed txn_type success c)
                                   Counters_initial ended)
                 = uint64 (succeeded ended)).
  { rewrite Hc. destruct (foldl_completed Payment ended Counters_initial) as [-> _].
    reflexivity. }
  split; [exact Hall|]. split; [intros k; rewrite Hsame; apply Hcount|].
  split; [|reflexivity].
  rewrite Hall, succeeded_by_kind.
  pose proof (Hcount Payment) as H1. pose proof (Hcount OrderStatus) as H2.
  pose proof (Hcount Delivery) as H3. pose proof (Hcount NewOrder) as H4.
  simpl in H1, H2, H3, H4. rewrite H1, H2, H3, H4. apply uint64_sum4.
Qed.

(** X18. Every transaction that [_tpcc] constructs is for a warehouse
    between 1 and [_max_warehouses()], whatever the draw, on every shard,
    when the number of warehouses is positive. *)
Theorem warehouse_in_range
    (this_shard_id _max_warehouses _delivery_txn_batch_size junk txn_type : Z) :
  0 <= this_shard_id < 2 ^ 32 -> 0 < _max_warehouses < 2 ^ 31 ->
  1 <= warehouse (curTxn this_shard_id _max_warehouses _delivery_txn_batch_size junk txn_type)
    <= _max_warehouses
  /\ warehouse (curTxn this_shard_id _max_warehouses _delivery_txn_batch_size junk txn_type)
     = this_shard_id mod _max_warehouses + 1.
Proof.
  intros Hs Hw.
  assert (Hid : warehouse (curTxn this_shard_id _max_warehouses _delivery_txn_batch_size junk
                             txn_type)
                = w_id this_shard_id _max_warehouses).
  { unfold curTxn. destruct (txn_type <=? 43), (txn_type <=? 47), (txn_type <=? 51);
      reflexivity. }
  rewrite Hid. unfold w_id, uint32.
  change (2 ^ 32) with 4294967296 in *. change (2 ^ 31) with 2147483648 in *.
  rewrite (Z.mod_small _max_warehouses) by lia.
  pose proof (Z.mod_pos_bound this_shard_id _max_warehouses ltac:(lia)).
  rewrite Z.mod_small by lia. lia.
Qed.

(** X19. [_data_load] with shards that do not divide the number of
    warehouses evenly loads no warehouse on any shard. When they do, the
    shards 0, ..., cpus-1 generate consecutive intervals of the same
    length [num_warehouses / cpus], and every warehouse from 1 to
    [num_warehouses] lies in the interval of exactly one shard. *)
Theorem data_load_covers_every_warehouse_once (cpus _max_warehouses : Z) :
  0 < cpus -> 0 <= _max_warehouses ->
  (Z.rem _max_warehouses cpus <> 0 ->
   forall id, data_load_warehouses cpus id _max_warehouses = None)
  /\ (Z.rem _max_warehouses cpus = 0 ->
      (forall id, data_load_warehouses cpus id _max_warehouses
                  = Some (1 + id * (_max_warehouses / cpus),
                          1 + (id + 1) * (_max_warehouses / cpus)))
      /\ forall w, 1 <= w <= _max_warehouses ->
           exists id,
             0 <= id < cpus
             /\ (exists first last,
                   data_load_warehouses cpus id _max_warehouses = Some (first, last)
                   /\ first <= w < last)
             /\ forall id' first last,
                  data_load_warehouses cpus id' _max_warehouses = Some (first, last) ->
                  first <= w < last -> id' = id).
Proof.
  intros Hc Hm. unfold data_load_warehouses.
  rewrite Z.rem_mod_nonneg, Z.quot_div_nonneg by lia.
  split.
  - intros Hr id. destruct (Z.eqb_spec (_max_warehouses mod cpus) 0); [contradiction | reflexivity].
  - intros Hr. rewrite Hr. simpl.
    set (share := _max_warehouses / cpus).
    assert (Hshare : _max_warehouses = cpus * share) by (unfold share; (Z.div_mod_to_equations; lia)).
    split; [intros id; f_equal; f_equal; lia|].
    intros w Hw.
    assert (Hpos : 0 < share) by nia.
    exists ((w - 1) / share).
    assert (Hq : share * ((w - 1) / share) <= w - 1 < share * ((w - 1) / share) + share).
    { pose proof (Z.mul_div_le (w - 1) share Hpos).
      pose proof (Z.mul_succ_div_gt (w - 1) share Hpos). lia. }
    split; [split; [apply Z.div_pos; lia | apply Z.div_lt_upper_bound; nia]|].
    split; [eexists; eexists; split; [reflexivity | lia]|].
    intros id' first last [= <- <-] Hin. nia.
Qed.

Section getRangeEnds.
Variable FieldToKeyString_int16 : Z -> string.

Lemma int16_small (z : Z) : - 2 ^ 15 <= z < 2 ^ 15 -> int16 z = z.
Proof. intros H. unfold int16. rewrite Z.mod_small; lia. Qed.

Lemma int16_wraps (z : Z) : 2 ^ 15 <= z < 2 ^ 16 + 2 ^ 15 -> int16 z = z - 2 ^ 16.
Proof.
  intros H. unfold int16.
  replace (z + 2 ^ 15) with ((z - 2 ^ 16 + 2 ^ 15) + 1 * 2 ^ 16) by ring.
  rewrite Z.mod_add by lia. rewrite Z.mod_small; lia.
Qed.

(** X20. With [share] the warehouses per partition that [getRangeEnds]
    computes: the range end at position [i], other than the last, encodes
    the number [(i+1)*share + 1] itself as long as this is below 32768, so
    these numbers grow by [share] from one partition to the next; from 32768
    on the conversion to [int16_t] wraps, and up to 98303 the number encoded
    is [(i+1)*share + 1 - 65536]: a negative number up to 65535, and from
    65536 on a number from 0 to 32767 again, below those of the partitions
    before it. *)
Theorem getRangeEnds_values (numPartitions numWarehouses : Z) (fuel : nat) (i : Z) :
  1 <= numPartitions < 2 ^ 32 - 1 -> 0 <= numWarehouses ->
  (Z.to_nat numPartitions < fuel)%nat ->
  0 <= i < numPartitions - 1 ->
  exists rangeEnds : list string,
    getRangeEnds FieldToKeyString_int16 fuel numPartitions numWarehouses = Some rangeEnds
    /\ 1 <= share_of numPartitions numWarehouses
    /\ ((i + 1) * share_of numPartitions numWarehouses + 1 < 2 ^ 15 ->
        rangeEnds !! Z.to_nat i
        = Some (FieldToKeyString_int16 ((i + 1) * share_of numPartitions numWarehouses + 1)))
    /\ (2 ^ 15 <= (i + 1) * share_of numPartitions numWarehouses + 1 < 2 ^ 16 + 2 ^ 15 ->
        rangeEnds !! Z.to_nat i
        = Some (FieldToKeyString_int16
                  ((i + 1) * share_of numPartitions numWarehouses + 1 - 2 ^ 16)))
    /\ ((i + 1) * share_of numPartitions numWarehouses + 1 < 2 ^ 16 ->
        (i + 1) * share_of numPartitions numWarehouses + 1 - 2 ^ 16 < 0)
    /\ (2 ^ 16 <= (i + 1) * share_of numPartitions numWarehouses + 1 < 2 ^ 16 + 2 ^ 15 ->
        0 <= (i + 1) * share_of numPartitions numWarehouses + 1 - 2 ^ 16 < 2 ^ 15).
Proof.
  intros Hn Hw Hfuel Hi. unfold getRangeEnds. fold (share_of numPartitions numWarehouses).
  set (share := share_of numPartitions numWarehouses).
  rewrite (getRangeEnds_loop_spec FieldToKeyString_int16 (Z.to_nat numPartitions)) by lia.
  simpl. eexists. split; [reflexivity|].
  assert (Hshare : 1 <= share).
  { unfold share, share_of. destruct (Z.eqb_spec (numWarehouses / numPartitions) 0); [lia|].
    pose proof (Z.div_pos numWarehouses numPartitions ltac:(lia) ltac:(lia)). lia. }
  split; [exact Hshare|].
  assert (Hidx : Z.to_nat (uint32 (numPartitions - 1)) = pred (Z.to_nat numPartitions)).
  { unfold uint32. rewrite Z.mod_small by lia. lia. }
  rewrite Hidx, list_lookup_insert_ne by lia.
  rewrite (pushed_lookup FieldToKeyString_int16) by lia.
  replace (1 + Z.of_nat (Z.to_nat i)) with (i + 1) by lia.
  split; [|split; [|split]]; intros Hv.
  - rewrite int16_small; [reflexivity|]. change (2 ^ 15) with 32768 in *. nia.
  - rewrite int16_wraps by exact Hv. reflexivity.
  - lia.
  - lia.
Qed.

(** X21. For [numPartitions = 4294967295] the loop of [getRangeEnds] never
    ends: its 32-bit counter can never exceed the bound, so no number of
    iterations is enough, whatever the number of warehouses. *)
Theorem getRangeEnds_never_returns_at_uint32_max (fuel : nat) (numWarehouses : Z) :
  getRangeEnds FieldToKeyString_int16 fuel (2 ^ 32 - 1) numWarehouses = None.
Proof.
  unfold getRangeEnds.
  rewrite (getRangeEnds_loop_uint32_max FieldToKeyString_int16) by lia. reflexivity.
Qed.
End getRangeEnds.

Lemma warehouse_in_range_witness :
  1 <= warehouse (curTxn 5 4 10 0 44) <= 4
  /\ warehouse (curTxn 5 4 10 0 44) = 5 mod 4 + 1.
Proof. apply (warehouse_in_range 5 4 10 0 44); [split; [lia | reflexivity] | split; [lia | reflexivity]]. Defined.

Lemma data_load_covers_every_warehouse_once_witness :
  (Z.rem 8 4 <> 0 -> forall id, data_load_warehouses 4 id 8 = None)
  /\ (Z.rem 8 4 = 0 ->
      (forall id, data_load_warehouses 4 id 8 = Some (1 + id * (8 / 4), 1 + (id + 1) * (8 / 4)))
      /\ forall w, 1 <= w <= 8 ->
           exists id,
             0 <= id < 4
             /\ (exists first last,
                   data_load_warehouses 4 id 8 = Some (first, last) /\ first <= w < last)
             /\ forall id' first last,
                  data_load_warehouses 4 id' 8 = Some (first, last) ->
                  first <= w < last -> id' = id).
Proof. apply (data_load_covers_every_warehouse_once 4 8); lia. Defined.

Lemma getRangeEnds_values_witness :
  exists rangeEnds : list string,
    getRangeEnds toy_encoding 4 3 10 = Some rangeEnds
    /\ 1 <= share_of 3 10
    /\ ((1 + 1) * share_of 3 10 + 1 < 2 ^ 15 ->
        rangeEnds !! Z.to_nat 1 = Some (toy_encoding ((1 + 1) * share_of 3 10 + 1)))
    /\ (2 ^ 15 <= (1 + 1) * share_of 3 10 + 1 < 2 ^ 16 + 2 ^ 15 ->
        rangeEnds !! Z.to_nat 1 = Some (toy_encoding ((1 + 1) * share_of 3 10 + 1 - 2 ^ 16)))
    /\ ((1 + 1) * share_of 3 10 + 1 < 2 ^ 16 -> (1 + 1) * share_of 3 10 + 1 - 2 ^ 16 < 0)
    /\ (2 ^ 16 <= (1 + 1) * share_of 3 10 + 1 < 2 ^ 16 + 2 ^ 15 ->
        0 <= (1 + 1) * share_of 3 10 + 1 - 2 ^ 16 < 2 ^ 15).
Proof.
  apply (getRangeEnds_values toy_encoding 3 10 4 1);
    [split; [lia | reflexivity] | lia | simpl; lia | lia].
Defined.

Example data_load_uneven : data_load_warehouses 4 1 10 = None.
Proof. reflexivity. Qed.

(** With 131072 warehouses on two partitions the first range end is
    65537, which the conversion takes to 1. *)
Example getRangeEnds_wraps_around :
  getRangeEnds (fun z => if z =? 1 then "one" else "other") 3 2 131072
  = Some ["one"; ""].
Proof. vm_compute. reflexivity. Qed.

Example getRangeEnds_wraps :
  getRangeEnds (fun z => if z <? 0 then "negative" else "positive") 3 2 65536
  = Some ["negative"; ""].
Proof. vm_compute. reflexivity. Qed.

End TPCCClient_Properties.

Module TSOControl_Properties.
Import Int TSO TSOService TSOControl TSO_Properties.

Section Worker.
Variable this_shard_id : Z.
Hypothesis shard_pos : 1 <= this_shard_id.

Local Abbreviation clock_in_range := (TSOService.clock_in_range this_shard_id).
Local Abbreviation slot := (TSO.slot this_shard_id).
Local Abbreviation chain := (TSO.chain this_shard_id).
Local Abbreviation update_ok := (TSOControl.update_ok this_shard_id).
Local Abbreviation GetTimestampFromTSO := (TSO.GetTimestampFromTSO this_shard_id true).

Lemma busy_wait_suffix {A : Type} (w : TSOWorker) (retry : list Z -> option A) (clock : list Z) :
  forall (cur : Z) (r : A),
    busy_wait w retry cur clock = Some r ->
    exists clock', clock' `suffix_of` clock /\ retry clock' = Some r.
Proof.
  induction clock as [|now clock IH]; intros cur r; simpl;
    destruct (cur =? _lastRequestTBEMicroSecRounded w); try discriminate.
  - intros Hr. exists []. split; [reflexivity | exact Hr].
  - intros Hr. destruct (IH _ _ Hr) as (clock' & Hsuf & Hr').
    exists clock'. split; [apply suffix_cons_r; exact Hsuf | exact Hr'].
  - intros Hr. exists (now :: clock). split; [reflexivity | exact Hr].
Qed.

Lemma clock_in_range_suffix (ci : TSOWorkerControlInfo) (clock clock' : list Z) :
  clock' `suffix_of` clock -> clock_in_range ci clock -> clock_in_range ci clock'.
Proof.
  intros [used ->] H. apply Forall_app in H. apply H.
Qed.

(** With [K2ASSERT] enabled, a call that returns a batch leaves the
    microsecond of the batch and the first slot free in it in the worker,
    whatever the clock did. *)
Lemma GetTimestampFromTSO_state (n : nat) :
  forall (clock : list Z), (length clock <= n)%nat ->
  forall (w : TSOWorker) (req : Z) (out : Outcome) (w' : TSOWorker) (clock' : list Z),
    worker_ok w -> clock_in_range (_curControlInfo w) clock -> 0 <= req ->
    GetTimestampFromTSO clock w req = Some (out, w', clock') ->
    clock' `suffix_of` clock
    /\ match out with
       | Returned b =>
           worker_ok w' /\ _curControlInfo w' = _curControlInfo w
           /\ exists k,
                slot (_curControlInfo w) b (_lastRequestTBEMicroSecRounded w') k
                /\ (_lastRequestTBEMicroSecRounded w < _lastRequestTBEMicroSecRounded w'
                    \/ (_lastRequestTBEMicroSecRounded w = _lastRequestTBEMicroSecRounded w'
                        /\ _lastRequestTimeStampCount w <= k))
                /\ _lastRequestTimeStampCount w' = k + TimestampBatch.TSCount b
       | Thrown _ => w' = w
       end.
Proof.
  induction n as [|n IH]; intros [|now clock] Hlen w req out w' clock' Hw Hclock Hreq;
    simpl in Hlen; try lia; try discriminate.
  cbn [TSO.GetTimestampFromTSO]. unfold GetTimeStampFromTSOLessFrequentHelper.
  apply Forall_cons in Hclock. destruct Hclock as [[Hnow Hnowb] Hclock].
  assert (Hhere : clock `suffix_of` now :: clock) by (apply suffix_cons_r; reflexivity).
  assert (Hretry : forall clock1,
             clock1 `suffix_of` clock ->
             GetTimestampFromTSO clock1 w req = Some (out, w', clock') ->
             clock' `suffix_of` now :: clock
             /\ match out with
                | Returned b =>
                    worker_ok w' /\ _curControlInfo w' = _curControlInfo w
                    /\ exists k,
                         slot (_curControlInfo w) b (_lastRequestTBEMicroSecRounded w') k
                         /\ (_lastRequestTBEMicroSecRounded w < _lastRequestTBEMicroSecRounded w'
                             \/ (_lastRequestTBEMicroSecRounded w = _lastRequestTBEMicroSecRounded w'
                                 /\ _lastRequestTimeStampCount w <= k))
                         /\ _lastRequestTimeStampCount w' = k + TimestampBatch.TSCount b
                | Thrown _ => w' = w
                end).
  { intros clock1 Hsuf Hcall.
    destruct (IH clock1 ltac:(apply suffix_length in Hsuf; lia) w req out w' clock' Hw
                ltac:(eapply clock_in_range_suffix; eassumption) Hreq Hcall) as [Hs Hout].
    split; [|exact Hout]. etrans; [exact Hs|]. etrans; [exact Hsuf | exact Hhere]. }
  clear IH.
  destruct Hw as (Hstep & Hadj & Hlast0 & Hlastm & Hcnt).
  rewrite (TBEMicroSecRounded_us this_shard_id shard_pos w now) by assumption.
  set (ci := _curControlInfo w) in *.
  set (cur := us (now + TBEAdjustment ci)) in *.
  set (step := TBENanoSecStep ci) in *.
  set (last := _lastRequestTBEMicroSecRounded w) in *.
  set (cnt := _lastRequestTimeStampCount w) in *.
  set (thr := ReservedTimeThreshold ci) in *.
  assert (Hcur : 0 <= cur <= now + TBEAdjustment ci /\ cur mod 1000 = 0)
    by (unfold cur, us; dlia).
  pose proof (per_us_bounds step Hstep) as HN.
  pose proof (slots_fit step cnt Hstep Hcnt) as Hfit.
  change (2 ^ 64) with 18446744073709551616 in Hnowb.
  rewrite (uint64_small (cur + 1000)) by (change (2 ^ 64) with 18446744073709551616; lia).
  rewrite (uint16_small (1000 / step)) by (change (2 ^ 16) with 65536; lia).
  rewrite (uint16_small (1000 / step - cnt)) by (change (2 ^ 16) with 65536; lia).
  destruct (IsReadyToIssueTS ci); simpl; [|intros [= <- <- <-]; auto].
  destruct (IgnoreThreshold ci || (cur + 1000 <? thr));
    destruct (Z.ltb_spec last cur) as [Hnew | Hold]; simpl.
  1:{ destruct ((thr <? cur + 1000) && negb (IgnoreThreshold ci));
        intros [= <- <- <-]; [auto|].
      split; [exact Hhere|]. unfold worker_ok, TSO.slot; simpl. fold ci step.
      rewrite uint64_small by (change (2 ^ 64) with 18446744073709551616; lia).
      split; [repeat split; lia|]. split; [reflexivity|].
      exists 0. repeat split; lia. }
  all: destruct ((thr <? cur + 1000) && negb (IgnoreThreshold ci));
    [intros [= <- <- <-]; auto|].
  all: destruct (Z.ltb_spec cur last) as [Hback | Hnotback];
    [intros [= <- <- <-]; auto|].
  all: destruct (Z.eqb_spec cur last) as [Hsame | Hother]; simpl;
    [|intros [= <- <- <-]; auto].
  all: destruct (Z.ltb_spec (1000 / step - cnt) req) as [Hshort | Henough];
    [intros Hb; apply busy_wait_suffix in Hb as (clock1 & Hsuf & Hr);
     exact (Hretry _ Hsuf Hr)|].
  all: intros [= <- <- <-].
  all: split; [exact Hhere|]; unfold worker_ok, TSO.slot; simpl; fold ci step last cnt.
  all: rewrite uint64_small by (change (2 ^ 64) with 18446744073709551616; lia).
  all: rewrite uint16_small by (change (2 ^ 16) with 65536; lia).
  all: split; [repeat split; lia|]; split; [reflexivity|].
  all: exists cnt; repeat split; lia.
Qed.

Lemma busy_sleep_suffix (w : TSOWorker) (pause : Z) (clock : list Z) :
  forall (cur : Z) (clock' : list Z),
    busy_sleep w pause cur clock = Some clock' -> clock' `suffix_of` clock.
Proof.
  induction clock as [|now clock IH]; intros cur clock'; simpl;
    destruct (uint64 (cur - pause) <? _lastRequestTBEMicroSecRounded w); try discriminate.
  - intros [= <-]. reflexivity.
  - intros Hs. apply suffix_cons_r. exact (IH _ _ Hs).
  - intros [= <-]. reflexivity.
Qed.

(** An update that does not end the process leaves the last request time
    and count of the worker as they were, and its control information is the
    new one or, for a noop, the old one. *)
Lemma UpdateWorkerControlInfo_state (K2ASSERT_enabled : bool)
    (clock clock' : list Z) (w w' : TSOWorker) (controlInfo : TSOWorkerControlInfo) :
  UpdateWorkerControlInfo K2ASSERT_enabled clock w controlInfo = Some (Done w', clock') ->
  clock' `suffix_of` clock
  /\ (w' = set_curControlInfo controlInfo w \/ w' = w).
Proof.
  unfold UpdateWorkerControlInfo, AdjustWorker.
  destruct (IsReadyToIssueTS (_curControlInfo w)), (IsReadyToIssueTS controlInfo); simpl;
    rewrite ?andb_false_r; simpl.
  - destruct (0 <? _).
    + destruct clock as [|now clock]; [discriminate|].
      destruct (busy_sleep _ _ _ _) as [clock1|] eqn:Hs; [|discriminate].
      intros [= <- <-]. apply busy_sleep_suffix in Hs.
      split; [apply suffix_cons_r; exact Hs | left; reflexivity].
    + intros [= <- <-]. split; [reflexivity | left; reflexivity].
  - intros [= <- <-]. split; [reflexivity | left; reflexivity].
  - intros [= <- <-]. split; [reflexivity | left; reflexivity].
  - destruct K2ASSERT_enabled; [discriminate|].
    intros [= <- <-]. split; [reflexivity | right; reflexivity].
Qed.

Lemma chain_same_step (ci ci' : TSOWorkerControlInfo) (c e : Z) (bs : list TimestampBatch.t) :
  TBENanoSecStep ci = TBENanoSecStep ci' -> chain ci c e bs -> chain ci' c e bs.
Proof.
  intros Hs Hchain. induction Hchain as [|c e b bs cur k Hslot Hnext _ IH]; [constructor|].
  econstructor; [|exact Hnext | exact IH].
  unfold TSO.slot in *. rewrite <- Hs. exact Hslot.
Qed.

Lemma update_ok_suffix (step : Z) (clock clock' : list Z) (ops : list WorkerCall) :
  clock' `suffix_of` clock -> Forall (update_ok step clock) ops ->
  Forall (update_ok step clock') ops.
Proof.
  intros Hsuf Hops. eapply Forall_impl; [exact Hops|].
  intros [request | controlInfo]; simpl; [trivial|].
  intros (H1 & H2 & H3). repeat split; try assumption.
  eapply clock_in_range_suffix; eassumption.
Qed.

Lemma serve_chain (what : string) (default : TimestampBatch.t) (ops : list WorkerCall) :
  forall (clock : list Z) (w : TSOWorker) (answers : list Handled),
    worker_ok w -> clock_in_range (_curControlInfo w) clock ->
    Forall (update_ok (TBENanoSecStep (_curControlInfo w)) clock) ops ->
    serve this_shard_id true what default clock w ops = Some answers ->
    chain (_curControlInfo w) (_lastRequestTBEMicroSecRounded w)
      (_lastRequestTimeStampCount w) (delivered answers).
Proof.
  induction ops as [|[request | controlInfo] ops IH]; intros clock w answers Hw Hclock Hops; simpl.
  - intros [= <-]. constructor.
  - apply Forall_cons in Hops. destruct Hops as [_ Hops].
    unfold handleGetTSOTimestampBatch. simpl.
    destruct (Z.ltb_spec 0 (batchSizeRequested request)) as [Hreq | Hreq]; simpl;
      [|intros [= <-]; constructor].
    destruct (GetTimestampFromTSO clock w (batchSizeRequested request))
      as [[[out w'] clock']|] eqn:Hcall; [|discriminate].
    destruct (GetTimestampFromTSO_state (length clock) clock (le_n _) w _ out w' clock'
                Hw Hclock (Z.lt_le_incl _ _ Hreq) Hcall) as [Hsuf Hout].
    destruct out as [b | [|]].
    + destruct Hout as (Hw' & Hci & k & Hslot & Hnext & Hcount).
      destruct (serve _ _ _ _ clock' w' ops) as [answers'|] eqn:Hrest; [|discriminate].
      intros [= <-]. simpl. econstructor; [exact Hslot | |].
      * destruct Hnext as [Hlt | [Heq Hle]]; [left; exact Hlt | right; split; assumption].
      * rewrite <- Hcount, <- Hci. apply (IH clock'); try assumption.
        -- rewrite Hci. eapply clock_in_range_suffix; eassumption.
        -- rewrite Hci. eapply update_ok_suffix; eassumption.
    + subst w'.
      destruct (serve _ _ _ _ clock' w ops) as [answers'|] eqn:Hrest; [|discriminate].
      intros [= <-]. simpl. apply (IH clock'); try assumption.
      * eapply clock_in_range_suffix; eassumption.
      * eapply update_ok_suffix; eassumption.
    + intros [= <-]. constructor.
  - apply Forall_cons in Hops. destruct Hops as [(Hstep & Hadj & Hrange) Hops].
    destruct (UpdateWorkerControlInfo true clock w controlInfo) as [[[w'|] clock']|] eqn:Hupd;
      [|intros [= <-]; constructor|discriminate].
    apply UpdateWorkerControlInfo_state in Hupd as [Hsuf Hw'].
    intros Hrest.
    destruct Hw' as [-> | ->].
    + apply (chain_same_step controlInfo); [exact Hstep|].
      apply (IH clock' (set_curControlInfo controlInfo w)); simpl.
      * destruct Hw as (H1 & H2 & H3 & H4 & H5). unfold worker_ok; simpl.
        rewrite Hstep. repeat split; assumption || lia.
      * eapply clock_in_range_suffix; eassumption.
      * rewrite Hstep. eapply update_ok_suffix; eassumption.
      * exact Hrest.
    + apply (IH clock'); try assumption.
      * eapply clock_in_range_suffix; eassumption.
      * eapply update_ok_suffix; eassumption.
Qed.

(** X23. With [K2ASSERT] enabled, over any sequence of requests and updates
    of the control information on one worker, whatever the clock reads: if
    the updates keep [TBENanoSecStep] and no reading overflows 64 bits under
    any of the adjustments, every timestamp of a later batch delivered is
    greater than every timestamp of an earlier one, all timestamps
    delivered form a strictly increasing sequence in the order of delivery,
    and none is below the first slot that the worker had free when the
    sequence started. *)
Theorem timestamps_increase_across_control_updates
    (what : string) (default : TimestampBatch.t)
    (clock : list Z) (w : TSOWorker) (ops : list WorkerCall) (answers : list Handled) :
  worker_ok w -> clock_in_range (_curControlInfo w) clock ->
  Forall (update_ok (TBENanoSecStep (_curControlInfo w)) clock) ops ->
  serve this_shard_id true what default clock w ops = Some answers ->
  (forall (i j : nat) b1 b2 t1 t2,
     (i < j)%nat -> delivered answers !! i = Some b1 -> delivered answers !! j = Some b2 ->
     t1 ∈ timestamps b1 -> t2 ∈ timestamps b2 -> t1 < t2)
  /\ StronglySorted Z.lt (all_timestamps (delivered answers))
  /\ (forall b t, b ∈ delivered answers -> t ∈ timestamps b ->
        _lastRequestTBEMicroSecRounded w + (this_shard_id - 1)
        + _lastRequestTimeStampCount w * TBENanoSecStep (_curControlInfo w) <= t).
Proof.
  intros Hw Hclock Hops Hserve.
  pose proof (serve_chain what default ops clock w answers Hw Hclock Hops Hserve) as Hchain.
  destruct Hw as (Hstep & _ & _ & Hlastm & Hcnt).
  split; [|split].
  - eapply chain_cross; eassumption.
  - eapply chain_sorted; eassumption.
  - eapply chain_lower_bound; try eassumption. apply Hcnt.
Qed.

(** X24. An update that takes a whole number of microseconds off
    [TBEAdjustment] and does not shorten [BatchTTL] pauses for exactly that
    long, also when it changes [TBENanoSecStep]. When the clock, which need
    not go back, then reads in the microsecond of the last request under
    the new adjustment, the next batch is taken from that microsecond at
    the old count with the new step: with a smaller step it starts below
    the first slot that was free before the update. *)
Theorem step_change_with_adjustment_shrink_resumes_in_the_same_microsecond
    (K2ASSERT_enabled : bool) (w : TSOWorker) (controlInfo : TSOWorkerControlInfo)
    (d now_a now_r batchSizeRequested : Z) (clock : list Z) :
  worker_ok w -> IsReadyToIssueTS (_curControlInfo w) = true ->
  IsReadyToIssueTS controlInfo = true ->
  0 < TBENanoSecStep controlInfo -> 0 <= TBEAdjustment controlInfo ->
  TBEAdjustment (_curControlInfo w) = TBEAdjustment controlInfo + d ->
  1000 <= d -> d mod 1000 = 0 ->
  BatchTTL (_curControlInfo w) <= BatchTTL controlInfo ->
  0 <= now_a <= now_r ->
  now_r + TBEAdjustment (_curControlInfo w) + this_shard_id + 1000 <= 2 ^ 64 ->
  _lastRequestTBEMicroSecRounded w + d <= us (now_a + TBEAdjustment (_curControlInfo w)) ->
  us (now_r + TBEAdjustment controlInfo) = _lastRequestTBEMicroSecRounded w ->
  IgnoreThreshold controlInfo = true
  \/ _lastRequestTBEMicroSecRounded w + 1000 <= ReservedTimeThreshold controlInfo ->
  0 <= batchSizeRequested
    <= 1000 / TBENanoSecStep controlInfo - _lastRequestTimeStampCount w ->
  UpdateWorkerControlInfo K2ASSERT_enabled (now_a :: now_r :: clock) w controlInfo
  = Some (Done (set_curControlInfo controlInfo w), now_r :: clock)
  /\ exists b w',
       TSO.GetTimestampFromTSO this_shard_id K2ASSERT_enabled (now_r :: clock)
         (set_curControlInfo controlInfo w) batchSizeRequested
       = Some (Returned b, w', clock)
       /\ TimestampBatch.TSCount b = batchSizeRequested
       /\ TimestampBatch.TBENanoSecStep b = TBENanoSecStep controlInfo
       /\ TimestampBatch.TBEBase b
          = _lastRequestTBEMicroSecRounded w + (this_shard_id - 1)
            + _lastRequestTimeStampCount w * TBENanoSecStep controlInfo
       /\ (TBENanoSecStep controlInfo < TBENanoSecStep (_curControlInfo w) ->
           0 < _lastRequestTimeStampCount w ->
           TimestampBatch.TBEBase b
           < _lastRequestTBEMicroSecRounded w + (this_shard_id - 1)
             + _lastRequestTimeStampCount w * TBENanoSecStep (_curControlInfo w)).
Proof.
  intros (Hstep & Hadj & Hlast0 & Hlastm & Hcnt) Hready Hready' Hstep' Hadj' Hd Hd1 Hdm Httl
    Hnow Hrange Hpause Hsame Hthr Hreq.
  change (2 ^ 64) with 18446744073709551616 in Hrange.
  set (last := _lastRequestTBEMicroSecRounded w) in *.
  set (cnt := _lastRequestTimeStampCount w) in *.
  assert (Hp : timeToPauseWorkerNanoSec (_curControlInfo w) controlInfo = d).
  { unfold timeToPauseWorkerNanoSec.
    replace (TBEAdjustment controlInfo <? TBEAdjustment (_curControlInfo w)) with true
      by (symmetry; apply Z.ltb_lt; lia).
    replace (BatchTTL controlInfo <? BatchTTL (_curControlInfo w)) with false
      by (symmetry; apply Z.ltb_ge; lia).
    replace (0 + (TBEAdjustment (_curControlInfo w) - TBEAdjustment controlInfo)) with d by lia.
    rewrite (uint64_small d) by (change (2 ^ 64) with 18446744073709551616; lia).
    replace (d <? 1000) with false by (symmetry; apply Z.ltb_ge; lia).
    rewrite andb_false_r.
    replace (d / 1000 * 1000) with d by dlia.
    rewrite Z.eqb_refl, andb_false_r. reflexivity. }
  split.
  - unfold UpdateWorkerControlInfo, AdjustWorker. rewrite Hready, Hready', Hp. simpl.
    rewrite andb_false_r.
    replace (0 <? d) with true by (symmetry; apply Z.ltb_lt; lia).
    rewrite (TBEMicroSecRounded_us this_shard_id shard_pos w now_a) by lia.
    cbn [busy_sleep]. fold last.
    assert (us (now_a + TBEAdjustment (_curControlInfo w))
            <= now_a + TBEAdjustment (_curControlInfo w)) by (unfold us; dlia).
    rewrite uint64_small by (change (2 ^ 64) with 18446744073709551616; lia).
    replace (_ <? last) with false by (symmetry; apply Z.ltb_ge; lia).
    reflexivity.
  - cbn [TSO.GetTimestampFromTSO]. unfold GetTimeStampFromTSOLessFrequentHelper.
    rewrite (TBEMicroSecRounded_us this_shard_id shard_pos
               (set_curControlInfo controlInfo w) now_r) by (simpl; lia).
    simpl. rewrite Hsame, Hready'. fold last cnt.
    pose proof (per_us_bounds _ Hstep') as HN.
    assert (Hcnt' : 0 <= cnt <= 1000 / TBENanoSecStep controlInfo) by lia.
    pose proof (slots_fit _ cnt Hstep' Hcnt') as Hfit.
    assert (last <= now_r + TBEAdjustment controlInfo) by (rewrite <- Hsame; unfold us; dlia).
    rewrite (uint64_small (last + 1000)) by (change (2 ^ 64) with 18446744073709551616; lia).
    rewrite Z.ltb_irrefl, andb_false_r, Z.eqb_refl, andb_false_r. simpl.
    replace ((ReservedTimeThreshold controlInfo <? last + 1000)
             && negb (IgnoreThreshold controlInfo)) with false.
    2:{ symmetry. destruct Hthr as [-> | Hthr]; [apply andb_false_r|].
        replace (_ <? _) with false by (symmetry; apply Z.ltb_ge; lia). reflexivity. }
    rewrite (uint16_small (1000 / _ - cnt)) by (change (2 ^ 16) with 65536; lia).
    replace (_ <? batchSizeRequested) with false by (symmetry; apply Z.ltb_ge; lia).
    rewrite uint64_small by (change (2 ^ 64) with 18446744073709551616; lia).
    eexists _, _. split; [reflexivity|]. simpl.
    split; [reflexivity|]. split; [reflexivity|]. split; [lia|].
    intros Hless Hpos. nia.
Qed.

End Worker.

Example serve_operations2 :
  serve 1 true "TSO not ready" TimestampBatch_zero clock3 worker2 operations2 = Some answers2.
Proof. vm_compute. reflexivity. Qed.

Lemma timestamps_increase_across_control_updates_witness :
  (forall (i j : nat) b1 b2 t1 t2,
     (i < j)%nat -> delivered answers2 !! i = Some b1 -> delivered answers2 !! j = Some b2 ->
     t1 ∈ timestamps b1 -> t2 ∈ timestamps b2 -> t1 < t2)
  /\ StronglySorted Z.lt (all_timestamps (delivered answers2))
  /\ (forall b t, b ∈ delivered answers2 -> t ∈ timestamps b ->
        _lastRequestTBEMicroSecRounded worker2 + (1 - 1)
        + _lastRequestTimeStampCount worker2 * TBENanoSecStep (_curControlInfo worker2) <= t).
Proof.
  apply (timestamps_increase_across_control_updates 1 ltac:(lia) "TSO not ready"
           TimestampBatch_zero clock3 worker2 operations2 answers2).
  - unfold worker_ok; simpl. repeat split; first [reflexivity | vm_compute; discriminate].
  - unfold TSOService.clock_in_range. change (2 ^ 64) with 18446744073709551616.
    repeat constructor; simpl; lia.
  - unfold TSOControl.update_ok, TSOService.clock_in_range.
    change (2 ^ 64) with 18446744073709551616.
    repeat constructor; simpl; lia.
  - vm_compute. reflexivity.
Defined.

Example serve_operations4 :
  serve 1 true "TSO not ready" TimestampBatch_zero clock4 worker2 operations4 = Some answers4.
Proof. vm_compute. reflexivity. Qed.

(** On [clock4], which does not go back, the timestamp 20400 is delivered
    twice: in the batch before the update and in the one after it. *)
Example timestamps_of_answers4 :
  all_timestamps (delivered answers4) = [20300; 20400; 20500; 20600; 20350; 20400].
Proof. reflexivity. Qed.

Lemma step_change_with_adjustment_shrink_resumes_in_the_same_microsecond_witness :
  UpdateWorkerControlInfo true [19000; 19500] worker2 controlInfo4
  = Some (Done (set_curControlInfo controlInfo4 worker2), [19500])
  /\ exists b w',
       GetTimestampFromTSO 1 true [19500] (set_curControlInfo controlInfo4 worker2) 2
       = Some (Returned b, w', [])
       /\ TimestampBatch.TSCount b = 2
       /\ TimestampBatch.TBENanoSecStep b = TBENanoSecStep controlInfo4
       /\ TimestampBatch.TBEBase b
          = _lastRequestTBEMicroSecRounded worker2 + (1 - 1)
            + _lastRequestTimeStampCount worker2 * TBENanoSecStep controlInfo4
       /\ (TBENanoSecStep controlInfo4 < TBENanoSecStep (_curControlInfo worker2) ->
           0 < _lastRequestTimeStampCount worker2 ->
           TimestampBatch.TBEBase b
           < _lastRequestTBEMicroSecRounded worker2 + (1 - 1)
             + _lastRequestTimeStampCount worker2 * TBENanoSecStep (_curControlInfo worker2)).
Proof.
  apply (step_change_with_adjustment_shrink_resumes_in_the_same_microsecond 1 ltac:(lia)
           true worker2 controlInfo4 2000 19000 19500 2 []).
  - unfold worker_ok; simpl. repeat split; first [reflexivity | vm_compute; discriminate].
  - reflexivity.
  - reflexivity.
  - simpl; lia.
  - simpl; lia.
  - reflexivity.
  - lia.
  - reflexivity.
  - simpl; lia.
  - lia.
  - simpl. change (2 ^ 64) with 18446744073709551616. lia.
  - vm_compute. discriminate.
  - reflexivity.
  - right. simpl. lia.
  - vm_compute. split; discriminate.
Defined.

(** C3 (the code at a failing input). In a build without [K2ASSERT], the
    worker [worker3], whose reserved threshold is 6000 and is not ignored,
    is asked for three timestamps at a reading of 5000: one microsecond
    before the threshold the fast path is not taken ([cur + 1000 <
    threshold] fails) and the helper does not refuse ([cur + 1000 >
    threshold] fails), so the helper issues 5000, 5100, 5200 as if the
    request were in the microsecond of the last one and leaves
    [_lastRequestTBEMicroSecRounded] at 0. After the threshold is refreshed,
    the next call, at a reading of 5200, takes the fast path for the
    microsecond 5000 and issues 5000, 5100, 5200 again. The clock did not go
    back and all three calls succeeded. With [K2ASSERT] enabled, the run of
    [operations4] on [worker2], in which the step is halved and the
    adjustment taken back by two microseconds between two requests,
    delivers 20400 twice. *)
Theorem threshold_refresh_reissues_timestamps :
  (exists b1 w1 w2 b2 w3,
     GetTimestampFromTSO 1 false [5000; 5200] worker3 3 = Some (Returned b1, w1, [5200])
     /\ _lastRequestTBEMicroSecRounded w1 = 0
     /\ UpdateWorkerControlInfo false [5200] w1 controlInfo5 = Some (Done w2, [5200])
     /\ GetTimestampFromTSO 1 false [5200] w2 3 = Some (Returned b2, w3, [])
     /\ timestamps b1 = [5000; 5100; 5200]
     /\ timestamps b2 = [5000; 5100; 5200]
     /\ ~ StronglySorted Z.lt (all_timestamps [b1; b2]))
  /\ serve 1 true "TSO not ready" TimestampBatch_zero clock4 worker2 operations4
     = Some answers4
  /\ all_timestamps (delivered answers4) = [20300; 20400; 20500; 20600; 20350; 20400].
Proof.
  split; [|split; [vm_compute; reflexivity | reflexivity]].
  do 5 eexists.
  split; [vm_compute; reflexivity|]. split; [reflexivity|].
  split; [vm_compute; reflexivity|]. split; [vm_compute; reflexivity|].
  split; [reflexivity|]. split; [reflexivity|].
  intros Hsorted. apply StronglySorted_inv in Hsorted. destruct Hsorted as [_ Hall].
  vm_compute in Hall. apply Forall_cons in Hall. destruct Hall as [_ Hall].
  apply Forall_cons in Hall. destruct Hall as [_ Hall].
  apply Forall_cons in Hall. destruct Hall as [Hlt _]. discriminate Hlt.
Qed.

(** C10 (the code at a failing input). On the same run with ten
    timestamps asked for after the refresh, the worker issues three and then
    ten timestamps against the microsecond 5000, thirteen where
    [1000 / TBENanoSecStep] is ten. *)
Theorem threshold_refresh_exceeds_the_microsecond :
  exists b1 w1 w2 b2 w3,
    GetTimestampFromTSO 1 false [5000; 5200] worker3 3 = Some (Returned b1, w1, [5200])
    /\ UpdateWorkerControlInfo false [5200] w1 controlInfo5 = Some (Done w2, [5200])
    /\ GetTimestampFromTSO 1 false [5200] w2 10 = Some (Returned b2, w3, [])
    /\ TimestampBatch.TSCount b1 = 3 /\ TimestampBatch.TSCount b2 = 10
    /\ TSO.issued_in_microsecond 1 5000 (all_timestamps [b1; b2]) = 13
    /\ 1000 / TBENanoSecStep (_curControlInfo worker3) = 10
    /\ 1000 / TBENanoSecStep controlInfo5 = 10.
Proof.
  do 5 eexists.
  split; [vm_compute; reflexivity|]. split; [vm_compute; reflexivity|].
  split; [vm_compute; reflexivity|]. repeat split.
Qed.

End TSOControl_Properties.
